(** * tner: checkpoint-resumable trainer and three-phase grid search

    A shallow embedding of [tner/ner_trainer.py]: the [Trainer]
    (construction with resume scan, [save], [setup_optimizer], [train])
    and the [GridSearcher] (construction, [run], [eval_single_model]),
    together with [get_random_string].

    Modelling conventions.
    - Python exceptions are results: a pure function returns [outcome A],
      a function with side effects is a state transformer on [world] that
      returns an [outcome] and the world as the side effects left it.
    - The file tree under the grid-search root is a structured store: the
      files directly under the root are keyed by their relative path, a
      checkpoint directory is keyed by its base name and holds its epoch
      directories and optimizer snapshots keyed by the epoch number.
    - A trainer config file is a record of the twelve keys that
      [Trainer.__init__] writes, and the names of the epoch directories
      are read as numbers; files of another shape are outside the model.
    - The transformer wrapper, the optimizer, one epoch of mini-batch
      updates, the dataset and the evaluation are collaborators outside
      the file; they are parameters of the development.  The evaluation
      makes the [eval] directory of the checkpoint it evaluates.  Logging
      is not modelled.
    - [while] loops take fuel, and running out of it is the distinct
      outcome [Diverge]. *)

From Stdlib Require Import Ascii ArithRing.
From stdpp Require Import gmap strings list fin_maps pretty sorting.

Local Open Scope string_scope.
Local Open Scope list_scope.
Local Open Scope nat_scope.

(** ** Exceptions and outcomes *)

Inductive exn :=
  | AssertionError
  | ValueError
  | KeyError
  | IndexError
  | NameError
  | AttributeError
  | ZeroDivisionError
  | FileNotFoundError
  | OSError.

Inductive outcome (A : Type) :=
  | Ok (a : A)
  | Raise (e : exn)
  | Diverge.
Arguments Ok {A} a.
Arguments Raise {A} e.
Arguments Diverge {A}.

Definition obind {A B} (m : outcome A) (f : A → outcome B) : outcome B :=
  match m with
  | Ok a => f a
  | Raise e => Raise e
  | Diverge => Diverge
  end.

(** ** Python's [sorted]

    [py_sorted R l] is the stable sort of [l] in which [R x y] reads
    "x may stand before y": [sorted(l)] is [py_sorted (≤) l] and
    [sorted(l, reverse=True)] is [py_sorted (flip (≤)) l].  An element is
    placed before the first later element it may precede, so elements that
    compare equal keep their original order, as Python guarantees with and
    without [reverse]. *)

Section py_sorted.
Context {A : Type} (R : relation A) `{!RelDecision R}.

Fixpoint insert_sorted (x : A) (l : list A) : list A :=
  match l with
  | [] => [x]
  | y :: l' => if decide (R x y) then x :: y :: l' else y :: insert_sorted x l'
  end.

Definition py_sorted (l : list A) : list A := foldr insert_sorted [] l.
End py_sorted.

(** [l.index(x)]: the first position of [x], [ValueError] when absent. *)
Fixpoint py_index {A} `{EqDecision A} (x : A) (l : list A) : outcome nat :=
  match l with
  | [] => Raise ValueError
  | y :: l' =>
      if decide (y = x) then Ok 0 else obind (py_index x l') (λ i, Ok (S i))
  end.

(** [str.replace('model_', '')]: every non-overlapping occurrence, found
    left to right, is dropped.  [skip] counts the characters of a matched
    occurrence that are still to be dropped. *)
Fixpoint replace_model_ (skip : nat) (s : string) : string :=
  match s with
  | EmptyString => EmptyString
  | String c s' =>
      match skip with
      | S k => replace_model_ k s'
      | O => if String.prefix "model_" s then replace_model_ 5 s'
             else String c (replace_model_ 0 s')
      end
  end.

(** [string.ascii_lowercase] *)
Definition ascii_lowercase : list Ascii.ascii :=
  String.list_ascii_of_string "abcdefghijklmnopqrstuvwxyz".

(** ** Numbers

    The values of the hyperparameter axes and the metric scores are Python
    ints, bools and finite floats, which compare with each other by value.
    They are a type [V] with decidable equality and a decidable order
    [num_le]; [repr_num] is Python's [repr], [num_of_nat] reads an int
    literal, and the two float literals of [Trainer.__init__]'s signature
    are constants. *)
Class PyNum (V : Type) := {
  num_eq_dec :: EqDecision V;
  num_le : relation V;
  num_le_dec :: RelDecision num_le;
  repr_num : V → string;
  num_of_nat : nat → V;
  float_1e_4 : V;
  float_1e_7 : V;
}.

(** [a > b] on numbers. *)
Definition num_gt {V} `{PyNum V} (a b : V) : Prop := ¬ num_le a b.

Section grid.
Context {V : Type} `{PyNum V}.

(** A value of a hyperparameter axis: a number, or Python's [None]. *)
Local Abbreviation hp := (option V).

(** [a <= b] between two axis values.  [to_list] only ever sorts a list
    from which [None] has been removed; here [None] is below every number. *)
Definition hp_le (a b : hp) : Prop :=
  match a, b with
  | None, _ => True
  | Some _, None => False
  | Some x, Some y => num_le x y
  end.

#[export] Instance hp_le_dec : RelDecision hp_le.
Proof. intros [x|] [y|]; simpl; apply _. Defined.

(** *** [GridSearcher.__init__]: [to_list] *)

(** What a caller passes for an axis: a scalar, or a list. *)
Inductive axis_arg :=
  | Scalar (v : hp)
  | AxisList (l : list hp).

Definition to_list (_val : axis_arg) : outcome (list hp) :=
  match _val with
  | Scalar v => Ok [v]
  | AxisList l =>
      if decide (length l = length (remove_dups l)) then
        if decide (None ∈ l) then
          obind (py_index None l) (λ i,
            Ok (None :: py_sorted (flip hp_le) (delete i l)))
        else Ok (py_sorted (flip hp_le) l)
      else Raise AssertionError
  end.

(** *** [itertools.product] of the seven axes

    The tuples come in the order of seven nested loops, the first axis
    outermost and the last one innermost. *)
Definition grid_point : Type := hp * hp * hp * hp * hp * hp * hp.

Definition product (l0 l1 l2 l3 l4 l5 l6 : list hp) : list grid_point :=
  x0 ← l0; x1 ← l1; x2 ← l2; x3 ← l3; x4 ← l4; x5 ← l5; x6 ← l6;
  [(x0, x1, x2, x3, x4, x5, x6)].

(** [self.dynamic_config]: the normalised axes, keyed as in the source. *)
Record DynamicConfig := {
  dc_lr : list hp;
  dc_crf : list hp;
  dc_random_seed : list hp;
  dc_weight_decay : list hp;
  dc_lr_warmup_step_ratio : list hp;
  dc_max_grad_norm : list hp;
  dc_gradient_accumulation_steps : list hp;
}.

(** [self.static_config] and [self.eval_config]. *)
Record StaticConfig := {
  sc_data_split : string;
  sc_model : string;
  sc_batch_size : nat;
  sc_epoch : nat;
  sc_max_length : nat;
}.

Record EvalConfig := {
  ec_max_length_eval : nat;
  ec_metric : string;
  ec_data_split : string;
}.

Record GridSearcher := {
  eval_config : EvalConfig;
  static_config : StaticConfig;
  gs_epoch : nat;
  epoch_partial : nat;
  batch_size_eval : nat;
  n_max_config : nat;
  use_auth_token : bool;
  dynamic_config : DynamicConfig;
  all_dynamic_configs : list grid_point;
}.

(** The arguments of [GridSearcher.__init__] ([checkpoint_dir] is the root
    of the modelled file tree). *)
Record GridSearcherArgs := {
  a_data_train : string;
  a_data_dev : string;
  a_model : string;
  a_epoch : nat;
  a_epoch_partial : nat;
  a_n_max_config : nat;
  a_max_length : nat;
  a_max_length_eval : nat;
  a_batch_size : nat;
  a_batch_size_eval : nat;
  a_gradient_accumulation_steps : axis_arg;
  a_crf : axis_arg;
  a_lr : axis_arg;
  a_weight_decay : axis_arg;
  a_random_seed : axis_arg;
  a_lr_warmup_step_ratio : axis_arg;
  a_max_grad_norm : axis_arg;
  a_use_auth_token : bool;
}.

Definition GridSearcher_init (a : GridSearcherArgs) : outcome GridSearcher :=
  obind (to_list (a_lr a)) (λ lr,
  obind (to_list (a_crf a)) (λ crf,
  obind (to_list (a_random_seed a)) (λ random_seed,
  obind (to_list (a_weight_decay a)) (λ weight_decay,
  obind (to_list (a_lr_warmup_step_ratio a)) (λ lr_warmup_step_ratio,
  obind (to_list (a_max_grad_norm a)) (λ max_grad_norm,
  obind (to_list (a_gradient_accumulation_steps a)) (λ gradient_accumulation_steps,
  Ok {| eval_config := {| ec_max_length_eval := a_max_length_eval a;
                          ec_metric := "micro/f1";
                          ec_data_split := a_data_dev a |};
        static_config := {| sc_data_split := a_data_train a;
                            sc_model := a_model a;
                            sc_batch_size := a_batch_size a;
                            sc_epoch := a_epoch a;
                            sc_max_length := a_max_length a |};
        gs_epoch := a_epoch a;
        epoch_partial := a_epoch_partial a;
        batch_size_eval := a_batch_size_eval a;
        n_max_config := a_n_max_config a;
        use_auth_token := a_use_auth_token a;
        dynamic_config :=
          {| dc_lr := lr; dc_crf := crf; dc_random_seed := random_seed;
             dc_weight_decay := weight_decay;
             dc_lr_warmup_step_ratio := lr_warmup_step_ratio;
             dc_max_grad_norm := max_grad_norm;
             dc_gradient_accumulation_steps := gradient_accumulation_steps |};
        all_dynamic_configs :=
          product lr crf random_seed weight_decay lr_warmup_step_ratio
                  max_grad_norm gradient_accumulation_steps |}))))))).

(** The [Trainer]'s [self.config], with the keys of lines 77-80. *)
Record TrainingConfig := {
  cfg_data_split : string;
  cfg_model : string;
  cfg_crf : hp;
  cfg_max_length : nat;
  cfg_epoch : nat;
  cfg_batch_size : nat;
  cfg_lr : hp;
  cfg_random_seed : hp;
  cfg_gradient_accumulation_steps : hp;
  cfg_weight_decay : hp;
  cfg_lr_warmup_step_ratio : hp;
  cfg_max_grad_norm : hp;
}.

(** [config['epoch'] = epoch] *)
Definition set_cfg_epoch (c : TrainingConfig) (e : nat) : TrainingConfig :=
  {| cfg_data_split := cfg_data_split c; cfg_model := cfg_model c;
     cfg_crf := cfg_crf c; cfg_max_length := cfg_max_length c;
     cfg_epoch := e; cfg_batch_size := cfg_batch_size c; cfg_lr := cfg_lr c;
     cfg_random_seed := cfg_random_seed c;
     cfg_gradient_accumulation_steps := cfg_gradient_accumulation_steps c;
     cfg_weight_decay := cfg_weight_decay c;
     cfg_lr_warmup_step_ratio := cfg_lr_warmup_step_ratio c;
     cfg_max_grad_norm := cfg_max_grad_norm c |}.

(** The defaults of [Trainer.__init__]'s signature. *)
Definition Trainer_defaults : TrainingConfig :=
  {| cfg_data_split := "2020.train"; cfg_model := "xlm-roberta-large";
     cfg_crf := Some (num_of_nat 0); cfg_max_length := 128; cfg_epoch := 10;
     cfg_batch_size := 128; cfg_lr := Some float_1e_4;
     cfg_random_seed := Some (num_of_nat 42);
     cfg_gradient_accumulation_steps := Some (num_of_nat 4);
     cfg_weight_decay := Some float_1e_7;
     cfg_lr_warmup_step_ratio := None; cfg_max_grad_norm := None |}.

End grid.

Arguments axis_arg : clear implicits.
Arguments grid_point : clear implicits.
Arguments DynamicConfig : clear implicits.
Arguments GridSearcher : clear implicits.
Arguments GridSearcherArgs : clear implicits.
Arguments TrainingConfig : clear implicits.

(** ** The collaborators

    [TransformersNER] (loading by model name, training one epoch of
    mini-batches, evaluating on a split), the optimizer with its scheduler,
    and the global [random] generator. *)
Class Backend (V : Type) := {
  Model : Type;
  OptState : Type;
  RngState : Type;
  (** [TransformersNER(name, max_length, crf)] for a pretrained model
      name; [None] when the constructor raises. *)
  from_pretrained : string → nat → option V → option Model;
  (** [torch.optim.AdamW] and, when configured, the warmup scheduler. *)
  new_optimizer : TrainingConfig V → Model → OptState;
  (** One pass of the epoch loop's body over the data loader. *)
  train_epoch : TrainingConfig V → nat → Model → OptState → Model * OptState;
  (** [tmp_model.evaluate(...)] on a data split: metric name to score. *)
  evaluate : Model → string → gmap string V;
  (** [random.choice] over 26 letters and [random.seed]. *)
  rng_choice : RngState → nat * RngState;
  rng_seed : option V → RngState;
}.

Section store.
Context {V : Type} `{PyNum V} `{Backend V}.
Local Abbreviation hp := (option V).

(** *** The grid-search configurations as JSON objects *)

(** The values of the three grid-search config dicts. *)
Inductive pyval :=
  | PHp (v : hp)
  | PInt (n : nat)
  | PStr (s : string)
  | PList (l : list hp).

#[export] Instance pyval_eq_dec : EqDecision pyval.
Proof. solve_decision. Defined.

(** A dict, in insertion order. *)
Definition static_config_dict (c : StaticConfig) : list (string * pyval) :=
  [("data_split", PStr (sc_data_split c)); ("model", PStr (sc_model c));
   ("batch_size", PInt (sc_batch_size c)); ("epoch", PInt (sc_epoch c));
   ("max_length", PInt (sc_max_length c))].

Definition dynamic_config_dict (c : DynamicConfig V) : list (string * pyval) :=
  [("lr", PList (dc_lr c)); ("crf", PList (dc_crf c));
   ("random_seed", PList (dc_random_seed c));
   ("weight_decay", PList (dc_weight_decay c));
   ("lr_warmup_step_ratio", PList (dc_lr_warmup_step_ratio c));
   ("max_grad_norm", PList (dc_max_grad_norm c));
   ("gradient_accumulation_steps", PList (dc_gradient_accumulation_steps c))].

Definition eval_config_dict (c : EvalConfig) : list (string * pyval) :=
  [("max_length_eval", PInt (ec_max_length_eval c));
   ("metric", PStr (ec_metric c)); ("data_split", PStr (ec_data_split c))].

(** [d[k]] *)
Fixpoint dict_get {K A} `{EqDecision K} (k : K) (d : list (K * A))
    : outcome A :=
  match d with
  | [] => Raise KeyError
  | (k', v) :: d' => if decide (k' = k) then Ok v else dict_get k d'
  end.

(** [d[k] = v]: an existing key keeps its place, a new one goes last. *)
Fixpoint dict_set {K A} `{EqDecision K} (k : K) (v : A) (d : list (K * A))
    : list (K * A) :=
  match d with
  | [] => [(k, v)]
  | (k', v') :: d' =>
      if decide (k' = k) then (k, v) :: d' else (k', v') :: dict_set k v d'
  end.

(** [[d[k] for k in ks]] *)
Fixpoint dict_gets {K A} `{EqDecision K} (ks : list K) (d : list (K * A))
    : outcome (list A) :=
  match ks with
  | [] => Ok []
  | k :: ks' =>
      obind (dict_get k d) (λ v, obind (dict_gets ks' d) (λ vs, Ok (v :: vs)))
  end.

(** [str] of a dict, as the f-string of [run]'s sanity check formats it
    (string escapes are not modelled). *)
Definition repr_hp (v : hp) : string :=
  match v with
  | None => "None"
  | Some x => repr_num x
  end.

Definition repr_pyval (v : pyval) : string :=
  match v with
  | PHp x => repr_hp x
  | PInt n => pretty n
  | PStr s => "'" +:+ s +:+ "'"
  | PList l => "[" +:+ String.concat ", " (repr_hp <$> l) +:+ "]"
  end.

Definition str_dict (d : list (string * pyval)) : string :=
  "{" +:+ String.concat ", "
            ((λ kv, "'" +:+ kv.1 +:+ "': " +:+ repr_pyval kv.2) <$> d)
      +:+ "}".

(** *** The file tree *)

(** A checkpoint of one epoch, [<dir>/epoch_<n>]: the saved model
    ([None]: the directory is there but the model does not load) and
    [eval/metric.json], data split to metric name to score. *)
Record epoch_dir := {
  snapshot : option Model;
  eval_metric : option (gmap string (gmap string V));
}.

(** A checkpoint directory: [epoch_<n>/], [optimizers/optimizer.<n>.pt]
    and the trainer config files by name. *)
Record checkpoint := {
  epochs : gmap nat epoch_dir;
  optimizers : gmap nat OptState;
  configs : gmap string (TrainingConfig V);
}.

Definition empty_checkpoint : checkpoint :=
  {| epochs := ∅; optimizers := ∅; configs := ∅ |}.

(** An epoch checkpoint's path: the directory and the epoch number. *)
Definition ckpt_path : Type := string * nat.

(** The JSON files under the root. *)
Inductive json :=
  | JDict (d : list (string * pyval))
  | JRanking (l : list (ckpt_path * V))
  | JEpochs (l : list (nat * V)).

(** The trace, oldest first: an epoch trained in a directory, an
    evaluation model constructed from an epoch checkpoint, an evaluation
    run on it, a JSON file written under the root, a checkpoint copied to
    [best_model]. *)
Inductive event :=
  | EvTrainEpoch (dir : string) (e : nat)
  | EvEvalModel (p : ckpt_path)
  | EvEvaluate (p : ckpt_path)
  | EvWriteRoot (file : string)
  | EvCopyBest (p : ckpt_path).

(** The tree under the grid-search root, the generator's state and the
    trace.  [best_model] is the [best_model/] directory: the copied epoch
    checkpoint and its [trainer_config.json]. *)
Record world := {
  root_files : gmap string json;
  model_dirs : gmap string checkpoint;
  best_model : option (epoch_dir * option (TrainingConfig V));
  rng : RngState;
  events : list event;
}.

Definition set_root_files (f : gmap string json → gmap string json) (w : world)
    : world :=
  {| root_files := f (root_files w); model_dirs := model_dirs w;
     best_model := best_model w; rng := rng w; events := events w |}.

Definition set_model_dirs (f : gmap string checkpoint → gmap string checkpoint)
    (w : world) : world :=
  {| root_files := root_files w; model_dirs := f (model_dirs w);
     best_model := best_model w; rng := rng w; events := events w |}.

Definition set_best_model (b : option (epoch_dir * option (TrainingConfig V)))
    (w : world) : world :=
  {| root_files := root_files w; model_dirs := model_dirs w;
     best_model := b; rng := rng w; events := events w |}.

Definition set_rng (r : RngState) (w : world) : world :=
  {| root_files := root_files w; model_dirs := model_dirs w;
     best_model := best_model w; rng := r; events := events w |}.

Definition log_event (e : event) (w : world) : world :=
  {| root_files := root_files w; model_dirs := model_dirs w;
     best_model := best_model w; rng := rng w; events := events w ++ [e] |}.

(** The directory at a path; a path that does not exist lists as empty. *)
Definition get_dir (dir : string) (w : world) : checkpoint :=
  default empty_checkpoint (model_dirs w !! dir).

Definition set_dir (dir : string) (c : checkpoint) (w : world) : world :=
  set_model_dirs <[dir := c]> w.

(** *** Computations with side effects *)

Definition M (A : Type) : Type := world → outcome A * world.

Definition ret {A} (a : A) : M A := λ w, (Ok a, w).
Definition raise {A} (e : exn) : M A := λ w, (Raise e, w).
Definition diverge {A} : M A := λ w, (Diverge, w).
Definition bind {A B} (m : M A) (f : A → M B) : M B :=
  λ w, match m w with
       | (Ok a, w') => f a w'
       | (Raise e, w') => (Raise e, w')
       | (Diverge, w') => (Diverge, w')
       end.
Definition get_world : M world := λ w, (Ok w, w).
Definition modify (f : world → world) : M unit := λ w, (Ok tt, f w).
Definition lift {A} (o : outcome A) : M A := λ w, (o, w).

End store.

Notation "'let*' x := m 'in' k" := (bind m (λ x, k))
  (at level 10, x name, m at level 100, k at level 200, only parsing).
Notation "'let*' ' p := m 'in' k" := (bind m (λ x, match x with p => k end))
  (at level 10, p pattern, m at level 100, k at level 200, only parsing).
Notation "m >> k" := (bind m (λ _, k))
  (at level 100, k at level 200, right associativity, only parsing).

(** [for x in l: acc = body(acc, x)], stopping at the first exception. *)
Fixpoint for_each {V} `{Backend V} {A B} (body : B → A → M B) (l : list A)
    (acc : B) : M B :=
  match l with
  | [] => ret acc
  | x :: l' => let* acc' := body acc x in for_each body l' acc'
  end.

(** [if c: m] *)
Definition when {V} `{Backend V} (c : bool) (m : M unit) : M unit :=
  if c then m else ret tt.

(** ** [get_random_string] *)

Section random.
Context {V : Type} `{Backend V}.

(** [''.join(random.choice(string.ascii_lowercase) for _ in range(length))]:
    [rng_choice] yields a number, its remainder by 26 is the letter. *)
Fixpoint random_letters (length : nat) (r : RngState) : list Ascii.ascii * RngState :=
  match length with
  | O => ([], r)
  | S n =>
      let '(i, r1) := rng_choice r in
      let '(s, r2) := random_letters n r1 in
      (nth (i mod 26) ascii_lowercase "a"%char :: s, r2)
  end.

Definition random_string (length : nat) : M string :=
  λ w, let '(s, r) := random_letters length (rng w) in
       (Ok (String.string_of_list_ascii s), set_rng r w).

(** [while tmp in exclude: tmp = ...] *)
Fixpoint redraw (fuel length : nat) (exclude : list string) (tmp : string) : M string :=
  if decide (tmp ∈ exclude) then
    match fuel with
    | O => diverge
    | S fuel' => let* tmp' := random_string length in redraw fuel' length exclude tmp'
    end
  else ret tmp.

Definition get_random_string (fuel length : nat) (exclude : list string) : M string :=
  let* tmp := random_string length in
  match exclude with
  | [] => ret tmp
  | _ :: _ => redraw fuel length exclude tmp
  end.

(** The string that comes after [n] strings were drawn and dropped.  It
    serves to state when the loop of [get_random_string] ends. *)
Fixpoint nth_draw (n length : nat) : M string :=
  match n with
  | O => random_string length
  | S n' => random_string length >> nth_draw n' length
  end.

End random.

(** ** The [Trainer] *)

Section trainer.
Context {V : Type} `{PyNum V} `{Backend V}.

Record Trainer := {
  checkpoint_dir : string;
  config : TrainingConfig V;
  model : Model;
  current_epoch : nat;
  optimizer : option OptState;
}.

(** *** [Trainer.__init__] *)

(** What the resume loop has assigned so far: [self.config] (unset
    before the first load), [self.model] and [self.current_epoch]. *)
Record resume_state := {
  rs_config : option (TrainingConfig V);
  rs_model : option Model;
  rs_epoch : nat;
}.

(** [glob(f'{checkpoint_dir}/epoch_*')], read as epoch numbers, in
    [sorted(..., reverse=True)] order. *)
Definition resume_candidates (c : checkpoint) : list nat :=
  py_sorted (flip Nat.le) (map_to_list (epochs c)).*1.

(** The [try] block for candidate [e]: the assignments it made and how
    it ended.  [load_json] fails without the config file, the model
    constructor fails on a directory without a loadable model, and the
    assertion comes after both assignments. *)
Definition resume_try (c : checkpoint) (config_file : string) (e : nat)
    (st : resume_state) : resume_state * outcome unit :=
  match configs c !! config_file with
  | None => (st, Raise FileNotFoundError)
  | Some cfg =>
      match epochs c !! e ≫= snapshot with
      | None =>
          ({| rs_config := Some cfg; rs_model := rs_model st; rs_epoch := rs_epoch st |},
           Raise OSError)
      | Some m =>
          ({| rs_config := Some cfg; rs_model := Some m; rs_epoch := e |},
           if decide (e ≤ cfg_epoch cfg) then Ok tt else Raise AssertionError)
      end
  end.

(** One turn of the loop: [continue] without the optimizer snapshot;
    otherwise the [try] block, whose exception [except Exception] only
    logs.  The loop has no [break]. *)
Definition resume_step (c : checkpoint) (config_file : string)
    (st : resume_state) (e : nat) : resume_state :=
  match optimizers c !! e with
  | None => st
  | Some _ => (resume_try c config_file e st).1
  end.

Definition resume_scan (c : checkpoint) (config_file : string) : resume_state :=
  foldl (resume_step c config_file)
        {| rs_config := None; rs_model := None; rs_epoch := 0 |}
        (resume_candidates c).

(** [args] are the hyperparameter arguments of the constructor.  The
    dataset is a collaborator's and [disable_log] only concerns logging.
    The resume loop sets [self.config] before it sets [self.model], so a
    resumed model always comes with its config. *)
Definition Trainer_init (dir : string) (args : TrainingConfig V)
    (config_file : string) : M Trainer :=
  let* w := get_world in
  let c := get_dir dir w in
  let st := resume_scan c config_file in
  let* '(cfg, m) :=
    match rs_model st with
    | Some m =>
        match rs_config st with
        | Some cfg => ret (cfg, m)
        | None => raise AttributeError
        end
    | None =>
        match from_pretrained (cfg_model args) (cfg_max_length args) (cfg_crf args) with
        | None => raise OSError
        | Some m =>
            modify (set_dir dir
              {| epochs := epochs c; optimizers := optimizers c;
                 configs := <[config_file := args]> (configs c) |}) >>
            ret (args, m)
        end
    end in
  modify (set_rng (rng_seed (cfg_random_seed cfg))) >>
  ret {| checkpoint_dir := dir; config := cfg; model := m;
         current_epoch := rs_epoch st; optimizer := None |}.

(** *** [Trainer.save] *)

(** [self.model.save(save_dir)] on [epoch_<n>], which [os.makedirs] made
    if it was not there: a cached [eval/metric.json] stays. *)
Definition write_snapshot (n : nat) (m : Model) (c : checkpoint) : checkpoint :=
  {| epochs := <[n := {| snapshot := Some m;
                         eval_metric := epochs c !! n ≫= eval_metric |}]> (epochs c);
     optimizers := optimizers c; configs := configs c |}.

(** [torch.save(..., optimizer.<n>.pt)] *)
Definition write_optimizer (n : nat) (o : OptState) (c : checkpoint) : checkpoint :=
  {| epochs := epochs c; optimizers := <[n := o]> (optimizers c);
     configs := configs c |}.

(** [if os.path.exists(optimizer.<n>.pt): os.remove(optimizer.<n>.pt)] *)
Definition remove_optimizer (n : nat) (c : checkpoint) : checkpoint :=
  if decide (is_Some (optimizers c !! n)) then
    {| epochs := epochs c; optimizers := delete n (optimizers c);
       configs := configs c |}
  else c.

Definition modify_dir (dir : string) (f : checkpoint → checkpoint) : M unit :=
  modify (λ w, set_dir dir (f (get_dir dir w)) w).

(** [self.optimizer.state_dict()] raises on the [None] that
    [__init__] leaves in [self.optimizer]. *)
Definition save (t : Trainer) (current_epoch : nat) : M unit :=
  modify_dir (checkpoint_dir t) (write_snapshot (current_epoch + 1) (model t)) >>
  match optimizer t with
  | None => raise AttributeError
  | Some o =>
      modify_dir (checkpoint_dir t) (write_optimizer (current_epoch + 1) o) >>
      modify_dir (checkpoint_dir t) (remove_optimizer current_epoch)
  end.

(** *** [Trainer.setup_optimizer] *)

Definition with_optimizer (t : Trainer) (o : OptState) : Trainer :=
  {| checkpoint_dir := checkpoint_dir t; config := config t; model := model t;
     current_epoch := current_epoch t; optimizer := Some o |}.

(** A fresh optimizer; when resuming, its state is replaced by the one
    [torch.load] reads from [optimizer.<current_epoch>.pt]. *)
Definition setup_optimizer (t : Trainer) : M Trainer :=
  let fresh := new_optimizer (config t) (model t) in
  if decide (current_epoch t ≠ 0) then
    let* w := get_world in
    match optimizers (get_dir (checkpoint_dir t) w) !! current_epoch t with
    | None => raise FileNotFoundError
    | Some o => ret (with_optimizer t o)
    end
  else ret (with_optimizer t fresh).

(** *** [Trainer.train] *)

(** The epoch loop over the remaining epochs [es].  [last] is the loop
    variable [e] as the loop leaves it: unbound before the first turn. *)
Fixpoint train_loop (epoch_save epoch_partial : option nat) (es : list nat)
    (t : Trainer) (last : option nat) : M (Trainer * option nat) :=
  match es with
  | [] => ret (t, last)
  | e :: es' =>
      let* o := lift (match optimizer t with
                      | Some o => Ok o
                      | None => Raise AttributeError
                      end) in
      let '(m', o') := train_epoch (config t) e (model t) o in
      modify (log_event (EvTrainEpoch (checkpoint_dir t) e)) >>
      let t' := {| checkpoint_dir := checkpoint_dir t; config := config t;
                   model := m'; current_epoch := current_epoch t;
                   optimizer := Some o' |} in
      match epoch_save with
      | None => ret tt
      | Some k =>
          if decide (k = 0) then raise ZeroDivisionError
          else when (bool_decide ((e + 1) mod k = 0 ∧ e + 1 ≠ 0)) (save t' e)
      end >>
      if decide (epoch_partial = Some (e + 1)) then ret (t', Some e)
      else train_loop epoch_save epoch_partial es' t' (Some e)
  end.

(** [range(a, b)] *)
Definition range (a b : nat) : list nat := seq a (b - a).

Definition train (t : Trainer) (epoch_save epoch_partial : option nat) : M Trainer :=
  let* t := setup_optimizer t in
  if decide (current_epoch t ≠ cfg_epoch (config t)) then
    let* '(t, last) := train_loop epoch_save epoch_partial
                         (range (current_epoch t) (cfg_epoch (config t))) t None in
    match last with
    | None => raise NameError
    | Some e => save t e >> ret t
    end
  else raise AssertionError.

End trainer.

(** ** [GridSearcher.run] and [GridSearcher.eval_single_model] *)

(** [a <= b] on strings, the order of [sorted] on keys and paths. *)
Definition str_le (a b : string) : Prop := String.leb a b = true.

#[export] Instance str_le_dec : RelDecision str_le.
Proof. intros a b. unfold str_le. apply _. Defined.

Section searcher.
Context {V : Type} `{PyNum V} `{Backend V}.
Local Abbreviation hp := (option V).

(** *** [eval_single_model] *)

(** The cached [eval/metric.json] of an epoch checkpoint, [{}] when
    there is none. *)
Definition load_metric (p : ckpt_path) (w : world) : gmap string (gmap string V) :=
  default ∅ (epochs (get_dir p.1 w) !! p.2 ≫= eval_metric).

(** [cache_prefix] and the prediction file only reach the collaborator,
    and the [use_auth_token] argument is left out. *)
Definition eval_single_model (gs : GridSearcher V) (checkpoint_dir_model : ckpt_path)
    : M (gmap string (gmap string V) * gmap string V) :=
  let* w := get_world in
  let metric := load_metric checkpoint_dir_model w in
  match metric !! ec_data_split (eval_config gs) with
  | Some tmp_metric => ret (metric, tmp_metric)
  | None =>
      match epochs (get_dir checkpoint_dir_model.1 w) !! checkpoint_dir_model.2
              ≫= snapshot with
      | None => raise OSError
      | Some tmp_model =>
          modify (log_event (EvEvalModel checkpoint_dir_model)) >>
          modify (log_event (EvEvaluate checkpoint_dir_model)) >>
          let tmp_metric := evaluate tmp_model (ec_data_split (eval_config gs)) in
          ret (<[ec_data_split (eval_config gs) := tmp_metric]> metric, tmp_metric)
      end
  end.

(** [write_json(metric, pj(checkpoint_dir_model, 'eval', 'metric.json'))] *)
Definition write_metric (p : ckpt_path) (metric : gmap string (gmap string V)) : M unit :=
  let* w := get_world in
  match epochs (get_dir p.1 w) !! p.2 with
  | None => raise FileNotFoundError
  | Some d =>
      modify_dir p.1 (λ c,
        {| epochs := <[p.2 := {| snapshot := snapshot d;
                                 eval_metric := Some metric |}]> (epochs c);
           optimizers := optimizers c; configs := configs c |})
  end.

(** [tmp_metric[self.eval_config['metric']]] *)
Definition metric_score (gs : GridSearcher V) (tmp_metric : gmap string V) : M V :=
  match tmp_metric !! ec_metric (eval_config gs) with
  | Some v => ret v
  | None => raise KeyError
  end.

(** [write_json(obj, pj(self.checkpoint_dir, file))] *)
Definition write_root (file : string) (obj : json) : M unit :=
  modify (set_root_files <[file := obj]>) >>
  modify (log_event (EvWriteRoot file)).

(** [sorted(metrics.items(), key=lambda x: x[1], reverse=True)]: an
    item may stand before another one when its score is not the smaller. *)
Definition by_score_desc {K} (a b : K * V) : Prop := num_le b.2 a.2.

#[export] Instance by_score_desc_dec {K} : RelDecision (@by_score_desc K).
Proof. intros a b. unfold by_score_desc. apply _. Defined.

Definition rank {K} (metrics : list (K * V)) : list (K * V) :=
  py_sorted by_score_desc metrics.

(** *** The sanity check *)

(** One turn of the loop over [zip(names, configs)].  The path that is
    tested and loaded is formatted from the dict [c]; the name [_f] is
    not used. *)
Definition sanity_check_one (_f : string) (c : list (string * pyval)) : M unit :=
  let* w := get_world in
  match root_files w !! str_dict c with
  | None => ret tt
  | Some (JDict tmp) =>
      let keys := py_sorted str_le tmp.*1 in
      let* tmp_v := lift (dict_gets keys tmp) in
      let* _tmp_v := lift (dict_gets keys c) in
      if decide (tmp_v = _tmp_v) then ret tt else raise AssertionError
  | Some _ => raise AttributeError
  end.

Definition sanity_check (gs : GridSearcher V) : M unit :=
  for_each (λ _ fc, sanity_check_one fc.1 fc.2)
    (zip ["config_static"; "config_dynamic.json"; "config_eval.json"]
         [static_config_dict (static_config gs);
          dynamic_config_dict (dynamic_config gs);
          eval_config_dict (eval_config gs)]) tt.

Definition write_configs (gs : GridSearcher V) : M unit :=
  write_root "config_static.json" (JDict (static_config_dict (static_config gs))) >>
  write_root "config_dynamic.json" (JDict (dynamic_config_dict (dynamic_config gs))) >>
  write_root "config_eval.json" (JDict (eval_config_dict (eval_config gs))).

(** *** Phase 1 *)

(** [glob(pj(self.checkpoint_dir, 'model_*', 'trainer_config.json'))],
    each with its directory and its loaded content. *)
Definition glob_trainer_configs (w : world) : list (string * TrainingConfig V) :=
  omap (λ dc, if String.prefix "model_" dc.1
              then (λ cfg, (dc.1, cfg)) <$> configs dc.2 !! "trainer_config.json"
              else None)
       (map_to_list (model_dirs w)).

(** The seven dynamic values in the order of the sorted keys: [crf],
    [gradient_accumulation_steps], [lr], [lr_warmup_step_ratio],
    [max_grad_norm], [random_seed], [weight_decay]. *)
Definition dynamic_values (cfg : TrainingConfig V) : list hp :=
  [cfg_crf cfg; cfg_gradient_accumulation_steps cfg; cfg_lr cfg;
   cfg_lr_warmup_step_ratio cfg; cfg_max_grad_norm cfg; cfg_random_seed cfg;
   cfg_weight_decay cfg].

Definition point_values (dynamic_config : grid_point V) : list hp :=
  let '(lr, crf, random_seed, weight_decay, lr_warmup_step_ratio, max_grad_norm,
        gradient_accumulation_steps) := dynamic_config in
  [crf; gradient_accumulation_steps; lr; lr_warmup_step_ratio; max_grad_norm;
   random_seed; weight_decay].

(** [config = self.static_config.copy(); config.update(tmp_dynamic_config)] *)
Definition trainer_config (gs : GridSearcher V) (dynamic_config : grid_point V)
    : TrainingConfig V :=
  let '(lr, crf, random_seed, weight_decay, lr_warmup_step_ratio, max_grad_norm,
        gradient_accumulation_steps) := dynamic_config in
  {| cfg_data_split := sc_data_split (static_config gs);
     cfg_model := sc_model (static_config gs);
     cfg_crf := crf;
     cfg_max_length := sc_max_length (static_config gs);
     cfg_epoch := sc_epoch (static_config gs);
     cfg_batch_size := sc_batch_size (static_config gs);
     cfg_lr := lr; cfg_random_seed := random_seed;
     cfg_gradient_accumulation_steps := gradient_accumulation_steps;
     cfg_weight_decay := weight_decay;
     cfg_lr_warmup_step_ratio := lr_warmup_step_ratio;
     cfg_max_grad_norm := max_grad_norm |}.

(** [duplicated_ckpt] *)
Definition duplicated_ckpt (ckpt_exist : list (string * TrainingConfig V))
    (dynamic_config : grid_point V) : list string :=
  (filter (λ kv, dynamic_values kv.2 = point_values dynamic_config) ckpt_exist).*1.

(** Lines 315-323: the checkpoint directory of a grid point.  Directory
    names stand for their paths under the root, so [os.path.basename]
    does not show. *)
Definition resolve_checkpoint_dir (fuel : nat)
    (ckpt_exist : list (string * TrainingConfig V)) (checkpoints : list string)
    (dynamic_config : grid_point V) : M string :=
  match duplicated_ckpt ckpt_exist dynamic_config with
  | [checkpoint_dir] => ret checkpoint_dir
  | [] =>
      let ckpt_name_exist := replace_model_ 0 <$> ckpt_exist.*1 in
      let ckpt_name_made := replace_model_ 0 <$> checkpoints in
      let* model_ckpt := get_random_string fuel 6 (ckpt_name_exist ++ ckpt_name_made) in
      ret ("model_" +:+ model_ckpt)
  | _ :: _ :: _ => raise ValueError
  end.

(** [os.path.exists(pj(dir, f'epoch_{n}'))] *)
Definition epoch_exists (dir : string) (n : nat) (w : world) : bool :=
  bool_decide (is_Some (epochs (get_dir dir w) !! n)).

Definition phase1_train (fuel : nat) (gs : GridSearcher V) : M (list string) :=
  let* w := get_world in
  let ckpt_exist := glob_trainer_configs w in
  for_each (λ checkpoints dynamic_config,
      let* checkpoint_dir :=
        resolve_checkpoint_dir fuel ckpt_exist checkpoints dynamic_config in
      let* w := get_world in
      when (negb (epoch_exists checkpoint_dir (epoch_partial gs) w))
        (let* trainer := Trainer_init checkpoint_dir
                           (trainer_config gs dynamic_config) "trainer_config.json" in
         let* _ := train trainer (Some 1) (Some (epoch_partial gs)) in
         ret tt) >>
      ret (checkpoints ++ [checkpoint_dir]))
    (all_dynamic_configs gs) [].

(** Evaluate one epoch checkpoint, cache its metric and record its score. *)
Definition eval_and_record (gs : GridSearcher V) (metrics : list (ckpt_path * V))
    (checkpoint_dir_model : ckpt_path) : M (list (ckpt_path * V)) :=
  let* '(metric, tmp_metric) := eval_single_model gs checkpoint_dir_model in
  write_metric checkpoint_dir_model metric >>
  let* score := metric_score gs tmp_metric in
  ret (dict_set checkpoint_dir_model score metrics).

Definition phase1 (fuel : nat) (gs : GridSearcher V) : M (list (ckpt_path * V)) :=
  let* checkpoints := phase1_train fuel gs in
  let* metrics :=
    for_each (λ metrics checkpoint_dir,
                eval_and_record gs metrics (checkpoint_dir, epoch_partial gs))
             checkpoints [] in
  let metrics := rank metrics in
  write_root "metric.1st.json" (JRanking metrics) >>
  ret metrics.

(** *** Phase 2 *)

(** [sorted(glob(pj(checkpoint_dir, 'epoch_*')))]: the paths sort as
    strings, so by the decimal numerals of the epochs. *)
Definition by_numeral (a b : nat) : Prop := str_le (pretty a) (pretty b).

#[export] Instance by_numeral_dec : RelDecision by_numeral.
Proof. intros a b. unfold by_numeral. apply _. Defined.

Definition glob_epochs_sorted (dir : string) (w : world) : list ckpt_path :=
  (λ e, (dir, e)) <$>
    py_sorted by_numeral (map_to_list (epochs (get_dir dir w))).*1.

Definition phase2 (gs : GridSearcher V) (metrics : list (ckpt_path * V))
    : M (list (ckpt_path * V)) :=
  let metrics := take (length metrics `min` n_max_config gs) metrics in
  let* checkpoints :=
    for_each (λ checkpoints cm,
        let model_ckpt := cm.1.1 in
        let* w := get_world in
        when (negb (epoch_exists model_ckpt (gs_epoch gs) w))
          (let* trainer := Trainer_init model_ckpt Trainer_defaults "trainer_config.json" in
           let* _ := train trainer (Some 1) None in
           ret tt) >>
        ret (checkpoints ++ [model_ckpt]))
      metrics [] in
  let* metrics :=
    for_each (λ metrics checkpoint_dir,
        let* w := get_world in
        for_each (eval_and_record gs) (glob_epochs_sorted checkpoint_dir w) metrics)
      checkpoints [] in
  let metrics := rank metrics in
  write_root "metric.2nd.json" (JRanking metrics) >>
  ret metrics.

(** *** Phase 3 *)

(** [json.dump(config, trainer_config.additional_training.json)] *)
Definition write_trainer_config (dir file : string) (cfg : TrainingConfig V) : M unit :=
  modify_dir dir (λ c,
    {| epochs := epochs c; optimizers := optimizers c;
       configs := <[file := cfg]> (configs c) |}).

(** Lines 391-402 for the epoch [epoch] and the [config] that carries
    it: the override file, the training when the epoch's checkpoint is
    not there yet, the evaluation, and the score. *)
Definition extend_one_epoch (gs : GridSearcher V) (best_model_dir : string)
    (epoch : nat) (config : TrainingConfig V) : M V :=
  write_trainer_config best_model_dir "trainer_config.additional_training.json" config >>
  let checkpoint_dir_model := (best_model_dir, epoch) in
  let* w := get_world in
  when (negb (epoch_exists best_model_dir epoch w))
    (let* trainer := Trainer_init best_model_dir Trainer_defaults
                       "trainer_config.additional_training.json" in
     let* _ := train trainer (Some 1) None in
     ret tt) >>
  let* '(metric, tmp_metric) := eval_single_model gs checkpoint_dir_model in
  metric_score gs tmp_metric.

(** The [while True] loop.  It returns [epoch], [config] and [metrics]
    as the [break] leaves them. *)
Fixpoint phase3_loop (fuel : nat) (gs : GridSearcher V) (best_model_dir : string)
    (epoch : nat) (config : TrainingConfig V) (best_metric_score : V)
    (metrics : list (nat * V)) : M (nat * TrainingConfig V * list (nat * V)) :=
  match fuel with
  | O => diverge
  | S fuel' =>
      let epoch := epoch + 1 in
      let config := set_cfg_epoch config epoch in
      let* tmp_metric_score := extend_one_epoch gs best_model_dir epoch config in
      let metrics := metrics ++ [(epoch, tmp_metric_score)] in
      if decide (num_gt best_metric_score tmp_metric_score) then
        ret (epoch, config, metrics)
      else
        phase3_loop fuel' gs best_model_dir epoch config tmp_metric_score metrics
  end.

(** The scores of the [n] epochs after [epoch], each extended in turn as
    the loop does it, whatever the scores are.  It serves to state what
    the loop does with them. *)
Fixpoint extend_epochs (gs : GridSearcher V) (best_model_dir : string)
    (n epoch : nat) (config : TrainingConfig V) : M (list V) :=
  match n with
  | O => ret []
  | S n' =>
      let epoch := epoch + 1 in
      let config := set_cfg_epoch config epoch in
      let* score := extend_one_epoch gs best_model_dir epoch config in
      let* scores := extend_epochs gs best_model_dir n' epoch config in
      ret (score :: scores)
  end.

(** Lines 381-416: returns the final [best_model_ckpt] and [config]. *)
Definition phase3 (fuel : nat) (gs : GridSearcher V) (best_model_dir : string)
    (epoch : nat) (config : TrainingConfig V) (best_metric_score : V)
    : M (ckpt_path * TrainingConfig V) :=
  let* '(epoch, config, metrics) :=
    phase3_loop fuel gs best_model_dir epoch config best_metric_score
                [(epoch, best_metric_score)] in
  write_root "metric.3rd.json" (JEpochs metrics) >>
  let config := set_cfg_epoch config (epoch - 1) in
  ret ((best_model_dir, cfg_epoch config), config).

(** *** The end of [run] *)

(** [copy_tree(best_model_ckpt, best_model)] and the dump of [config] to
    [best_model/trainer_config.json]. *)
Definition write_best_model (best_model_ckpt : ckpt_path) (config : TrainingConfig V)
    : M unit :=
  let* w := get_world in
  match epochs (get_dir best_model_ckpt.1 w) !! best_model_ckpt.2 with
  | None => raise OSError
  | Some d =>
      modify (set_best_model (Some (d, best_model w ≫= snd))) >>
      modify (log_event (EvCopyBest best_model_ckpt)) >>
      modify (set_best_model (Some (d, Some config)))
  end.

(** Lines 375-420, after the second ranking. *)
Definition select_best (fuel : nat) (gs : GridSearcher V)
    (metrics : list (ckpt_path * V)) : M unit :=
  match metrics with
  | [] => raise IndexError
  | (best_model_ckpt, best_metric_score) :: _ =>
      let epoch := best_model_ckpt.2 in
      let best_model_dir := best_model_ckpt.1 in
      let* w := get_world in
      let* config :=
        lift (match configs (get_dir best_model_dir w) !! "trainer_config.json" with
              | Some cfg => Ok cfg
              | None => Raise FileNotFoundError
              end) in
      let* '(best_model_ckpt, config) :=
        (if decide (epoch = sc_epoch (static_config gs)) then
           phase3 fuel gs best_model_dir epoch config best_metric_score
         else ret (best_model_ckpt, config)) in
      write_best_model best_model_ckpt config
  end.

(** *** [run] *)

Definition run (fuel : nat) (gs : GridSearcher V) : M unit :=
  sanity_check gs >>
  write_configs gs >>
  let* metrics := phase1 fuel gs in
  if decide (epoch_partial gs = gs_epoch gs) then ret tt
  else
    let* metrics := phase2 gs metrics in
    select_best fuel gs metrics.

End searcher.

(** ** What phase 1 may touch

    These serve to state that a computation stays within phase 1: it
    leaves [metric.2nd.json], [metric.3rd.json] and [best_model] as they
    are, and what it adds to the trace is no write of these two files and
    no copy to [best_model]. *)

Section frames.
Context {V : Type} `{PyNum V} `{Backend V}.

Definition phase1_event (e : event) : Prop :=
  match e with
  | EvWriteRoot file => file ≠ "metric.2nd.json" ∧ file ≠ "metric.3rd.json"
  | EvCopyBest _ => False
  | _ => True
  end.

Definition phase1_frame (w w' : world) : Prop :=
  root_files w' !! "metric.2nd.json" = root_files w !! "metric.2nd.json"
  ∧ root_files w' !! "metric.3rd.json" = root_files w !! "metric.3rd.json"
  ∧ best_model w' = best_model w
  ∧ ∃ evs, events w' = events w ++ evs ∧ Forall phase1_event evs.

Definition within_phase1 {A} (m : M A) : Prop :=
  ∀ w, phase1_frame w (m w).2.

End frames.

(** ** Further notions used in statements *)

(** An axis argument that passes the assertion of [to_list]: a scalar,
    or a list without duplicates. *)
Definition axis_distinct {V} (a : axis_arg V) : Prop :=
  match a with
  | Scalar _ => True
  | AxisList l => NoDup l
  end.

Section train_notions.
Context {V : Type} `{PyNum V} `{Backend V}.

(** The epoch after which [train] stops: [epoch_partial] when the loop
    reaches it, the configured [epoch] otherwise. *)
Definition last_epoch (epoch_partial : option nat) (current_epoch epoch : nat) : nat :=
  match epoch_partial with
  | Some p => if decide (current_epoch < p ≤ epoch) then p else epoch
  | None => epoch
  end.

(** What the three writes of [save] at epoch [n] make of a directory. *)
Definition saved (n : nat) (m : Model) (o : OptState) (c : checkpoint) : checkpoint :=
  remove_optimizer n (write_optimizer (n + 1) o (write_snapshot (n + 1) m c)).

(** The epoch loop with [epoch_save=1] seen from the directory: the
    model, the optimizer state and the directory after the epochs from [a]
    on, at most [k] of them, were trained and saved one after the other,
    and the number of epochs that ran.  It is proved to be what
    [train_loop] does ([train_loop_trained]). *)
Fixpoint trained (config : TrainingConfig V) (epoch_partial : option nat)
    (k a : nat) (m : Model) (o : OptState) (c : checkpoint)
    : Model * OptState * checkpoint * nat :=
  match k with
  | O => (m, o, c, 0)
  | S k' =>
      let '(m1, o1) := train_epoch config a m o in
      let c1 := saved a m1 o1 c in
      if decide (epoch_partial = Some (a + 1)) then (m1, o1, c1, 1)
      else
        let '(m2, o2, c2, n) := trained config epoch_partial k' (a + 1) m1 o1 c1 in
        (m2, o2, c2, S n)
  end.

(** The world in which the directory [dir] has become [c] and the trace
    has grown by [evs]. *)
Definition world_after (w : world) (dir : string) (c : checkpoint)
    (evs : list event) : world :=
  {| root_files := root_files w; model_dirs := <[dir := c]> (model_dirs w);
     best_model := best_model w; rng := rng w; events := events w ++ evs |}.

(** The world whose trace has grown by [evs]. *)
Definition log_events (evs : list event) (w : world) : world :=
  {| root_files := root_files w; model_dirs := model_dirs w;
     best_model := best_model w; rng := rng w; events := events w ++ evs |}.

End train_notions.

(** ** A concrete instance

    Numbers are fixed-point decimals with seven places, held as integers
    in units of [1e-7], so the float literals [1e-4] and [1e-7] are exact.
    The collaborators are small: a model is the number of epochs it was
    trained for, its micro-F1 is read from a table by that number, and the
    generator walks through the naturals. *)
Module Demo.

#[export] Instance fixed_num : PyNum Z := {|
  num_le := Z.le;
  repr_num := pretty;
  num_of_nat n := (Z.of_nat n * 10000000)%Z;
  float_1e_4 := 1000%Z;
  float_1e_7 := 1%Z;
|}.

(** Micro-F1 by number of trained epochs: 0.1, 0.5, 0.7, again 0.7 after
    three epochs, and 0.6 from then on. *)
Definition f1_table (m : nat) : Z :=
  match m with
  | 0%nat => 1000000%Z
  | 1%nat => 5000000%Z
  | 2%nat => 7000000%Z
  | 3%nat => 7000000%Z
  | _ => 6000000%Z
  end.

#[export] Instance counting_backend : Backend Z := {|
  Model := nat;
  OptState := nat;
  RngState := nat;
  from_pretrained _ _ _ := Some 0%nat;
  new_optimizer _ _ := 0%nat;
  train_epoch _ _ m o := (S m, S o);
  evaluate m _ := {[ "micro/f1" := f1_table m ]};
  rng_choice r := (r, S r);
  rng_seed _ := 0%nat;
|}.

Definition empty_world : world :=
  {| root_files := ∅; model_dirs := ∅; best_model := None; rng := 0%nat;
     events := [] |}.

Definition a_config (epoch : nat) : TrainingConfig Z :=
  {| cfg_data_split := "2020.train"; cfg_model := "xlm-roberta-large";
     cfg_crf := Some 0%Z; cfg_max_length := 128; cfg_epoch := epoch;
     cfg_batch_size := 32; cfg_lr := Some 1000%Z; cfg_random_seed := Some 0%Z;
     cfg_gradient_accumulation_steps := Some 10000000%Z;
     cfg_weight_decay := None; cfg_lr_warmup_step_ratio := None;
     cfg_max_grad_norm := None |}.

(** A checkpoint directory that holds the epochs [es] with loadable
    models, the optimizer snapshots [os] and a trainer config for [epoch]
    epochs in total. *)
Definition a_checkpoint (es os : list nat) (epoch : nat) : checkpoint :=
  {| epochs := list_to_map
       ((λ e : nat, (e, {| snapshot := Some (e : Model); eval_metric := None |})) <$> es);
     optimizers := list_to_map ((λ e : nat, (e, e : OptState)) <$> os);
     configs := {[ "trainer_config.json" := a_config epoch ]} |}.

Definition world_with (dir : string) (c : checkpoint) : world :=
  set_dir dir c empty_world.

Definition a_trainer (dir : string) (cur epoch : nat) : Trainer :=
  {| checkpoint_dir := dir; config := a_config epoch; model := cur;
     current_epoch := cur; optimizer := Some cur |}.

Definition grid_args (epoch epoch_partial : nat) (lr : axis_arg Z)
    : GridSearcherArgs Z :=
  {| a_data_train := "2020.train"; a_data_dev := "2020.dev";
     a_model := "xlm-roberta-large"; a_epoch := epoch;
     a_epoch_partial := epoch_partial; a_n_max_config := 5;
     a_max_length := 128; a_max_length_eval := 128; a_batch_size := 32;
     a_batch_size_eval := 16;
     a_gradient_accumulation_steps := Scalar (Some 10000000%Z);
     a_crf := Scalar (Some 10000000%Z); a_lr := lr;
     a_weight_decay := Scalar None; a_random_seed := Scalar (Some 0%Z);
     a_lr_warmup_step_ratio := Scalar None; a_max_grad_norm := Scalar None;
     a_use_auth_token := false |}.

(** The searcher that [grid_args] constructs for the single learning
    rate [1e-4]. *)
Definition a_searcher (epoch epoch_partial : nat) : GridSearcher Z :=
  {| eval_config := {| ec_max_length_eval := 128; ec_metric := "micro/f1";
                       ec_data_split := "2020.dev" |};
     static_config := {| sc_data_split := "2020.train";
                         sc_model := "xlm-roberta-large"; sc_batch_size := 32;
                         sc_epoch := epoch; sc_max_length := 128 |};
     gs_epoch := epoch; epoch_partial := epoch_partial; batch_size_eval := 16;
     n_max_config := 5; use_auth_token := false;
     dynamic_config :=
       {| dc_lr := [Some 1000%Z]; dc_crf := [Some 10000000%Z];
          dc_random_seed := [Some 0%Z]; dc_weight_decay := [None];
          dc_lr_warmup_step_ratio := [None]; dc_max_grad_norm := [None];
          dc_gradient_accumulation_steps := [Some 10000000%Z] |};
     all_dynamic_configs :=
       [(Some 1000%Z, Some 10000000%Z, Some 0%Z, None, None, None,
         Some 10000000%Z)] |}.

(** The searcher that [grid_args] constructs for the two learning rates
    [1e-4] and [1e-5]. *)
Definition two_point_searcher (epoch epoch_partial : nat) : GridSearcher Z :=
  {| eval_config := eval_config (a_searcher epoch epoch_partial);
     static_config := static_config (a_searcher epoch epoch_partial);
     gs_epoch := epoch; epoch_partial := epoch_partial; batch_size_eval := 16;
     n_max_config := 5; use_auth_token := false;
     dynamic_config :=
       {| dc_lr := [Some 1000%Z; Some 100%Z]; dc_crf := [Some 10000000%Z];
          dc_random_seed := [Some 0%Z]; dc_weight_decay := [None];
          dc_lr_warmup_step_ratio := [None]; dc_max_grad_norm := [None];
          dc_gradient_accumulation_steps := [Some 10000000%Z] |};
     all_dynamic_configs :=
       [(Some 1000%Z, Some 10000000%Z, Some 0%Z, None, None, None,
         Some 10000000%Z);
        (Some 100%Z, Some 10000000%Z, Some 0%Z, None, None, None,
         Some 10000000%Z)] |}.

(** A trainer as [__init__] leaves it: no optimizer yet. *)
Definition a_new_trainer (dir : string) (cur epoch : nat) : Trainer :=
  {| checkpoint_dir := dir; config := a_config epoch; model := cur;
     current_epoch := cur; optimizer := None |}.

End Demo.

(** * Properties *)

(** ** Sorting and list helpers *)

Section sorting_facts.
Context {A : Type} (R : relation A) `{!RelDecision R}.

Lemma insert_sorted_Permutation x l : insert_sorted R x l ≡ₚ x :: l.
Proof.
  induction l as [|y l IH]; simpl; [done|].
  case_decide; [done|]. rewrite IH. apply Permutation_swap.
Qed.

Lemma py_sorted_Permutation l : py_sorted R l ≡ₚ l.
Proof.
  induction l as [|x l IH]; simpl; [done|].
  rewrite insert_sorted_Permutation. by rewrite IH.
Qed.

Lemma py_sorted_length l : length (py_sorted R l) = length l.
Proof. by rewrite py_sorted_Permutation. Qed.

Lemma insert_sorted_Sorted `{!Total R} x l :
  Sorted R l → Sorted R (insert_sorted R x l).
Proof.
  induction 1 as [|y l Hl IH Hhd]; simpl.
  - repeat constructor.
  - case_decide as Hxy.
    + repeat constructor; done.
    + constructor; [done|].
      destruct (total R x y) as [?|Hyx]; [done|].
      destruct Hhd as [|z l' Hyz]; simpl.
      * by constructor.
      * case_decide; by constructor.
Qed.

Lemma py_sorted_Sorted `{!Total R} l : Sorted R (py_sorted R l).
Proof.
  induction l as [|x l IH]; simpl; [constructor|].
  by apply insert_sorted_Sorted.
Qed.

Lemma py_sorted_StronglySorted `{!Total R, !Transitive R} l :
  StronglySorted R (py_sorted R l).
Proof. apply Sorted_StronglySorted; [done|]. apply py_sorted_Sorted. Qed.

End sorting_facts.

Lemma remove_dups_length_le {A} `{EqDecision A} (l : list A) :
  length (remove_dups l) ≤ length l.
Proof.
  induction l as [|x l IH]; simpl; [done|].
  case_decide; simpl; lia.
Qed.

Lemma remove_dups_length_NoDup {A} `{EqDecision A} (l : list A) :
  length l = length (remove_dups l) ↔ NoDup l.
Proof.
  induction l as [|x l IH]; simpl.
  - split; [constructor|done].
  - pose proof (remove_dups_length_le l). rewrite NoDup_cons.
    case_decide as Hx; simpl.
    + split; [lia|]. intros [? _]. done.
    + split.
      * intros Hlen. split; [done|]. apply IH. lia.
      * intros [_ Hnd]. f_equal. by apply IH.
Qed.

Lemma py_index_lookup {A} `{EqDecision A} (x : A) (l : list A) :
  x ∈ l → ∃ i, py_index x l = Ok i ∧ l !! i = Some x.
Proof.
  induction l as [|y l IH]; simpl; [by intros ?%elem_of_nil|].
  intros Hin. case_decide as Hy.
  - exists 0. by subst.
  - apply elem_of_cons in Hin as [->|Hin]; [done|].
    destruct (IH Hin) as (i & -> & Hi). by exists (S i).
Qed.

Lemma py_index_absent {A} `{EqDecision A} (x : A) (l : list A) :
  x ∉ l → py_index x l = Raise ValueError.
Proof.
  induction l as [|y l IH]; simpl; [done|].
  intros Hin. apply not_elem_of_cons in Hin as [? ?].
  case_decide; [by subst|]. by rewrite IH.
Qed.

(** ** [to_list] and the grid *)

Section grid_facts.
Context {V : Type} `{PyNum V}.
Context `{!PartialOrder (num_le (V:=V)), !Total (num_le (V:=V))}.

#[local] Instance flip_num_le_total : Total (flip (num_le (V:=V))).
Proof. intros x y. unfold flip. destruct (total num_le x y); auto. Qed.

#[local] Instance flip_num_le_trans : Transitive (flip (num_le (V:=V))).
Proof. intros x y z ??. unfold flip in *. by etrans. Qed.

Lemma insert_sorted_Some (x : V) (nums : list V) :
  insert_sorted (flip hp_le) (Some x) (Some <$> nums)
  = Some <$> insert_sorted (flip num_le) x nums.
Proof.
  induction nums as [|y nums IH]; simpl; [done|].
  destruct (decide (num_le y x)); simpl; [done|].
  f_equal. exact IH.
Qed.

Lemma py_sorted_Some (nums : list V) :
  py_sorted (flip hp_le) (Some <$> nums) = Some <$> py_sorted (flip num_le) nums.
Proof.
  induction nums as [|x nums IH]; [done|].
  rewrite fmap_cons. cbn [py_sorted foldr].
  change (foldr (insert_sorted (flip hp_le)) []) with (py_sorted (flip (hp_le (V:=V)))).
  change (foldr (insert_sorted (flip num_le)) []) with (py_sorted (flip (num_le (V:=V)))).
  by rewrite IH, insert_sorted_Some.
Qed.

Lemma no_None_fmap_Some (l : list (option V)) :
  None ∉ l → ∃ nums, l = Some <$> nums.
Proof.
  induction l as [|[x|] l IH]; intros Hin.
  - by exists [].
  - apply not_elem_of_cons in Hin as [_ Hin].
    destruct (IH Hin) as [nums ->]. by exists (x :: nums).
  - exfalso. apply Hin. left.
Qed.

(** C5, as amended.  [to_list] turns a scalar into a singleton list.  A
    list without duplicates comes back with the same elements, still
    without duplicates, [None] first when it is there and the numbers
    after it in descending order.  A list with a duplicate is not
    normalised: the assertion raises. *)
Theorem to_list_normalises (arg : axis_arg V) :
  match arg with
  | Scalar v => to_list arg = Ok [v]
  | AxisList l =>
      (NoDup l →
       ∃ nums : list V,
         let l' := (if decide (None ∈ l) then [None] else []) ++ (Some <$> nums) in
         to_list arg = Ok l' ∧ l' ≡ₚ l ∧ NoDup l'
         ∧ StronglySorted (flip num_le) nums)
      ∧ (¬ NoDup l → to_list arg = Raise AssertionError)
  end.
Proof.
  destruct arg as [v|l]; [done|]. split.
  - intros Hnd. unfold to_list.
    rewrite decide_True by (by apply remove_dups_length_NoDup).
    destruct (decide (None ∈ l)) as [Hin|Hin].
    + destruct (py_index_lookup None l Hin) as (i & -> & Hi). simpl.
      pose proof (delete_Permutation l i None Hi) as Hperm.
      assert (NoDup (None :: delete i l)) as Hnd' by (by rewrite <- Hperm).
      apply NoDup_cons in Hnd' as [Hnone Hnd'].
      destruct (no_None_fmap_Some _ Hnone) as [nums0 Hnums0].
      exists (py_sorted (flip num_le) nums0).
      rewrite Hnums0, py_sorted_Some.
      assert ((Some <$> py_sorted (flip num_le) nums0 : list (option V))
              ≡ₚ delete i l) as Hp.
      { rewrite Hnums0. apply fmap_Permutation, py_sorted_Permutation. }
      split_and!.
      * done.
      * simpl. rewrite Hp. by symmetry.
      * apply NoDup_cons. by rewrite Hp.
      * apply py_sorted_StronglySorted; apply _.
    + destruct (no_None_fmap_Some _ Hin) as [nums0 ->].
      exists (py_sorted (flip num_le) nums0). simpl.
      rewrite py_sorted_Some.
      assert ((Some <$> py_sorted (flip num_le) nums0 : list (option V))
              ≡ₚ Some <$> nums0) as Hp.
      { apply fmap_Permutation, py_sorted_Permutation. }
      split_and!; [done|done|by rewrite Hp|].
      apply py_sorted_StronglySorted; apply _.
  - intros Hnd. unfold to_list.
    rewrite decide_False; [done|]. by rewrite remove_dups_length_NoDup.
Qed.

(** *** The Cartesian product *)

Lemma length_bind_const {A B} (f : A → list B) (l : list A) (n : nat) :
  (∀ x, length (f x) = n) → length (l ≫= f) = length l * n.
Proof.
  intros Hf. induction l as [|x l IH]; [done|].
  rewrite bind_cons, length_app, Hf, IH. simpl. lia.
Qed.

Lemma lookup_bind_const {A B} (f : A → list B) (l : list A) (n i j : nat) (x : A) :
  (∀ x, length (f x) = n) → l !! i = Some x → j < n →
  (l ≫= f) !! (i * n + j) = f x !! j.
Proof.
  intros Hf. revert i. induction l as [|y l IH]; intros i Hi Hj; [done|].
  rewrite bind_cons. destruct i as [|i]; simpl in *.
  - simplify_eq. rewrite lookup_app_l; [done|]. by rewrite Hf.
  - rewrite lookup_app_r by (rewrite Hf; lia).
    rewrite Hf. replace (n + i * n + j - n) with (i * n + j) by lia.
    by apply IH.
Qed.

Lemma radix_bound (a n b m : nat) : a < n → b < m → a * m + b < n * m.
Proof. nia. Qed.

Lemma product_length (l0 l1 l2 l3 l4 l5 l6 : list (option V)) :
  length (product l0 l1 l2 l3 l4 l5 l6)
  = length l0 * (length l1 * (length l2 * (length l3 * (length l4
      * (length l5 * (length l6 * 1)))))).
Proof.
  unfold product.
  do 7 (apply length_bind_const; intros ?). done.
Qed.

(** The tuple at the positions [i0], ..., [i6] of the axes stands at the
    mixed-radix index of these positions, the last axis running fastest. *)
Lemma product_lookup (l0 l1 l2 l3 l4 l5 l6 : list (option V))
    i0 i1 i2 i3 i4 i5 i6 x0 x1 x2 x3 x4 x5 x6 :
  l0 !! i0 = Some x0 → l1 !! i1 = Some x1 → l2 !! i2 = Some x2 →
  l3 !! i3 = Some x3 → l4 !! i4 = Some x4 → l5 !! i5 = Some x5 →
  l6 !! i6 = Some x6 →
  product l0 l1 l2 l3 l4 l5 l6
    !! (i0 * (length l1 * (length l2 * (length l3 * (length l4
               * (length l5 * (length l6 * 1))))))
        + (i1 * (length l2 * (length l3 * (length l4
                   * (length l5 * (length l6 * 1)))))
        + (i2 * (length l3 * (length l4 * (length l5 * (length l6 * 1))))
        + (i3 * (length l4 * (length l5 * (length l6 * 1)))
        + (i4 * (length l5 * (length l6 * 1))
        + (i5 * (length l6 * 1)
        + (i6 * 1 + 0)))))))
  = Some (x0, x1, x2, x3, x4, x5, x6).
Proof.
  intros H0 H1 H2 H3 H4 H5 H6.
  pose proof (lookup_lt_Some _ _ _ H1) as L1.
  pose proof (lookup_lt_Some _ _ _ H2) as L2.
  pose proof (lookup_lt_Some _ _ _ H3) as L3.
  pose proof (lookup_lt_Some _ _ _ H4) as L4.
  pose proof (lookup_lt_Some _ _ _ H5) as L5.
  pose proof (lookup_lt_Some _ _ _ H6) as L6.
  unfold product.
  assert (i6 * 1 + 0 < length l6 * 1) as B6 by lia.
  pose proof (radix_bound _ _ _ _ L5 B6) as B5.
  pose proof (radix_bound _ _ _ _ L4 B5) as B4.
  pose proof (radix_bound _ _ _ _ L3 B4) as B3.
  pose proof (radix_bound _ _ _ _ L2 B3) as B2.
  pose proof (radix_bound _ _ _ _ L1 B2) as B1.
  erewrite lookup_bind_const;
    [|intros ?; do 6 (apply length_bind_const; intros ?); done|exact H0|exact B1].
  erewrite lookup_bind_const;
    [|intros ?; do 5 (apply length_bind_const; intros ?); done|exact H1|exact B2].
  erewrite lookup_bind_const;
    [|intros ?; do 4 (apply length_bind_const; intros ?); done|exact H2|exact B3].
  erewrite lookup_bind_const;
    [|intros ?; do 3 (apply length_bind_const; intros ?); done|exact H3|exact B4].
  erewrite lookup_bind_const;
    [|intros ?; do 2 (apply length_bind_const; intros ?); done|exact H4|exact B5].
  erewrite lookup_bind_const;
    [|intros ?; do 1 (apply length_bind_const; intros ?); done|exact H5|exact B6].
  erewrite lookup_bind_const; [|intros ?; done|exact H6|lia].
  done.
Qed.

End grid_facts.

Section grid_size.
Context {V : Type} `{PyNum V}.


End grid_size.

(** ** The [Trainer] *)

Section trainer_facts.
Context {V : Type} `{PyNum V} `{Backend V}.

Lemma get_dir_set_dir dir c (w : world) : get_dir dir (set_dir dir c w) = c.
Proof. unfold get_dir, set_dir, set_model_dirs. simpl. by rewrite lookup_insert_eq. Qed.

Lemma get_dir_set_dir_ne dir dir' c (w : world) :
  dir ≠ dir' → get_dir dir' (set_dir dir c w) = get_dir dir' w.
Proof.
  intros ?. unfold get_dir, set_dir, set_model_dirs. simpl.
  by rewrite lookup_insert_ne.
Qed.

Lemma get_dir_set_rng dir r (w : world) : get_dir dir (set_rng r w) = get_dir dir w.
Proof. done. Qed.

(** The scan never leaves [current_epoch] on an epoch without an
    optimizer snapshot. *)
Lemma resume_step_epoch c file st e :
  (rs_epoch st = 0 ∨ is_Some (optimizers c !! rs_epoch st)) →
  rs_epoch (resume_step c file st e) = 0
  ∨ is_Some (optimizers c !! rs_epoch (resume_step c file st e)).
Proof.
  intros Hst. unfold resume_step, resume_try.
  destruct (optimizers c !! e) as [o|] eqn:Ho; [|done].
  destruct (configs c !! file); [|done].
  destruct (epochs c !! e ≫= snapshot); simpl; [|done].
  right. by rewrite Ho.
Qed.

Lemma resume_scan_epoch c file :
  rs_epoch (resume_scan c file) = 0
  ∨ is_Some (optimizers c !! rs_epoch (resume_scan c file)).
Proof.
  unfold resume_scan.
  generalize (resume_candidates c).
  assert (rs_epoch {| rs_config := None; rs_model := None; rs_epoch := 0 |} = 0
          ∨ is_Some (optimizers c !! rs_epoch
               {| rs_config := None; rs_model := @None Model; rs_epoch := 0 |}))
    as Hinit by (by left).
  revert Hinit.
  generalize ({| rs_config := None; rs_model := @None Model; rs_epoch := 0 |}).
  intros st Hst l. revert st Hst.
  induction l as [|e l IH]; intros st Hst; simpl; [done|].
  apply IH. by apply resume_step_epoch.
Qed.

(** A constructed [Trainer] sits in its directory, and a resumed one
    finds the optimizer snapshot of its epoch there. *)
Lemma Trainer_init_Ok dir args file (w w' : world) t :
  Trainer_init dir args file w = (Ok t, w') →
  checkpoint_dir t = dir
  ∧ optimizer t = None
  ∧ (current_epoch t = 0
     ∨ is_Some (optimizers (get_dir dir w') !! current_epoch t)).
Proof.
  unfold Trainer_init, bind, get_world, modify, ret, raise.
  pose proof (resume_scan_epoch (get_dir dir w) file) as Hscan.
  destruct (rs_model (resume_scan (get_dir dir w) file)) as [m|] eqn:Hm.
  - destruct (rs_config _); [|done]. intros [= <- <-]; simpl.
    split_and!; [done|done|]. by rewrite get_dir_set_rng.
  - destruct (from_pretrained _ _ _); [|done]. intros [= <- <-]; simpl.
    split_and!; [done|done|].
    rewrite get_dir_set_rng, get_dir_set_dir. simpl.
    unfold resume_scan in *.
    assert (∀ l st, rs_model (foldl (resume_step (get_dir dir w) file) st l) = None →
                    rs_epoch (foldl (resume_step (get_dir dir w) file) st l) = rs_epoch st)
      as Hkeep.
    { induction l as [|e l IH]; intros st Hnone; simpl in *; [done|].
      rewrite IH by done.
      assert (rs_model (resume_step (get_dir dir w) file st e) = None) as Hstep.
      { clear IH. revert Hnone. generalize (resume_step (get_dir dir w) file st e).
        induction l as [|e' l IH]; intros st' Hnone; simpl in *; [done|].
        specialize (IH _ Hnone). revert IH.
        unfold resume_step, resume_try.
        destruct (optimizers _ !! e'); [|done].
        destruct (configs _ !! file); [|done].
        destruct (epochs _ !! e' ≫= snapshot); simpl; done. }
      revert Hstep. unfold resume_step, resume_try.
      destruct (optimizers _ !! e); [|done].
      destruct (configs _ !! file); [|done].
      destruct (epochs _ !! e ≫= snapshot); simpl; done. }
    left. by rewrite Hkeep.
Qed.

(** C4, as amended.  A [Trainer] whose resumed epoch equals the
    configured total is constructed without an error, and [train] then
    raises [AssertionError] at its start: the files and the trace are as
    before, so no epoch ran and nothing was saved. *)
Theorem train_of_complete_trainer dir args file (w w' : world) (t : Trainer)
    (epoch_save epoch_partial : option nat) :
  Trainer_init dir args file w = (Ok t, w') →
  current_epoch t = cfg_epoch (config t) →
  train t epoch_save epoch_partial w' = (Raise AssertionError, w').
Proof.
  intros Hinit Hdone.
  destruct (Trainer_init_Ok _ _ _ _ _ _ Hinit) as (Hdir & _ & Hopt).
  unfold train, bind, setup_optimizer.
  destruct (decide (current_epoch t ≠ 0)) as [Hne|He].
  - unfold bind, get_world. rewrite Hdir.
    destruct Hopt as [?|[o Ho]]; [done|]. rewrite Ho. unfold ret. simpl.
    rewrite decide_False; [done|]. by intros ?.
  - unfold ret. simpl. rewrite decide_False; [done|]. by intros ?.
Qed.

(** C7, as amended.  [save] at epoch [n] writes the model of epoch
    [n + 1], leaves the other model snapshots as they are (that of epoch
    [n] too), writes the optimizer snapshot of epoch [n + 1] and removes
    that of epoch [n]; every other optimizer snapshot survives.  So when
    no optimizer snapshot but that of epoch [n] was there before, the one
    of epoch [n + 1] is the only one after. *)
Theorem save_effect (t : Trainer) (n : nat) (o : OptState) (w : world) :
  optimizer t = Some o →
  ∃ w', save t n w = (Ok tt, w')
    ∧ epochs (get_dir (checkpoint_dir t) w') !! (n + 1) ≫= snapshot = Some (model t)
    ∧ (∀ k, k ≠ n + 1 →
         epochs (get_dir (checkpoint_dir t) w') !! k
         = epochs (get_dir (checkpoint_dir t) w) !! k)
    ∧ optimizers (get_dir (checkpoint_dir t) w') !! (n + 1) = Some o
    ∧ optimizers (get_dir (checkpoint_dir t) w') !! n = None
    ∧ (∀ k, k ≠ n → k ≠ n + 1 →
         optimizers (get_dir (checkpoint_dir t) w') !! k
         = optimizers (get_dir (checkpoint_dir t) w) !! k)
    ∧ (dom (optimizers (get_dir (checkpoint_dir t) w)) ⊆ {[n]} →
       dom (optimizers (get_dir (checkpoint_dir t) w')) = {[n + 1]}).
Proof.
  intros Ho. unfold save, bind, modify_dir, modify. rewrite Ho. simpl.
  eexists. split; [done|].
  rewrite !get_dir_set_dir.
  set (c := get_dir (checkpoint_dir t) w).
  assert (optimizers (remove_optimizer n
            (write_optimizer (n + 1) o (write_snapshot (n + 1) (model t) c)))
          = delete n (<[n + 1 := o]> (optimizers c))) as Hopt.
  { unfold remove_optimizer. case_decide as Hn; simpl; [done|].
    symmetry. apply delete_id. by apply eq_None_not_Some. }
  assert (epochs (remove_optimizer n
            (write_optimizer (n + 1) o (write_snapshot (n + 1) (model t) c)))
          = <[n + 1 := {| snapshot := Some (model t);
                          eval_metric := epochs c !! (n + 1) ≫= eval_metric |}]>
              (epochs c)) as Hep.
  { unfold remove_optimizer. by case_decide. }
  rewrite Hopt, Hep. split_and!.
  - by rewrite lookup_insert_eq.
  - intros k Hk. by rewrite lookup_insert_ne.
  - rewrite lookup_delete_ne by lia. by rewrite lookup_insert_eq.
  - by rewrite lookup_delete_eq.
  - intros k Hk Hk'. rewrite lookup_delete_ne by done. by rewrite lookup_insert_ne.
  - intros Hdom. rewrite dom_delete_L, dom_insert_L.
    apply set_eq. intros k.
    rewrite elem_of_difference, elem_of_union, !elem_of_singleton.
    split.
    + intros [[?|Hk] ?]; [done|]. apply Hdom in Hk.
      by apply elem_of_singleton in Hk.
    + intros ->. split; [by left|lia].
Qed.

End trainer_facts.

(** *** Which epoch the resume scan ends on *)

Section resume_facts.
Context {V : Type} `{PyNum V} `{Backend V}.

(** An epoch is complete when its optimizer snapshot is there and its
    model loads. *)
Local Abbreviation complete c e :=
  (is_Some (optimizers c !! e) ∧ is_Some (epochs c !! e ≫= snapshot)).

Lemma resume_step_incomplete (c : checkpoint) file st e :
  ¬ complete c e →
  rs_model (resume_step c file st e) = rs_model st
  ∧ rs_epoch (resume_step c file st e) = rs_epoch st.
Proof.
  intros Hinc. unfold resume_step, resume_try.
  destruct (optimizers c !! e) as [o|] eqn:Ho; [|done].
  destruct (configs c !! file); [|done].
  destruct (epochs c !! e ≫= snapshot) as [m|] eqn:Hm; [|done].
  exfalso. apply Hinc. eauto.
Qed.

Lemma resume_scan_incomplete (c : checkpoint) file l :
  ∀ st, Forall (λ e, ¬ complete c e) l →
        rs_model (foldl (resume_step c file) st l) = rs_model st
        ∧ rs_epoch (foldl (resume_step c file) st l) = rs_epoch st.
Proof.
  induction l as [|e l IH]; intros st Hl; simpl; [done|].
  apply Forall_cons in Hl as [He Hl].
  destruct (IH (resume_step c file st e) Hl) as [-> ->].
  by apply resume_step_incomplete.
Qed.

Lemma resume_step_complete (c : checkpoint) file cfg st e m :
  configs c !! file = Some cfg →
  is_Some (optimizers c !! e) → epochs c !! e ≫= snapshot = Some m →
  resume_step c file st e
  = {| rs_config := Some cfg; rs_model := Some m; rs_epoch := e |}.
Proof.
  intros Hcfg [o Ho] Hm. unfold resume_step, resume_try.
  by rewrite Ho, Hcfg, Hm.
Qed.

(** With the config file in place the scan ends on the lowest complete
    epoch, not on the highest: every complete epoch below the one just
    loaded is loaded in its turn. *)
Lemma resume_scan_lowest (c : checkpoint) file cfg e m :
  configs c !! file = Some cfg →
  is_Some (optimizers c !! e) → epochs c !! e ≫= snapshot = Some m →
  (∀ e', complete c e' → e ≤ e') →
  rs_model (resume_scan c file) = Some m ∧ rs_epoch (resume_scan c file) = e.
Proof.
  intros Hcfg Ho Hm Hmin. unfold resume_scan.
  assert (e ∈ resume_candidates c) as Hin.
  { unfold resume_candidates. rewrite py_sorted_Permutation.
    destruct (epochs c !! e) as [d|] eqn:Hd; [|done].
    apply list_elem_of_fmap. exists (e, d). split; [done|].
    by apply elem_of_map_to_list. }
  assert (NoDup (resume_candidates c)) as Hnd.
  { unfold resume_candidates. rewrite py_sorted_Permutation.
    apply NoDup_fst_map_to_list. }
  assert (StronglySorted (flip Nat.le) (resume_candidates c)) as Hsorted.
  { apply py_sorted_StronglySorted.
    - intros x y. unfold flip. lia.
    - intros x y z. unfold flip. lia. }
  apply list_elem_of_split in Hin as (l1 & l2 & Hl). rewrite Hl in *.
  rewrite foldl_app. simpl.
  erewrite resume_step_complete by done.
  apply resume_scan_incomplete.
  apply Forall_forall. intros e' Hin' Hc.
  apply StronglySorted_app_1_r, StronglySorted_inv in Hsorted as [_ Hle].
  rewrite Forall_forall in Hle. specialize (Hle e' Hin'). unfold flip in Hle.
  specialize (Hmin e' Hc).
  assert (e' = e) as -> by lia.
  apply NoDup_app in Hnd as (_ & _ & Hnd). by apply NoDup_cons in Hnd as [? _].
Qed.

(** Without a complete epoch the model is initialised from the
    pretrained name, [current_epoch] is 0 and the arguments are written
    as the config. *)
Lemma Trainer_init_fresh dir args file (w : world) m :
  (∀ e, ¬ complete (get_dir dir w) e) →
  from_pretrained (cfg_model args) (cfg_max_length args) (cfg_crf args) = Some m →
  Trainer_init dir args file w
  = (Ok {| checkpoint_dir := dir; config := args; model := m;
           current_epoch := 0; optimizer := None |},
     set_rng (rng_seed (cfg_random_seed args))
       (set_dir dir
          {| epochs := epochs (get_dir dir w);
             optimizers := optimizers (get_dir dir w);
             configs := <[file := args]> (configs (get_dir dir w)) |} w)).
Proof.
  intros Hnone Hm. unfold Trainer_init, bind, get_world, modify, ret.
  destruct (resume_scan_incomplete (get_dir dir w) file
              (resume_candidates (get_dir dir w))
              {| rs_config := None; rs_model := None; rs_epoch := 0 |})
    as [Hmodel Hepoch].
  { apply Forall_forall. intros e _. apply Hnone. }
  unfold resume_scan. rewrite Hmodel, Hepoch. simpl. by rewrite Hm.
Qed.

End resume_facts.

(** ** [get_random_string] *)

Section random_facts.
Context {V : Type} `{Backend V}.

(** The characters of a name. *)
Local Abbreviation chars := String.list_ascii_of_string.

Lemma letter_lowercase (i : nat) :
  nth (i mod 26) ascii_lowercase "a"%char ∈ ascii_lowercase.
Proof.
  apply list_elem_of_lookup. exists (i mod 26).
  destruct (nth_lookup_or_length ascii_lowercase (i mod 26) "a"%char) as [Hl|Hl];
    [done|].
  pose proof (Nat.mod_upper_bound i 26).
  change (length ascii_lowercase) with 26 in Hl. lia.
Qed.

Lemma random_letters_lowercase length (r : RngState) :
  Forall (λ c, c ∈ ascii_lowercase) (random_letters length r).1.
Proof.
  revert r. induction length as [|n IH]; intros r; cbn [random_letters].
  - constructor.
  - destruct (rng_choice r) as [i r1]. specialize (IH r1).
    destruct (random_letters n r1) as [s r2]. cbn [fst] in *.
    constructor; [apply letter_lowercase|done].
Qed.

Lemma random_string_lowercase length (w w' : world) s :
  random_string length w = (Ok s, w') →
  Forall (λ c, c ∈ ascii_lowercase) (chars s).
Proof.
  unfold random_string. pose proof (random_letters_lowercase length (rng w)) as Hl.
  destruct (random_letters length (rng w)) as [l r]. intros [= <- <-].
  by rewrite String.list_ascii_of_string_of_list_ascii.
Qed.

Lemma random_string_total length (w : world) :
  ∃ s w', random_string length w = (Ok s, w').
Proof.
  unfold random_string. destruct (random_letters length (rng w)). eauto.
Qed.

Lemma redraw_Ok fuel length exclude tmp (w w' : world) s :
  Forall (λ c, c ∈ ascii_lowercase) (chars tmp) →
  redraw fuel length exclude tmp w = (Ok s, w') →
  (s ∉ exclude) ∧ Forall (λ c, c ∈ ascii_lowercase) (chars s).
Proof.
  revert tmp w. induction fuel as [|fuel IH]; intros tmp w Htmp; simpl.
  - case_decide; [done|]. by intros [= <- <-].
  - case_decide; [|by intros [= <- <-]].
    unfold bind. destruct (random_string length w) as [[tmp'| |] w1] eqn:Hd; [|done..].
    apply IH. by eapply random_string_lowercase.
Qed.

(** A string that [get_random_string] returns is none of [exclude] and
    is made of lowercase letters. *)
Lemma get_random_string_Ok fuel length exclude (w w' : world) s :
  get_random_string fuel length exclude w = (Ok s, w') →
  (s ∉ exclude) ∧ Forall (λ c, c ∈ ascii_lowercase) (chars s).
Proof.
  unfold get_random_string, bind.
  destruct (random_string length w) as [[tmp| |] w1] eqn:Hd; [|done..].
  pose proof (random_string_lowercase _ _ _ _ Hd).
  destruct exclude as [|x exclude].
  - intros [= <- <-]. split; [apply not_elem_of_nil|done].
  - by apply redraw_Ok.
Qed.

(** It returns once a draw within the fuel is not excluded. *)
Lemma get_random_string_returns n fuel length exclude (w w1 : world) s :
  n ≤ fuel → nth_draw n length w = (Ok s, w1) → s ∉ exclude →
  ∃ s' w', get_random_string fuel length exclude w = (Ok s', w').
Proof.
  intros Hn Hdraw Hs. unfold get_random_string.
  assert (∃ s' w', (let* tmp := random_string length in
                    redraw fuel length exclude tmp) w = (Ok s', w')) as Hre.
  { revert fuel w Hn Hdraw. induction n as [|n IH]; intros fuel w Hn Hdraw.
    - simpl in Hdraw. unfold bind. rewrite Hdraw.
      destruct fuel; simpl; rewrite decide_False by done; eauto.
    - simpl in Hdraw. unfold bind in *.
      destruct (random_string length w) as [[tmp| |] w0] eqn:Hd; [|done..].
      destruct fuel as [|fuel]; [lia|]. simpl.
      case_decide; [|eauto].
      apply (IH fuel w0); [lia|done]. }
  unfold bind in *.
  destruct (random_string length w) as [[tmp| |] w0] eqn:Hd;
    [|by destruct Hre as (? & ? & ?)..].
  destruct exclude; [eauto|done].
Qed.

(** [replace('model_', '')] on names. *)
Lemma prefix_chars p s c :
  String.prefix p s = true → c ∈ chars p → c ∈ chars s.
Proof.
  revert s. induction p as [|a p IH]; intros s; simpl.
  - by intros _ ?%elem_of_nil.
  - destruct s as [|b s]; [done|]. simpl.
    destruct (Ascii.ascii_dec a b) as [->|]; [|done].
    intros Hp [->|Hc]%elem_of_cons; [left|right; by apply IH].
Qed.

Lemma replace_model__id s :
  "_"%char ∉ chars s → replace_model_ 0 s = s.
Proof.
  induction s as [|c s IH]; [done|].
  intros Hs. cbn [replace_model_].
  destruct (String.prefix "model_" (String c s)) eqn:Hp.
  - exfalso. apply Hs. apply (prefix_chars _ _ _ Hp). simpl.
    do 5 right. left.
  - f_equal. apply IH. intros ?. apply Hs. by right.
Qed.

Lemma replace_model__prefixed s :
  replace_model_ 0 ("model_" +:+ s) = replace_model_ 0 s.
Proof. destruct s; reflexivity. Qed.

Lemma lowercase_no_underscore s :
  Forall (λ c, c ∈ ascii_lowercase) (chars s) → "_"%char ∉ chars s.
Proof.
  intros Hs Hin. rewrite Forall_forall in Hs. specialize (Hs _ Hin).
  assert ("_"%char ∉ ascii_lowercase) as Hn
    by (apply (bool_decide_unpack _); by vm_compute).
  done.
Qed.

(** A name made from a string of lowercase letters that is not excluded
    is none of the directories whose stripped names were excluded. *)
Lemma fresh_name_not_in (s : string) (dirs : list string) :
  Forall (λ c, c ∈ ascii_lowercase) (chars s) →
  s ∉ replace_model_ 0 <$> dirs →
  "model_" +:+ s ∉ dirs.
Proof.
  intros Hlow Hs Hin. apply Hs.
  apply list_elem_of_fmap. exists ("model_" +:+ s). split; [|done].
  rewrite replace_model__prefixed.
  symmetry. by apply replace_model__id, lowercase_no_underscore.
Qed.

End random_facts.

(** ** The [GridSearcher] *)

Section searcher_facts.
Context {V : Type} `{PyNum V} `{Backend V}.

(** C9.  When the cached metric file of a checkpoint has an entry for
    the configured split, [eval_single_model] returns the cached content
    and that entry and leaves the files and the trace as they are: no
    evaluation model is constructed and no evaluation runs.  Calling it
    twice is then the same as calling it once. *)
Theorem eval_single_model_cached (gs : GridSearcher V) (p : ckpt_path) (w : world)
    (tmp_metric : gmap string V) :
  load_metric p w !! ec_data_split (eval_config gs) = Some tmp_metric →
  eval_single_model gs p w = (Ok (load_metric p w, tmp_metric), w)
  ∧ (eval_single_model gs p >> eval_single_model gs p) w = eval_single_model gs p w.
Proof.
  intros Hc.
  assert (eval_single_model gs p w = (Ok (load_metric p w, tmp_metric), w)) as Heq.
  { unfold eval_single_model, bind, get_world. by rewrite Hc. }
  split; [done|]. unfold bind at 1. by rewrite Heq.
Qed.

(** The existing checkpoint directories of phase 1 are the directories
    named [model_*] that hold a [trainer_config.json]. *)
Lemma glob_trainer_configs_spec (w : world) (d : string) (cfg : TrainingConfig V) :
  (d, cfg) ∈ glob_trainer_configs w
  ↔ String.prefix "model_" d = true
    ∧ ∃ c, model_dirs w !! d = Some c ∧ configs c !! "trainer_config.json" = Some cfg.
Proof.
  unfold glob_trainer_configs. rewrite list_elem_of_omap. split.
  - intros ([d' c] & Hin%elem_of_map_to_list & Hf). simpl in Hf.
    destruct (String.prefix "model_" d') eqn:Hp; [|done].
    destruct (configs c !! "trainer_config.json") as [cfg'|] eqn:Hc; [|done].
    simpl in Hf. injection Hf as <- <-. eauto.
  - intros (Hp & c & Hd & Hc). exists (d, c). split.
    + by apply elem_of_map_to_list.
    + simpl. by rewrite Hp, Hc.
Qed.

Lemma duplicated_ckpt_spec (ckpt_exist : list (string * TrainingConfig V))
    (dynamic_config : grid_point V) (d : string) :
  d ∈ duplicated_ckpt ckpt_exist dynamic_config
  ↔ ∃ cfg, (d, cfg) ∈ ckpt_exist ∧ dynamic_values cfg = point_values dynamic_config.
Proof.
  unfold duplicated_ckpt. rewrite list_elem_of_fmap. split.
  - intros ([d' cfg] & -> & [Hm Hin]%list_elem_of_filter). eauto.
  - intros (cfg & Hin & Hm). exists (d, cfg). split; [done|].
    by apply list_elem_of_filter.
Qed.


(** *** The sanity check *)

Lemma str_dict_brace (d : list (string * pyval)) :
  String.prefix "{" (str_dict d) = true.
Proof.
  unfold str_dict. simpl.
  by destruct (String.concat _ _ +:+ "}").
Qed.

Lemma sanity_check_one_absent _f c (w : world) :
  (∀ k, String.prefix "{" k = true → root_files w !! k = None) →
  sanity_check_one _f c w = (Ok tt, w).
Proof.
  intros Hw. unfold sanity_check_one, bind, get_world.
  by rewrite (Hw _ (str_dict_brace c)).
Qed.

(** With no file under the root whose path begins with a brace, the
    sanity check loads nothing and passes, whatever the persisted config
    files hold. *)
Lemma sanity_check_inert (gs : GridSearcher V) (w : world) :
  (∀ k, String.prefix "{" k = true → root_files w !! k = None) →
  sanity_check gs w = (Ok tt, w).
Proof.
  intros Hw. unfold sanity_check. simpl. unfold bind.
  by rewrite !sanity_check_one_absent.
Qed.

(** *** Phase 3 *)

Lemma set_cfg_epoch_twice (c : TrainingConfig V) (a b : nat) :
  set_cfg_epoch (set_cfg_epoch c a) b = set_cfg_epoch c b.
Proof. done. Qed.

Lemma extend_epochs_S gs dir n epoch config (w w' : world) scores :
  extend_epochs gs dir (S n) epoch config w = (Ok scores, w') →
  ∃ score rest w1,
    scores = score :: rest
    ∧ extend_one_epoch gs dir (epoch + 1) (set_cfg_epoch config (epoch + 1)) w
      = (Ok score, w1)
    ∧ extend_epochs gs dir n (epoch + 1) (set_cfg_epoch config (epoch + 1)) w1
      = (Ok rest, w').
Proof.
  cbn [extend_epochs]. unfold bind at 1.
  destruct (extend_one_epoch _ _ _ _ w) as [[score| |] w1] eqn:Hone; [|done..].
  unfold bind at 1.
  destruct (extend_epochs _ _ _ _ _ w1) as [[rest| |] w2] eqn:Hrest; [|done..].
  intros [= <- <-]. by exists score, rest, w1.
Qed.

Lemma phase3_loop_stops gs dir (scores : list V) :
  ∀ epoch config best final metrics fuel (w w' : world),
    extend_epochs gs dir (S (length scores)) epoch config w
    = (Ok (scores ++ [final]), w') →
    (∀ i a b, (best :: scores) !! i = Some a → scores !! i = Some b →
              ¬ num_gt a b) →
    (∀ a, (best :: scores) !! length scores = Some a → num_gt a final) →
    length scores < fuel →
    phase3_loop fuel gs dir epoch config best metrics w
    = (Ok (epoch + 1 + length scores,
           set_cfg_epoch config (epoch + 1 + length scores),
           metrics ++ zip (seq (epoch + 1) (S (length scores))) (scores ++ [final])),
       w').
Proof.
  induction scores as [|s rest IH];
    intros epoch config best final metrics fuel w w' Hext Hkeep Hdrop Hfuel.
  - apply extend_epochs_S in Hext as (score & rest & w1 & Heq & Hone & Hrest).
    simpl in Hrest. injection Hrest as <- <-. simpl in Heq. injection Heq as <-.
    destruct fuel as [|fuel]; [simpl in Hfuel; lia|].
    cbn [phase3_loop]. unfold bind. rewrite Hone.
    rewrite decide_True by (by apply Hdrop).
    simpl. by rewrite Nat.add_0_r.
  - apply extend_epochs_S in Hext as (score & rest' & w1 & Heq & Hone & Hrest).
    simpl in Heq. injection Heq as <- <-.
    destruct fuel as [|fuel]; [simpl in Hfuel; lia|].
    cbn [phase3_loop]. unfold bind. rewrite Hone.
    rewrite decide_False by (by apply (Hkeep 0 best s)).
    rewrite (IH (epoch + 1) (set_cfg_epoch config (epoch + 1)) s final
               (metrics ++ [(epoch + 1, s)]) fuel w1 w' Hrest).
    + rewrite set_cfg_epoch_twice. simpl.
      replace (epoch + 1 + 1 + length rest) with (epoch + 1 + S (length rest)) by lia.
      rewrite <- app_assoc. simpl.
      by replace (S (epoch + 1)) with (epoch + 1 + 1) by lia.
    + intros i a b Ha Hb. by apply (Hkeep (S i) a b).
    + intros a Ha. by apply Hdrop.
    + simpl in Hfuel. lia.
Qed.


End searcher_facts.

(** ** Phase 1 and the early return *)

Section frame_facts.
Context {V : Type} `{PyNum V} `{Backend V}.

Lemma phase1_frame_refl (w : world) : phase1_frame w w.
Proof.
  unfold phase1_frame. split_and!; [done..|].
  exists []. by rewrite app_nil_r.
Qed.

Lemma phase1_frame_trans (w1 w2 w3 : world) :
  phase1_frame w1 w2 → phase1_frame w2 w3 → phase1_frame w1 w3.
Proof.
  intros (Ha & Hb & Hc & evs & Hev & Hfa) (Ha' & Hb' & Hc' & evs' & Hev' & Hfa').
  unfold phase1_frame. split_and!; [congruence..|].
  exists (evs ++ evs'). split.
  - by rewrite Hev', Hev, app_assoc.
  - by apply Forall_app.
Qed.

Lemma frame_set_rng r (w : world) : phase1_frame w (set_rng r w).
Proof.
  unfold phase1_frame. simpl. split_and!; [done..|].
  exists []. by rewrite app_nil_r.
Qed.

Lemma frame_set_dir dir c (w : world) : phase1_frame w (set_dir dir c w).
Proof.
  unfold phase1_frame. simpl. split_and!; [done..|].
  exists []. by rewrite app_nil_r.
Qed.

Lemma frame_log_event e (w : world) :
  phase1_event e → phase1_frame w (log_event e w).
Proof.
  intros He. unfold phase1_frame. split_and!; [done..|].
  exists [e]. split; [done|]. by constructor.
Qed.

Lemma frame_set_root_files file obj (w : world) :
  file ≠ "metric.2nd.json" → file ≠ "metric.3rd.json" →
  phase1_frame w (set_root_files <[file := obj]> w).
Proof.
  intros H2 H3. unfold phase1_frame. simpl.
  rewrite !lookup_insert_ne by done. split_and!; [done..|].
  exists []. by rewrite app_nil_r.
Qed.

Lemma within_ret {A} (a : A) : within_phase1 (ret a).
Proof. intros w. apply phase1_frame_refl. Qed.

Lemma within_raise {A} e : within_phase1 (raise (A:=A) e).
Proof. intros w. apply phase1_frame_refl. Qed.

Lemma within_diverge {A} : within_phase1 (diverge (A:=A)).
Proof. intros w. apply phase1_frame_refl. Qed.

Lemma within_lift {A} (o : outcome A) : within_phase1 (lift o).
Proof. intros w. apply phase1_frame_refl. Qed.

Lemma within_get_world : within_phase1 get_world.
Proof. intros w. apply phase1_frame_refl. Qed.

Lemma within_modify (f : world → world) :
  (∀ w, phase1_frame w (f w)) → within_phase1 (modify f).
Proof. intros Hf w. apply Hf. Qed.

Lemma within_bind {A B} (m : M A) (f : A → M B) :
  within_phase1 m → (∀ a, within_phase1 (f a)) → within_phase1 (bind m f).
Proof.
  intros Hm Hf w. unfold bind. specialize (Hm w).
  destruct (m w) as [[a| |] w1]; simpl in *; [|done..].
  eapply phase1_frame_trans; [done|]. apply Hf.
Qed.

Lemma within_when (c : bool) (m : M unit) :
  within_phase1 m → within_phase1 (when c m).
Proof. destruct c; simpl; [done|]. intros _. apply within_ret. Qed.

Lemma within_for_each {A B} (body : B → A → M B) (l : list A) (acc : B) :
  (∀ acc x, within_phase1 (body acc x)) → within_phase1 (for_each body l acc).
Proof.
  intros Hbody. revert acc. induction l as [|x l IH]; intros acc; simpl.
  - apply within_ret.
  - apply within_bind; [apply Hbody|apply IH].
Qed.

Lemma within_modify_dir dir (f : checkpoint → checkpoint) :
  within_phase1 (modify_dir dir f).
Proof. apply within_modify. intros w. apply frame_set_dir. Qed.

Create HintDb within discriminated.

#[local] Hint Resolve within_ret within_raise within_diverge within_lift
  within_get_world within_modify_dir within_when : within.

(** Break a computation down to its steps. *)
Ltac within_steps :=
  repeat first
    [ progress eauto with within
    | apply within_bind
    | match goal with
      | |- ∀ _, _ => intros ?
      | |- within_phase1 (match ?x with _ => _ end) => destruct x
      end ].

Lemma within_random_string length : within_phase1 (random_string length).
Proof.
  intros w. unfold random_string.
  destruct (random_letters length (rng w)). apply frame_set_rng.
Qed.

Lemma within_redraw fuel length exclude tmp :
  within_phase1 (redraw fuel length exclude tmp).
Proof.
  revert tmp. induction fuel as [|fuel IH]; intros tmp; simpl.
  - case_decide; within_steps.
  - case_decide; [|within_steps].
    apply within_bind; [apply within_random_string|done].
Qed.

Lemma within_get_random_string fuel length exclude :
  within_phase1 (get_random_string fuel length exclude).
Proof.
  unfold get_random_string.
  apply within_bind; [apply within_random_string|].
  intros tmp. destruct exclude; [within_steps|apply within_redraw].
Qed.

Lemma within_Trainer_init dir args file :
  within_phase1 (Trainer_init dir args file).
Proof.
  unfold Trainer_init. within_steps;
    apply within_modify; intros ?; first [apply frame_set_dir|apply frame_set_rng].
Qed.

Lemma within_save (t : Trainer) n : within_phase1 (save t n).
Proof. unfold save. within_steps. Qed.

Lemma within_setup_optimizer (t : Trainer) : within_phase1 (setup_optimizer t).
Proof. unfold setup_optimizer. case_decide; within_steps. Qed.

Lemma within_train_loop epoch_save epoch_partial es (t : Trainer) last :
  within_phase1 (train_loop epoch_save epoch_partial es t last).
Proof.
  revert t last. induction es as [|e es IH]; intros t last; simpl.
  - within_steps.
  - apply within_bind; [within_steps|]. intros o.
    destruct (train_epoch _ _ _ _) as [m' o'].
    apply within_bind.
    { apply within_modify. intros ?. by apply frame_log_event. }
    intros _. apply within_bind.
    { destruct epoch_save as [k|]; [|within_steps].
      case_decide; [within_steps|]. apply within_when, within_save. }
    intros _. case_decide; [within_steps|apply IH].
Qed.

Lemma within_train (t : Trainer) epoch_save epoch_partial :
  within_phase1 (train t epoch_save epoch_partial).
Proof.
  unfold train. apply within_bind; [apply within_setup_optimizer|].
  intros t'. case_decide; [|within_steps].
  apply within_bind; [apply within_train_loop|].
  intros [t'' [e|]]; [|within_steps].
  apply within_bind; [apply within_save|within_steps].
Qed.

Lemma within_eval_single_model (gs : GridSearcher V) p :
  within_phase1 (eval_single_model gs p).
Proof.
  unfold eval_single_model. within_steps;
    apply within_modify; intros ?; by apply frame_log_event.
Qed.

Lemma within_eval_and_record (gs : GridSearcher V) metrics p :
  within_phase1 (eval_and_record gs metrics p).
Proof.
  unfold eval_and_record.
  apply within_bind; [apply within_eval_single_model|].
  intros [metric tmp_metric].
  apply within_bind; [unfold write_metric; within_steps|].
  intros _. apply within_bind; [unfold metric_score; within_steps|].
  within_steps.
Qed.

Lemma within_write_root file obj :
  file ≠ "metric.2nd.json" → file ≠ "metric.3rd.json" →
  within_phase1 (write_root file obj).
Proof.
  intros H2 H3. unfold write_root. apply within_bind.
  - apply within_modify. intros ?. by apply frame_set_root_files.
  - intros _. apply within_modify. intros ?. by apply frame_log_event.
Qed.

Lemma within_sanity_check (gs : GridSearcher V) : within_phase1 (sanity_check gs).
Proof.
  unfold sanity_check. apply within_for_each. intros _ [_f c]. simpl.
  unfold sanity_check_one. within_steps.
Qed.

Lemma within_write_configs (gs : GridSearcher V) : within_phase1 (write_configs gs).
Proof.
  unfold write_configs.
  repeat (apply within_bind; [by apply within_write_root|intros _]).
  by apply within_write_root.
Qed.

Lemma within_resolve_checkpoint_dir fuel ckpt_exist checkpoints
    (dynamic_config : grid_point V) :
  within_phase1 (resolve_checkpoint_dir fuel ckpt_exist checkpoints dynamic_config).
Proof.
  unfold resolve_checkpoint_dir.
  destruct (duplicated_ckpt _ _) as [|? [|? ?]]; [|within_steps..].
  apply within_bind; [apply within_get_random_string|within_steps].
Qed.

Lemma within_phase1_train fuel (gs : GridSearcher V) :
  within_phase1 (phase1_train fuel gs).
Proof.
  unfold phase1_train. apply within_bind; [within_steps|]. intros w.
  apply within_for_each. intros checkpoints dynamic_config.
  apply within_bind; [apply within_resolve_checkpoint_dir|]. intros dir.
  apply within_bind; [within_steps|]. intros w'.
  apply within_bind; [|within_steps].
  apply within_when.
  apply within_bind; [apply within_Trainer_init|]. intros t.
  apply within_bind; [apply within_train|within_steps].
Qed.

Lemma within_phase1_all fuel (gs : GridSearcher V) :
  within_phase1 (phase1 fuel gs).
Proof.
  unfold phase1. apply within_bind; [apply within_phase1_train|].
  intros checkpoints. apply within_bind.
  { apply within_for_each. intros ??. apply within_eval_and_record. }
  intros metrics. apply within_bind; [by apply within_write_root|within_steps].
Qed.

Lemma phase1_Ok_last fuel (gs : GridSearcher V) (w w' : world) metrics :
  phase1 fuel gs w = (Ok metrics, w') →
  last (events w') = Some (EvWriteRoot "metric.1st.json").
Proof.
  unfold phase1. unfold bind at 1.
  destruct (phase1_train fuel gs w) as [[checkpoints| |] w1]; [|done..].
  unfold bind at 1.
  destruct (for_each _ checkpoints [] w1) as [[ms| |] w2]; [|done..].
  unfold write_root, bind, modify, ret. simpl.
  intros [= <- <-]. simpl. apply last_snoc.
Qed.

(** C10.  With [epoch_partial] equal to the configured epoch count,
    [run] is the sanity check, the three config files and phase 1, and it
    returns there: phases 2 and 3 are not entered.  However the run
    ends, [metric.2nd.json], [metric.3rd.json] and [best_model] are as
    they were, and the trace gained no write of these files and no copy to
    [best_model]; when it returns, its last write was [metric.1st.json]. *)
Theorem run_stops_after_phase1 (fuel : nat) (gs : GridSearcher V) (w : world) :
  epoch_partial gs = gs_epoch gs →
  run fuel gs w
  = (sanity_check gs >> write_configs gs >> phase1 fuel gs >> ret tt) w
  ∧ root_files (run fuel gs w).2 !! "metric.2nd.json"
    = root_files w !! "metric.2nd.json"
  ∧ root_files (run fuel gs w).2 !! "metric.3rd.json"
    = root_files w !! "metric.3rd.json"
  ∧ best_model (run fuel gs w).2 = best_model w
  ∧ (∃ evs, events (run fuel gs w).2 = events w ++ evs
            ∧ ∀ ev, ev ∈ evs →
                ev ≠ EvWriteRoot "metric.2nd.json"
                ∧ ev ≠ EvWriteRoot "metric.3rd.json"
                ∧ ∀ p, ev ≠ EvCopyBest p)
  ∧ (∀ w', run fuel gs w = (Ok tt, w') →
           last (events w') = Some (EvWriteRoot "metric.1st.json")).
Proof.
  intros Hpartial.
  assert (run fuel gs w
          = (sanity_check gs >> write_configs gs >> phase1 fuel gs >> ret tt) w)
    as Hrun.
  { unfold run. unfold bind.
    destruct (sanity_check gs w) as [[[]| |] w1]; [|done..].
    destruct (write_configs gs w1) as [[[]| |] w2]; [|done..].
    destruct (phase1 fuel gs w2) as [[metrics| |] w3]; [|done..].
    by rewrite decide_True. }
  assert (within_phase1
            (sanity_check gs >> write_configs gs >> phase1 fuel gs >> ret tt))
    as Hwithin.
  { apply within_bind; [apply within_sanity_check|]. intros _.
    apply within_bind; [apply within_write_configs|]. intros _.
    apply within_bind; [apply within_phase1_all|]. intros _. apply within_ret. }
  specialize (Hwithin w). rewrite <- Hrun in Hwithin.
  destruct Hwithin as (H2 & H3 & Hb & evs & Hev & Hfa).
  split_and!; [done..| |].
  - exists evs. split; [done|]. intros ev Hin.
    rewrite Forall_forall in Hfa. specialize (Hfa ev Hin).
    destruct ev as [| | |file|]; simpl in Hfa; split_and!; try done.
    + intros [= ->]. by destruct Hfa.
    + intros [= ->]. by destruct Hfa.
  - intros w'. rewrite Hrun. unfold bind.
    destruct (sanity_check gs w) as [[[]| |] w1]; [|done..].
    destruct (write_configs gs w1) as [[[]| |] w2]; [|done..].
    destruct (phase1 fuel gs w2) as [[metrics| |] w3] eqn:Hp; [|done..].
    intros [= <-]. by eapply phase1_Ok_last.
Qed.

End frame_facts.

(** ** Concrete runs *)

Import Demo.

Lemma a_searcher_constructed (epoch epoch_partial : nat) :
  GridSearcher_init (grid_args epoch epoch_partial (Scalar (Some 1000%Z)))
  = Ok (a_searcher epoch epoch_partial).
Proof. reflexivity. Qed.

(** C1.  A directory holds the model snapshots and the optimizer
    snapshots of the epochs 2 and 4, all loadable, as four epochs of
    [train] with [epoch_save=2] leave them.  Both epochs are complete, and
    the resume loop, which has no [break], goes on from epoch 4 to
    epoch 2: the constructed [Trainer] resumes from epoch 2. *)
Lemma Trainer_init_resumes_lowest :
  resume_candidates (a_checkpoint [2; 4] [2; 4] 6) = [4; 2]
  ∧ ∃ t w',
      Trainer_init "ckpt" (a_config 6) "trainer_config.json"
        (world_with "ckpt" (a_checkpoint [2; 4] [2; 4] 6)) = (Ok t, w')
      ∧ current_epoch t = 2 ∧ model t = 2.
Proof. split; [by vm_compute|]. eexists _, _. by vm_compute. Qed.

(** C2.  The root holds a [config_static.json] written for three epochs
    and the searcher is constructed for two.  The sanity check tests a
    path formatted from the config dict, finds no such file and passes;
    [run] goes through and [config_static.json] holds the new values. *)
Lemma run_overwrites_mismatching_config :
  let persisted := JDict (static_config_dict (static_config (a_searcher 3 1))) in
  let fresh := JDict (static_config_dict (static_config (a_searcher 2 1))) in
  let w := set_root_files <["config_static.json" := persisted]> empty_world in
  persisted ≠ fresh
  ∧ sanity_check (a_searcher 2 1) w = (Ok tt, w)
  ∧ ∃ w', run 10 (a_searcher 2 1) w = (Ok tt, w')
          ∧ root_files w' !! "config_static.json" = Some fresh.
Proof.
  split_and!.
  - by vm_compute.
  - by vm_compute.
  - eexists. by vm_compute.
Qed.



(** C4, counterexample.  The directory holds the complete second and
    last epoch: the [Trainer] is constructed, with the epoch 2 of 2. *)
Lemma complete_trainer_is_constructed :
  ∃ t w',
    Trainer_init "ckpt" (a_config 2) "trainer_config.json"
      (world_with "ckpt" (a_checkpoint [1; 2] [2] 2)) = (Ok t, w')
    ∧ current_epoch t = 2 ∧ cfg_epoch (config t) = 2.
Proof. eexists _, _. by vm_compute. Qed.

(** C4, witness. *)
Lemma train_of_complete_trainer_witness :
  let w := world_with "ckpt" (a_checkpoint [1; 2] [2] 2) in
  let t := {| checkpoint_dir := "ckpt"; config := a_config 2; model := 2;
              current_epoch := 2; optimizer := None |} in
  Trainer_init "ckpt" (a_config 2) "trainer_config.json" w = (Ok t, w)
  ∧ current_epoch t = cfg_epoch (config t)
  ∧ train t (Some 1) None w = (Raise AssertionError, w).
Proof.
  intros w t.
  assert (Trainer_init "ckpt" (a_config 2) "trainer_config.json" w = (Ok t, w))
    as Hinit by (by vm_compute).
  assert (current_epoch t = cfg_epoch (config t)) as Hdone by reflexivity.
  split; [exact Hinit|]. split; [exact Hdone|].
  exact (train_of_complete_trainer "ckpt" (a_config 2) "trainer_config.json"
           w w t (Some 1) None Hinit Hdone).
Defined.

(** C5, counterexample.  A learning rate given twice is not
    deduplicated: the assertion raises. *)
Lemma to_list_duplicates_raise :
  to_list (AxisList [Some 1000%Z; Some 1000%Z]) = Raise AssertionError
  ∧ ¬ ∃ l, to_list (AxisList [Some 1000%Z; Some 1000%Z]) = Ok l.
Proof. split; [by vm_compute|]. intros [l Hl]. by vm_compute in Hl. Qed.

(** C5, witness. *)
Lemma to_list_normalises_witness :
  NoDup [Some 100%Z; None; Some 1000%Z; Some 10%Z]
  ∧ ∃ nums : list Z,
      to_list (AxisList [Some 100%Z; None; Some 1000%Z; Some 10%Z])
      = Ok ([None] ++ (Some <$> nums))
      ∧ StronglySorted (flip Z.le) nums.
Proof.
  assert (NoDup [Some 100%Z; None; Some 1000%Z; Some 10%Z]) as Hnd
    by (apply (bool_decide_unpack _); by vm_compute).
  split; [exact Hnd|].
  destruct (@to_list_normalises Z fixed_num Z.le_po Z.le_total
              (AxisList [Some 100%Z; None; Some 1000%Z; Some 10%Z])) as [Hok _].
  destruct (Hok Hnd) as (nums & Hlist & _ & _ & Hsorted).
  exists nums. split; [exact Hlist|exact Hsorted].
Defined.


(** C7, counterexample.  With a checkpoint every two epochs the
    directory holds the optimizer snapshot of epoch 2 when epoch 4 is
    saved; [save] removes the one of epoch 3, which is not there, and both
    snapshots survive.  The whole training from scratch leaves them too. *)
Lemma save_keeps_older_optimizer :
  (∃ w', save (a_trainer "ckpt" 3 5) 3 (world_with "ckpt" (a_checkpoint [2] [2] 5))
         = (Ok tt, w')
         ∧ optimizers (get_dir "ckpt" w') !! 2 = Some 2
         ∧ optimizers (get_dir "ckpt" w') !! 4 = Some 3
         ∧ size (optimizers (get_dir "ckpt" w')) = 2)
  ∧ ∃ t w',
      (let* t := Trainer_init "ckpt" (a_config 4) "trainer_config.json" in
       train t (Some 2) None) empty_world = (Ok t, w')
      ∧ size (optimizers (get_dir "ckpt" w')) = 2.
Proof. split; [eexists|eexists _, _]; by vm_compute. Qed.

(** C7, witness. *)
Lemma save_effect_witness :
  optimizer (a_trainer "ckpt" 2 5) = Some 2
  ∧ ∃ w', save (a_trainer "ckpt" 2 5) 2 (world_with "ckpt" (a_checkpoint [1; 2] [2] 5))
          = (Ok tt, w')
          ∧ optimizers (get_dir "ckpt" w') !! 3 = Some 2
          ∧ optimizers (get_dir "ckpt" w') !! 2 = None
          ∧ epochs (get_dir "ckpt" w') !! 2
            = epochs (get_dir "ckpt" (world_with "ckpt" (a_checkpoint [1; 2] [2] 5))) !! 2.
Proof.
  split; [reflexivity|].
  destruct (save_effect (a_trainer "ckpt" 2 5) 2 2
              (world_with "ckpt" (a_checkpoint [1; 2] [2] 5)) eq_refl)
    as (w' & Hsave & _ & Hep & Hnew & Hold & _ & _).
  exists w'. split; [exact Hsave|]. split; [exact Hnew|]. split; [exact Hold|].
  apply Hep. lia.
Defined.


(** C9, witness: a checkpoint whose [eval/metric.json] has the entry of
    the split [2020.dev]. *)
Lemma eval_single_model_cached_witness :
  let cached : gmap string (gmap string Z) :=
    {[ "2020.dev" := {[ "micro/f1" := 7000000%Z ]} ]} in
  let w := world_with "model_a"
             {| epochs := {[ 2 := {| snapshot := Some (2 : Model);
                                     eval_metric := Some cached |} ]};
                optimizers := ∅; configs := ∅ |} in
  load_metric ("model_a", 2) w !! ec_data_split (eval_config (a_searcher 2 1))
  = Some {[ "micro/f1" := 7000000%Z ]}
  ∧ eval_single_model (a_searcher 2 1) ("model_a", 2) w
    = (Ok (load_metric ("model_a", 2) w, {[ "micro/f1" := 7000000%Z ]}), w).
Proof.
  intros cached w.
  assert (load_metric ("model_a", 2) w !! ec_data_split (eval_config (a_searcher 2 1))
          = Some {[ "micro/f1" := 7000000%Z ]}) as Hc by reflexivity.
  split; [exact Hc|].
  exact (proj1 (eval_single_model_cached (a_searcher 2 1) ("model_a", 2) w _ Hc)).
Defined.

(** C10, witness: a search over two epochs with [epoch_partial = 2]. *)
Lemma run_stops_after_phase1_witness :
  epoch_partial (a_searcher 2 2) = gs_epoch (a_searcher 2 2)
  ∧ root_files (run 10 (a_searcher 2 2) empty_world).2 !! "metric.2nd.json"
    = root_files empty_world !! "metric.2nd.json"
  ∧ best_model (run 10 (a_searcher 2 2) empty_world).2 = best_model empty_world.
Proof.
  assert (epoch_partial (a_searcher 2 2) = gs_epoch (a_searcher 2 2)) as Hp
    by reflexivity.
  split; [exact Hp|].
  destruct (run_stops_after_phase1 10 (a_searcher 2 2) empty_world Hp)
    as (_ & H2 & _ & Hb & _).
  split; [exact H2|exact Hb].
Defined.

(** * Further properties *)

(** ** Normalising the axes *)

Lemma py_sorted_of_Sorted {A} (R : relation A) `{!RelDecision R} (l : list A) :
  Sorted R l → py_sorted R l = l.
Proof.
  induction 1 as [|x l Hl IH Hhd]; [done|].
  cbn [py_sorted foldr].
  change (foldr (insert_sorted R) [] l) with (py_sorted R l). rewrite IH.
  destruct Hhd as [|y l' Hxy]; simpl; [done|]. by rewrite decide_True.
Qed.

Section axes_facts.
Context {V : Type} `{PyNum V}.
Context `{!PartialOrder (num_le (V:=V)), !Total (num_le (V:=V))}.

#[local] Instance flip_hp_le_total : Total (flip (hp_le (V:=V))).
Proof.
  intros [x|] [y|]; unfold flip; simpl; auto;
    destruct (total num_le x y); auto.
Qed.

#[local] Instance flip_hp_le_trans : Transitive (flip (hp_le (V:=V))).
Proof.
  intros [x|] [y|] [z|]; unfold flip; simpl; try done.
  intros ??. by etrans.
Qed.

#[local] Instance flip_hp_le_antisymm : AntiSymm eq (flip (hp_le (V:=V))).
Proof.
  intros [x|] [y|]; unfold flip; simpl; try done.
  intros ??. f_equal. by apply (anti_symm num_le).
Qed.

(** What [to_list] returns for a list without duplicates. *)
Lemma to_list_distinct (l : list (option V)) :
  NoDup l →
  ∃ rest, to_list (AxisList l)
          = Ok ((if decide (None ∈ l) then [None] else []) ++ rest)
    ∧ (if decide (None ∈ l) then [None] else []) ++ rest ≡ₚ l
    ∧ rest = py_sorted (flip hp_le) rest
    ∧ StronglySorted (flip hp_le) rest.
Proof.
  intros Hnd. unfold to_list.
  rewrite decide_True by (by apply remove_dups_length_NoDup).
  destruct (decide (None ∈ l)) as [Hin|Hin].
  - destruct (py_index_lookup None l Hin) as (i & -> & Hi). simpl.
    exists (py_sorted (flip hp_le) (delete i l)). split_and!.
    + done.
    + rewrite py_sorted_Permutation. symmetry. by apply delete_Permutation.
    + symmetry. apply py_sorted_of_Sorted, py_sorted_Sorted. apply _.
    + apply py_sorted_StronglySorted; apply _.
  - exists (py_sorted (flip hp_le) l). simpl. split_and!.
    + done.
    + apply py_sorted_Permutation.
    + symmetry. apply py_sorted_of_Sorted, py_sorted_Sorted. apply _.
    + apply py_sorted_StronglySorted; apply _.
Qed.

Lemma to_list_duplicate (l : list (option V)) :
  ¬ NoDup l → to_list (AxisList l) = Raise AssertionError.
Proof.
  intros Hnd. unfold to_list.
  rewrite decide_False; [done|]. by rewrite remove_dups_length_NoDup.
Qed.

(** X1.  The order in which the candidates of an axis are listed does not
    matter: two lists with the same elements normalise to the same list,
    or both raise. *)
Theorem to_list_order_irrelevant (l1 l2 : list (option V)) :
  l1 ≡ₚ l2 → to_list (AxisList l1) = to_list (AxisList l2).
Proof.
  intros Hperm. destruct (decide (NoDup l1)) as [Hnd1|Hnd1].
  - assert (NoDup l2) as Hnd2 by (by rewrite <- Hperm).
    destruct (to_list_distinct l1 Hnd1) as (r1 & -> & Hp1 & _ & Hs1).
    destruct (to_list_distinct l2 Hnd2) as (r2 & -> & Hp2 & _ & Hs2).
    assert (r1 ≡ₚ r2) as Hr.
    { destruct (decide (None ∈ l1)) as [Hin|Hin].
      - rewrite decide_True in Hp2 by (by rewrite <- Hperm).
        simpl in *. eapply Permutation_cons_inv.
        by rewrite Hp1, Hp2.
      - rewrite decide_False in Hp2 by (by rewrite <- Hperm).
        simpl in *. by rewrite Hp1, Hp2. }
    rewrite (StronglySorted_unique (flip hp_le) r1 r2 Hs1 Hs2 Hr).
    destruct (decide (None ∈ l1)).
    + by rewrite decide_True by (by rewrite <- Hperm).
    + by rewrite decide_False by (by rewrite <- Hperm).
  - rewrite !to_list_duplicate; [done| |done]. by rewrite <- Hperm.
Qed.

(** X2.  Normalising is idempotent: a list that [to_list] returned, for
    a scalar or for a list, is returned unchanged when it is passed
    again. *)
Theorem to_list_idempotent (arg : axis_arg V) (l : list (option V)) :
  to_list arg = Ok l → to_list (AxisList l) = Ok l.
Proof.
  destruct arg as [v|l0].
  - intros [= <-]. destruct v as [x|]; by vm_compute.
  - intros Hok. destruct (decide (NoDup l0)) as [Hnd|Hnd];
      [|by rewrite to_list_duplicate in Hok].
    destruct (to_list_distinct l0 Hnd) as (rest & Heq & Hp & Hfix & Hs).
    rewrite Heq in Hok. injection Hok as <-.
    assert (NoDup ((if decide (None ∈ l0) then [None] else []) ++ rest)) as Hnd'
      by (by rewrite Hp).
    unfold to_list.
    rewrite decide_True by (by apply remove_dups_length_NoDup).
    destruct (decide (None ∈ l0)) as [Hin|Hin]; cbn [app] in *.
    + rewrite (decide_True (P := None ∈ None :: rest)) by left.
      cbn [py_index]. rewrite decide_True by done. simpl.
      do 2 f_equal. symmetry. exact Hfix.
    + rewrite decide_False; [by rewrite <- Hfix|].
      intros Hin'. apply Hin. by rewrite <- Hp.
Qed.

End axes_facts.

(** ** The grid of a constructed searcher *)

Lemma NoDup_bind_proj {A B} (f : A → list B) (g : B → A) (l : list A) :
  (∀ x y, y ∈ f x → g y = x) → (∀ x, NoDup (f x)) → NoDup l → NoDup (l ≫= f).
Proof.
  intros Hg Hf Hl. apply NoDup_bind; [|by intros|done].
  intros x1 x2 y _ _ H1 H2. by rewrite <- (Hg x1 y), <- (Hg x2 y).
Qed.

Section grid_more.
Context {V : Type} `{PyNum V}.

(** Break membership in nested list comprehensions down to the axes. *)
Ltac unfold_product H :=
  repeat (apply list_elem_of_bind in H as (? & H & ?));
  apply list_elem_of_singleton in H; subst.

Lemma product_elem_of (l0 l1 l2 l3 l4 l5 l6 : list (option V))
    x0 x1 x2 x3 x4 x5 x6 :
  (x0, x1, x2, x3, x4, x5, x6) ∈ product l0 l1 l2 l3 l4 l5 l6
  ↔ x0 ∈ l0 ∧ x1 ∈ l1 ∧ x2 ∈ l2 ∧ x3 ∈ l3 ∧ x4 ∈ l4 ∧ x5 ∈ l5 ∧ x6 ∈ l6.
Proof.
  unfold product. split.
  - intros Hin. unfold_product Hin. by simplify_eq.
  - intros (I0 & I1 & I2 & I3 & I4 & I5 & I6).
    apply list_elem_of_bind. exists x0. split; [|done].
    apply list_elem_of_bind. exists x1. split; [|done].
    apply list_elem_of_bind. exists x2. split; [|done].
    apply list_elem_of_bind. exists x3. split; [|done].
    apply list_elem_of_bind. exists x4. split; [|done].
    apply list_elem_of_bind. exists x5. split; [|done].
    apply list_elem_of_bind. exists x6. split; [|done].
    by apply list_elem_of_singleton.
Qed.

Lemma product_NoDup (l0 l1 l2 l3 l4 l5 l6 : list (option V)) :
  NoDup l0 → NoDup l1 → NoDup l2 → NoDup l3 → NoDup l4 → NoDup l5 → NoDup l6 →
  NoDup (product l0 l1 l2 l3 l4 l5 l6).
Proof.
  intros N0 N1 N2 N3 N4 N5 N6. unfold product.
  apply (NoDup_bind_proj _ (λ p : grid_point V, p.1.1.1.1.1.1));
    [intros ? ? Hin; by unfold_product Hin| |done]. intros x0.
  apply (NoDup_bind_proj _ (λ p : grid_point V, p.1.1.1.1.1.2));
    [intros ? ? Hin; by unfold_product Hin| |done]. intros x1.
  apply (NoDup_bind_proj _ (λ p : grid_point V, p.1.1.1.1.2));
    [intros ? ? Hin; by unfold_product Hin| |done]. intros x2.
  apply (NoDup_bind_proj _ (λ p : grid_point V, p.1.1.1.2));
    [intros ? ? Hin; by unfold_product Hin| |done]. intros x3.
  apply (NoDup_bind_proj _ (λ p : grid_point V, p.1.1.2));
    [intros ? ? Hin; by unfold_product Hin| |done]. intros x4.
  apply (NoDup_bind_proj _ (λ p : grid_point V, p.1.2));
    [intros ? ? Hin; by unfold_product Hin| |done]. intros x5.
  apply (NoDup_bind_proj _ (λ p : grid_point V, p.2));
    [intros ? ? Hin; by unfold_product Hin| |done]. intros x6.
  apply NoDup_singleton.
Qed.

(** The outcome of [to_list] without reference to the order. *)
Lemma to_list_outcome (a : axis_arg V) :
  (axis_distinct a ∧ ∃ l, to_list a = Ok l ∧ NoDup l)
  ∨ (¬ axis_distinct a ∧ to_list a = Raise AssertionError).
Proof.
  destruct a as [v|l]; simpl.
  - left. split; [done|]. exists [v]. split; [done|]. apply NoDup_singleton.
  - destruct (decide (NoDup l)) as [Hnd|Hnd].
    + left. split; [done|].
      rewrite decide_True by (by apply remove_dups_length_NoDup).
      destruct (decide (None ∈ l)) as [Hin|Hin].
      * destruct (py_index_lookup None l Hin) as (i & -> & Hi). simpl.
        eexists. split; [done|].
        assert (None :: py_sorted (flip hp_le) (delete i l) ≡ₚ l) as ->; [|done].
        rewrite py_sorted_Permutation. symmetry. by apply delete_Permutation.
      * eexists. split; [done|]. by rewrite py_sorted_Permutation.
    + right. split; [done|].
      rewrite decide_False; [done|]. by rewrite remove_dups_length_NoDup.
Qed.

(** X3.  The searcher is constructed exactly when none of the seven axis
    arguments is a list with a duplicate; otherwise the construction
    raises [AssertionError], and it raises nothing else. *)
Theorem GridSearcher_init_outcome (a : GridSearcherArgs V) :
  let distinct :=
    axis_distinct (a_lr a) ∧ axis_distinct (a_crf a)
    ∧ axis_distinct (a_random_seed a) ∧ axis_distinct (a_weight_decay a)
    ∧ axis_distinct (a_lr_warmup_step_ratio a)
    ∧ axis_distinct (a_max_grad_norm a)
    ∧ axis_distinct (a_gradient_accumulation_steps a) in
  (distinct → ∃ gs, GridSearcher_init a = Ok gs)
  ∧ (¬ distinct → GridSearcher_init a = Raise AssertionError).
Proof.
  simpl. unfold GridSearcher_init.
  destruct (to_list_outcome (a_lr a)) as [[D0 (l0 & -> & _)]|[D0 ->]];
    [|split; [by intros (? & _)|done]].
  destruct (to_list_outcome (a_crf a)) as [[D1 (l1 & -> & _)]|[D1 ->]];
    [|split; [by intros (? & ? & _)|done]].
  destruct (to_list_outcome (a_random_seed a)) as [[D2 (l2 & -> & _)]|[D2 ->]];
    [|split; [by intros (? & ? & ? & _)|done]].
  destruct (to_list_outcome (a_weight_decay a)) as [[D3 (l3 & -> & _)]|[D3 ->]];
    [|split; [by intros (? & ? & ? & ? & _)|done]].
  destruct (to_list_outcome (a_lr_warmup_step_ratio a))
    as [[D4 (l4 & -> & _)]|[D4 ->]];
    [|split; [by intros (? & ? & ? & ? & ? & _)|done]].
  destruct (to_list_outcome (a_max_grad_norm a)) as [[D5 (l5 & -> & _)]|[D5 ->]];
    [|split; [by intros (? & ? & ? & ? & ? & ? & _)|done]].
  destruct (to_list_outcome (a_gradient_accumulation_steps a))
    as [[D6 (l6 & -> & _)]|[D6 ->]];
    [|split; [by intros (? & ? & ? & ? & ? & ? & ?)|done]].
  simpl. split; [eauto|]. intros Hn. exfalso. apply Hn. done.
Qed.

(** X4.  The grid of a constructed searcher holds every combination of
    the normalised axes, each exactly once. *)
Theorem grid_points_once (a : GridSearcherArgs V) (gs : GridSearcher V) :
  GridSearcher_init a = Ok gs →
  NoDup (all_dynamic_configs gs)
  ∧ ∀ x0 x1 x2 x3 x4 x5 x6,
      (x0, x1, x2, x3, x4, x5, x6) ∈ all_dynamic_configs gs
      ↔ x0 ∈ dc_lr (dynamic_config gs) ∧ x1 ∈ dc_crf (dynamic_config gs)
        ∧ x2 ∈ dc_random_seed (dynamic_config gs)
        ∧ x3 ∈ dc_weight_decay (dynamic_config gs)
        ∧ x4 ∈ dc_lr_warmup_step_ratio (dynamic_config gs)
        ∧ x5 ∈ dc_max_grad_norm (dynamic_config gs)
        ∧ x6 ∈ dc_gradient_accumulation_steps (dynamic_config gs).
Proof.
  unfold GridSearcher_init.
  destruct (to_list_outcome (a_lr a)) as [[_ (l0 & -> & N0)]|[_ ->]]; [|done].
  destruct (to_list_outcome (a_crf a)) as [[_ (l1 & -> & N1)]|[_ ->]]; [|done].
  destruct (to_list_outcome (a_random_seed a)) as [[_ (l2 & -> & N2)]|[_ ->]];
    [|done].
  destruct (to_list_outcome (a_weight_decay a)) as [[_ (l3 & -> & N3)]|[_ ->]];
    [|done].
  destruct (to_list_outcome (a_lr_warmup_step_ratio a))
    as [[_ (l4 & -> & N4)]|[_ ->]]; [|done].
  destruct (to_list_outcome (a_max_grad_norm a)) as [[_ (l5 & -> & N5)]|[_ ->]];
    [|done].
  destruct (to_list_outcome (a_gradient_accumulation_steps a))
    as [[_ (l6 & -> & N6)]|[_ ->]]; [|done].
  simpl. intros [= <-]. simpl. split.
  - by apply product_NoDup.
  - intros. apply product_elem_of.
Qed.

End grid_more.

(** ** The shape of a random name *)

Section random_more.
Context {V : Type} `{Backend V}.

Lemma string_of_list_ascii_length (l : list Ascii.ascii) :
  String.length (String.string_of_list_ascii l) = length l.
Proof. induction l as [|c l IH]; simpl; [done|]. by rewrite IH. Qed.

Lemma random_letters_length n (r : RngState) :
  length (random_letters n r).1 = n.
Proof.
  revert r. induction n as [|n IH]; intros r; cbn [random_letters]; [done|].
  destruct (rng_choice r) as [i r1]. specialize (IH r1).
  destruct (random_letters n r1) as [s r2]. simpl in *. by rewrite IH.
Qed.

(** Two worlds that differ in the state of the generator only. *)
Local Abbreviation same_but_rng w w' :=
  (root_files w' = root_files w ∧ model_dirs w' = model_dirs w
   ∧ best_model w' = best_model w ∧ events w' = events w).

Lemma random_string_shape n (w w' : world) s :
  random_string n w = (Ok s, w') →
  String.length s = n ∧ same_but_rng w w'.
Proof.
  unfold random_string. pose proof (random_letters_length n (rng w)) as Hl.
  destruct (random_letters n (rng w)) as [l r]. intros [= <- <-].
  by rewrite string_of_list_ascii_length.
Qed.

Lemma redraw_shape fuel n exclude tmp (w w' : world) s :
  String.length tmp = n →
  redraw fuel n exclude tmp w = (Ok s, w') →
  String.length s = n ∧ same_but_rng w w'.
Proof.
  revert tmp w. induction fuel as [|fuel IH]; intros tmp w Htmp; simpl.
  - case_decide; [done|]. by intros [= <- <-].
  - case_decide; [|by intros [= <- <-]].
    unfold bind. destruct (random_string n w) as [[tmp'| |] w1] eqn:Hd; [|done..].
    apply random_string_shape in Hd as (Hlen & F1 & F2 & F3 & F4).
    intros Hre. apply IH in Hre as (? & G1 & G2 & G3 & G4); [|done].
    split_and!; congruence.
Qed.

(** X5.  A name that [get_random_string] returns has exactly [length]
    characters, all of them lowercase letters, and is none of [exclude];
    drawing it changes nothing but the state of the generator. *)
Theorem get_random_string_shape (fuel n : nat) (exclude : list string)
    (w w' : world) (s : string) :
  get_random_string fuel n exclude w = (Ok s, w') →
  String.length s = n
  ∧ Forall (λ c, c ∈ ascii_lowercase) (String.list_ascii_of_string s)
  ∧ (s ∉ exclude)
  ∧ root_files w' = root_files w ∧ model_dirs w' = model_dirs w
  ∧ best_model w' = best_model w ∧ events w' = events w.
Proof.
  intros Hget.
  destruct (get_random_string_Ok _ _ _ _ _ _ Hget) as [Hex Hlow].
  revert Hget. unfold get_random_string, bind.
  destruct (random_string n w) as [[tmp| |] w1] eqn:Hd; [|done..].
  apply random_string_shape in Hd as (Hlen & F1 & F2 & F3 & F4).
  destruct exclude as [|x exclude].
  - intros [= <- <-]. done.
  - intros Hre. apply redraw_shape in Hre as (? & G1 & G2 & G3 & G4); [|done].
    split_and!; congruence.
Qed.

End random_more.

(** ** Saving and resuming *)

Lemma StronglySorted_filter {A} (R : relation A) (P : A → Prop)
    `{!∀ x, Decision (P x)} (l : list A) :
  StronglySorted R l → StronglySorted R (filter P l).
Proof.
  induction 1 as [|x l Hl IH Hx]; [constructor|].
  rewrite filter_cons. case_decide; [|done].
  constructor; [done|]. rewrite Forall_forall in Hx. apply Forall_forall.
  intros y [_ Hy]%list_elem_of_filter. by apply Hx.
Qed.

Section resume_more.
Context {V : Type} `{PyNum V} `{Backend V}.

Lemma set_dir_set_dir dir c c' (w : world) :
  set_dir dir c (set_dir dir c' w) = set_dir dir c w.
Proof.
  unfold set_dir, set_model_dirs. simpl. by rewrite insert_insert_eq.
Qed.

(** The world that a [save] with an optimizer leaves. *)
Lemma save_world (t : Trainer) n o (w : world) :
  optimizer t = Some o →
  save t n w
  = (Ok tt,
     set_dir (checkpoint_dir t)
       (remove_optimizer n
          (write_optimizer (n + 1) o
             (write_snapshot (n + 1) (model t) (get_dir (checkpoint_dir t) w))))
       w).
Proof.
  intros Ho. unfold save, bind, modify_dir, modify. rewrite Ho. simpl.
  by rewrite !get_dir_set_dir, !set_dir_set_dir.
Qed.

Lemma resume_candidates_elem_of (c : checkpoint) e :
  e ∈ resume_candidates c ↔ is_Some (epochs c !! e).
Proof.
  unfold resume_candidates. rewrite py_sorted_Permutation, list_elem_of_fmap.
  split.
  - intros ([e' d] & -> & Hin%elem_of_map_to_list). by exists d.
  - intros [d Hd]. exists (e, d). split; [done|]. by apply elem_of_map_to_list.
Qed.

Lemma resume_candidates_sorted (c : checkpoint) :
  StronglySorted (flip Nat.le) (resume_candidates c) ∧ NoDup (resume_candidates c).
Proof.
  split.
  - apply py_sorted_StronglySorted.
    + intros x y. unfold flip. lia.
    + intros x y z. unfold flip. lia.
  - unfold resume_candidates. rewrite py_sorted_Permutation.
    apply NoDup_fst_map_to_list.
Qed.

(** The scan only looks at the epochs that have an optimizer snapshot. *)
Lemma resume_scan_filter (c : checkpoint) file l :
  ∀ st, foldl (resume_step c file) st l
        = foldl (resume_step c file) st
            (filter (λ e, is_Some (optimizers c !! e)) l).
Proof.
  induction l as [|e l IH]; intros st; [done|].
  rewrite filter_cons. case_decide as He; simpl; [apply IH|].
  rewrite <- IH. f_equal. unfold resume_step.
  destruct (optimizers c !! e) eqn:Ho; [|done]. exfalso. apply He. eauto.
Qed.

(** With the config file in place, a scan that loaded a model has loaded
    the config; and a scan that loaded nothing met no complete epoch. *)
Lemma resume_scan_config (c : checkpoint) file cfg m :
  configs c !! file = Some cfg →
  rs_model (resume_scan c file) = Some m →
  rs_config (resume_scan c file) = Some cfg.
Proof.
  intros Hcfg. unfold resume_scan. generalize (resume_candidates c). intros l.
  assert (∀ st, (is_Some (rs_model st) → rs_config st = Some cfg) →
                is_Some (rs_model (foldl (resume_step c file) st l)) →
                rs_config (foldl (resume_step c file) st l) = Some cfg) as Hinv.
  { induction l as [|e l IH]; intros st Hst; simpl; [done|].
    apply IH. unfold resume_step, resume_try. rewrite Hcfg.
    destruct (optimizers c !! e); [|done].
    destruct (epochs c !! e ≫= snapshot); simpl; done. }
  intros Hm. apply Hinv; [by intros [? [=]]|]. by rewrite Hm.
Qed.

Lemma resume_scan_loaded (c : checkpoint) file m :
  rs_model (resume_scan c file) = Some m →
  epochs c !! rs_epoch (resume_scan c file) ≫= snapshot = Some m
  ∧ is_Some (optimizers c !! rs_epoch (resume_scan c file))
  ∧ is_Some (configs c !! file).
Proof.
  unfold resume_scan. generalize (resume_candidates c). intros l.
  assert (∀ st,
    (∀ m, rs_model st = Some m →
          epochs c !! rs_epoch st ≫= snapshot = Some m
          ∧ is_Some (optimizers c !! rs_epoch st) ∧ is_Some (configs c !! file)) →
    ∀ m, rs_model (foldl (resume_step c file) st l) = Some m →
         epochs c !! rs_epoch (foldl (resume_step c file) st l) ≫= snapshot = Some m
         ∧ is_Some (optimizers c !! rs_epoch (foldl (resume_step c file) st l))
         ∧ is_Some (configs c !! file)) as Hinv.
  { induction l as [|e l IH]; intros st Hst; simpl; [done|].
    apply IH. unfold resume_step, resume_try.
    destruct (optimizers c !! e) eqn:Ho; [|done].
    destruct (configs c !! file) eqn:Hc; [|done].
    destruct (epochs c !! e ≫= snapshot) eqn:Hs; simpl; [|done].
    intros m' [= <-]. rewrite Ho. eauto. }
  apply Hinv. by intros ? [=].
Qed.

Lemma resume_scan_nothing (c : checkpoint) file e :
  rs_model (resume_scan c file) = None →
  is_Some (configs c !! file) →
  ¬ (is_Some (optimizers c !! e) ∧ is_Some (epochs c !! e ≫= snapshot)).
Proof.
  intros Hnone [cfg Hcfg] [Ho [m Hm]].
  assert (e ∈ resume_candidates c) as Hin.
  { apply resume_candidates_elem_of. by destruct (epochs c !! e). }
  revert Hnone. unfold resume_scan.
  apply list_elem_of_split in Hin as (l1 & l2 & ->).
  rewrite foldl_app. simpl. erewrite resume_step_complete by done.
  generalize l2. clear. intros l2.
  assert (∀ st, is_Some (rs_model st) →
                is_Some (rs_model (foldl (resume_step c file) st l2))) as Hkeep.
  { induction l2 as [|e' l2 IH]; intros st Hst; simpl; [done|].
    apply IH. unfold resume_step, resume_try.
    destruct (optimizers c !! e'); [|done].
    destruct (configs c !! file); [|done].
    destruct (epochs c !! e' ≫= snapshot); simpl; [by eexists|done]. }
  intros Hn. destruct (Hkeep {| rs_config := Some cfg; rs_model := Some m;
                                rs_epoch := e |}) as [? Hx]; [by eexists|].
  congruence.
Qed.

(** X6.  What a constructed [Trainer] is.  Either it resumed: its model
    is the snapshot of its [current_epoch], whose optimizer snapshot is
    there, its config is the config file, and no file was touched.  Or it
    is fresh: the model is the pretrained one, [current_epoch] is 0, the
    arguments are the config and were written to the config file, the
    only file touched; and when the config file was there before, no epoch
    had both a loadable model and an optimizer snapshot.  Either way the
    generator is seeded from the config and the optimizer is unset. *)
Theorem Trainer_init_cases dir args file (w w' : world) (t : Trainer) :
  Trainer_init dir args file w = (Ok t, w') →
  checkpoint_dir t = dir ∧ optimizer t = None
  ∧ rng w' = rng_seed (cfg_random_seed (config t))
  ∧ root_files w' = root_files w ∧ best_model w' = best_model w
  ∧ events w' = events w
  ∧ ((epochs (get_dir dir w) !! current_epoch t ≫= snapshot = Some (model t)
      ∧ is_Some (optimizers (get_dir dir w) !! current_epoch t)
      ∧ configs (get_dir dir w) !! file = Some (config t)
      ∧ model_dirs w' = model_dirs w)
     ∨ (current_epoch t = 0 ∧ config t = args
        ∧ from_pretrained (cfg_model args) (cfg_max_length args) (cfg_crf args)
          = Some (model t)
        ∧ model_dirs w'
          = <[dir := {| epochs := epochs (get_dir dir w);
                        optimizers := optimizers (get_dir dir w);
                        configs := <[file := args]> (configs (get_dir dir w)) |}]>
              (model_dirs w)
        ∧ (is_Some (configs (get_dir dir w) !! file) →
           ∀ e, ¬ (is_Some (optimizers (get_dir dir w) !! e)
                   ∧ is_Some (epochs (get_dir dir w) !! e ≫= snapshot))))).
Proof.
  unfold Trainer_init, bind, get_world, modify, ret, raise.
  destruct (rs_model (resume_scan (get_dir dir w) file)) as [m|] eqn:Hm.
  - destruct (rs_config (resume_scan (get_dir dir w) file)) as [cfg|] eqn:Hc;
      [|done].
    intros [= <- <-]. simpl. split_and!; try done. left.
    destruct (resume_scan_loaded (get_dir dir w) file m Hm)
      as (Hs & Ho & [cfg' Hcfg']).
    split_and!; try done.
    rewrite Hcfg'. f_equal.
    pose proof (resume_scan_config (get_dir dir w) file cfg' m Hcfg' Hm).
    congruence.
  - destruct (from_pretrained _ _ _) as [m|] eqn:Hp; [|done].
    intros [= <- <-]. simpl. split_and!; try done. right.
    split_and!; try done.
    + unfold resume_scan in *.
      assert (∀ l st, rs_model (foldl (resume_step (get_dir dir w) file) st l) = None →
                rs_epoch (foldl (resume_step (get_dir dir w) file) st l) = rs_epoch st)
        as Hkeep.
      { intros l. induction l as [|e l IH] using rev_ind; intros st Hn; [done|].
        rewrite foldl_snoc in *. revert Hn.
        unfold resume_step at 1 3, resume_try.
        destruct (optimizers _ !! e); [|by apply IH].
        destruct (configs _ !! file); [|by apply IH].
        destruct (epochs _ !! e ≫= snapshot); simpl; [done|by apply IH]. }
      by rewrite Hkeep.
    + intros Hcfg e. exact (resume_scan_nothing (get_dir dir w) file e Hm Hcfg).
Qed.


(** X8.  An epoch directory without its optimizer snapshot does not
    count: writing a model snapshot for an epoch whose optimizer snapshot
    is not there, as a [save] that stops between its two writes does,
    changes nothing in what the resume scan finds. *)
Theorem resume_ignores_unfinished_save (c : checkpoint) (n : nat) (m : Model)
    (file : string) :
  optimizers c !! n = None →
  resume_scan (write_snapshot n m c) file = resume_scan c file.
Proof.
  intros Hn. unfold resume_scan.
  rewrite (resume_scan_filter (write_snapshot n m c)), (resume_scan_filter c).
  assert (∀ st e, resume_step (write_snapshot n m c) file st e
                  = resume_step c file st e) as Hstep.
  { intros st e. unfold resume_step, resume_try. simpl.
    destruct (decide (e = n)) as [->|Hne]; [by rewrite Hn|].
    by rewrite lookup_insert_ne. }
  assert (filter (λ e, is_Some (optimizers (write_snapshot n m c) !! e))
                 (resume_candidates (write_snapshot n m c))
          = filter (λ e, is_Some (optimizers c !! e)) (resume_candidates c))
    as ->.
  { destruct (resume_candidates_sorted c) as [S1 N1].
    destruct (resume_candidates_sorted (write_snapshot n m c)) as [S2 N2].
    assert (AntiSymm eq (flip Nat.le)) as Hanti
      by (intros x y; unfold flip; lia).
    apply (StronglySorted_unique (flip Nat.le)).
    - by apply StronglySorted_filter.
    - by apply StronglySorted_filter.
    - apply NoDup_Permutation; [by apply NoDup_filter..|].
      intros e. rewrite !list_elem_of_filter, !resume_candidates_elem_of. simpl.
      destruct (decide (e = n)) as [->|Hne].
      + rewrite Hn. split; intros [[? [=]] _].
      + by rewrite lookup_insert_ne. }
  generalize (filter (λ e, is_Some (optimizers c !! e)) (resume_candidates c)).
  intros l. generalize ({| rs_config := None; rs_model := @None Model; rs_epoch := 0 |}).
  induction l as [|e l IH]; intros st; simpl; [done|].
  by rewrite Hstep, IH.
Qed.

End resume_more.

(** ** Training with a checkpoint after every epoch *)

Section train_facts.
Context {V : Type} `{PyNum V} `{Backend V}.

Lemma saved_optimizers n (m : Model) o (c : checkpoint) j :
  optimizers (saved n m o c) !! j
  = if decide (j = n) then None
    else if decide (j = n + 1) then Some o else optimizers c !! j.
Proof.
  assert (optimizers (saved n m o c) = delete n (<[n + 1 := o]> (optimizers c)))
    as ->.
  { unfold saved, remove_optimizer. case_decide as Hn; simpl; [done|].
    symmetry. apply delete_id. by apply eq_None_not_Some. }
  case_decide as Hj; [subst; by rewrite lookup_delete_eq|].
  rewrite lookup_delete_ne by done.
  case_decide; [subst; by rewrite lookup_insert_eq|].
  by rewrite lookup_insert_ne.
Qed.

Lemma saved_epochs n (m : Model) o (c : checkpoint) j :
  epochs (saved n m o c) !! j
  = if decide (j = n + 1)
    then Some {| snapshot := Some m;
                 eval_metric := epochs c !! (n + 1) ≫= eval_metric |}
    else epochs c !! j.
Proof.
  assert (epochs (saved n m o c)
          = <[n + 1 := {| snapshot := Some m;
                          eval_metric := epochs c !! (n + 1) ≫= eval_metric |}]>
              (epochs c)) as ->.
  { unfold saved, remove_optimizer. by case_decide. }
  case_decide; [subst; by rewrite lookup_insert_eq|].
  by rewrite lookup_insert_ne.
Qed.

Lemma saved_configs n (m : Model) o (c : checkpoint) :
  configs (saved n m o c) = configs c.
Proof. unfold saved, remove_optimizer. by case_decide. Qed.

Lemma last_epoch_step ep a k :
  ep ≠ Some (a + 1) →
  last_epoch ep a (a + S (S k)) = last_epoch ep (a + 1) (a + 1 + S k).
Proof.
  intros Hne. unfold last_epoch. destruct ep as [p|]; [|lia].
  assert (p ≠ a + 1) by congruence.
  repeat case_decide; lia.
Qed.

Lemma last_epoch_one ep a :
  last_epoch ep a (a + 1) = a + 1.
Proof. unfold last_epoch. destruct ep as [p|]; [|done]. case_decide; lia. Qed.

Lemma last_epoch_here a k :
  last_epoch (Some (a + 1)) a (a + S k) = a + 1.
Proof. unfold last_epoch. case_decide; lia. Qed.

Lemma trained_S cfg ep k a m o c :
  trained cfg ep (S k) a m o c
  = (let '(m1, o1) := train_epoch cfg a m o in
     if decide (ep = Some (a + 1)) then (m1, o1, saved a m1 o1 c, 1)
     else
       let '(m2, o2, c2, n) :=
         trained cfg ep k (a + 1) m1 o1 (saved a m1 o1 c) in
       (m2, o2, c2, S n)).
Proof. done. Qed.

(** What [trained] leaves in the directory. *)
Lemma trained_spec cfg ep k :
  ∀ a m o c m' o' c' n,
    trained cfg ep (S k) a m o c = (m', o', c', n) →
    0 < n ∧ a + n = last_epoch ep a (a + S k)
    ∧ configs c' = configs c
    ∧ (∀ j, optimizers c' !! j
            = if decide (a ≤ j < a + n) then None
              else if decide (j = a + n) then Some o' else optimizers c !! j)
    ∧ (∀ j, ¬ (a < j ≤ a + n) → epochs c' !! j = epochs c !! j)
    ∧ (∀ j, a < j ≤ a + n → is_Some (epochs c' !! j ≫= snapshot))
    ∧ epochs c' !! (a + n)
      = Some {| snapshot := Some m';
                eval_metric := epochs c !! (a + n) ≫= eval_metric |}.
Proof.
  induction k as [|k IH]; intros a m o c m' o' c' n; rewrite trained_S.
  - cbn [trained]. destruct (train_epoch cfg a m o) as [m1 o1].
    assert ((if decide (ep = Some (a + 1)) then (m1, o1, saved a m1 o1 c, 1)
             else (m1, o1, saved a m1 o1 c, 1))
            = (m1, o1, saved a m1 o1 c, 1)) as Heq by (by case_decide).
    rewrite Heq. clear Heq. intros [= <- <- <- <-].
    split_and!.
    + lia.
    + by rewrite last_epoch_one.
    + apply saved_configs.
    + intros j. rewrite saved_optimizers. repeat case_decide; done || lia.
    + intros j Hj. rewrite saved_epochs. case_decide; done || lia.
    + intros j Hj. rewrite saved_epochs. rewrite decide_True by lia. by eexists.
    + by rewrite saved_epochs, decide_True.
  - destruct (train_epoch cfg a m o) as [m1 o1].
    case_decide as Hep.
    + intros [= <- <- <- <-]. split_and!.
      * lia.
      * by rewrite Hep, last_epoch_here.
      * apply saved_configs.
      * intros j. rewrite saved_optimizers. repeat case_decide; done || lia.
      * intros j Hj. rewrite saved_epochs. case_decide; done || lia.
      * intros j Hj. rewrite saved_epochs. rewrite decide_True by lia. by eexists.
      * by rewrite saved_epochs, decide_True.
    + destruct (trained cfg ep (S k) (a + 1) m1 o1 (saved a m1 o1 c))
        as [[[m2 o2] c2] n0] eqn:Htr.
      intros [= <- <- <- <-].
      destruct (IH _ _ _ _ _ _ _ _ Htr) as (Hn & Hlast & Hcfg & Hopt & Hep1 & Hep2 & Hep3).
      split_and!.
      * lia.
      * rewrite last_epoch_step by done. lia.
      * by rewrite Hcfg, saved_configs.
      * intros j. rewrite Hopt, saved_optimizers.
        repeat case_decide; done || lia.
      * intros j Hj. rewrite Hep1 by lia. rewrite saved_epochs.
        case_decide; done || lia.
      * intros j Hj. destruct (decide (j = a + 1)) as [->|Hne].
        -- destruct (decide (a + 1 < a + 1 + n0)) as [|]; [|lia].
           rewrite Hep1 by lia. rewrite saved_epochs, decide_True by done.
           by eexists.
        -- apply Hep2. lia.
      * replace (a + S n0) with (a + 1 + n0) by lia. rewrite Hep3.
        do 3 f_equal. rewrite saved_epochs. rewrite decide_False by lia. done.
Qed.

Lemma world_after_again (w : world) dir c evs c' evs' :
  world_after (world_after w dir c evs) dir c' evs'
  = world_after w dir c' (evs ++ evs').
Proof.
  unfold world_after. simpl. by rewrite insert_insert_eq, app_assoc.
Qed.

Lemma get_dir_world_after (w : world) dir c evs :
  get_dir dir (world_after w dir c evs) = c.
Proof. unfold get_dir, world_after. simpl. by rewrite lookup_insert_eq. Qed.

(** One turn of the loop with [epoch_save=1]: the epoch is trained, the
    directory saved, and the loop stops or goes on. *)
Lemma train_loop_step ep a es (t : Trainer) last (w : world) o m1 o1 :
  optimizer t = Some o →
  train_epoch (config t) a (model t) o = (m1, o1) →
  train_loop (Some 1) ep (a :: es) t last w
  = (if decide (ep = Some (a + 1))
     then ret ({| checkpoint_dir := checkpoint_dir t; config := config t;
                  model := m1; current_epoch := current_epoch t;
                  optimizer := Some o1 |}, Some a)
     else train_loop (Some 1) ep es
            {| checkpoint_dir := checkpoint_dir t; config := config t;
               model := m1; current_epoch := current_epoch t;
               optimizer := Some o1 |} (Some a))
      (world_after w (checkpoint_dir t)
         (saved a m1 o1 (get_dir (checkpoint_dir t) w))
         [EvTrainEpoch (checkpoint_dir t) a]).
Proof.
  intros Ho Htr. cbn [train_loop].
  unfold bind at 1. unfold lift. rewrite Ho, Htr.
  unfold bind at 1. unfold modify at 1.
  rewrite decide_False by lia.
  unfold bind at 1. unfold when.
  rewrite bool_decide_eq_true_2 by (split; [apply Nat.mod_1_r|lia]).
  erewrite save_world by done. done.
Qed.

(** [train_loop] with [epoch_save=1] does what [trained] says. *)
Lemma train_loop_trained ep k :
  ∀ a (t : Trainer) last (w : world) o m' o' c' n,
    optimizer t = Some o →
    trained (config t) ep (S k) a (model t) o (get_dir (checkpoint_dir t) w)
    = (m', o', c', n) →
    train_loop (Some 1) ep (seq a (S k)) t last w
    = (Ok ({| checkpoint_dir := checkpoint_dir t; config := config t;
              model := m'; current_epoch := current_epoch t;
              optimizer := Some o' |}, Some (a + n - 1)),
       world_after w (checkpoint_dir t) c'
         (EvTrainEpoch (checkpoint_dir t) <$> seq a n)).
Proof.
  induction k as [|k IH]; intros a t last w o m' o' c' n Ho;
    rewrite trained_S;
    change (seq a (S ?x)) with (a :: seq (S a) x);
    destruct (train_epoch (config t) a (model t) o) as [m1 o1] eqn:Hte;
    rewrite (train_loop_step _ _ _ _ _ _ _ _ _ Ho Hte).
  - cbn [trained seq train_loop].
    destruct (decide (ep = Some (a + 1))); intros [= <- <- <- <-];
      unfold ret; by replace (a + 1 - 1) with a by lia.
  - destruct (decide (ep = Some (a + 1))) as [Hep|Hep].
    + intros [= <- <- <- <-]. unfold ret.
      by replace (a + 1 - 1) with a by lia.
    + destruct (trained (config t) ep (S k) (a + 1) m1 o1
                  (saved a m1 o1 (get_dir (checkpoint_dir t) w)))
        as [[[m2 o2] c2] n0] eqn:Htr.
      intros [= <- <- <- <-].
      replace (S a) with (a + 1) by lia.
      erewrite (IH (a + 1)
                  {| checkpoint_dir := checkpoint_dir t; config := config t;
                     model := m1; current_epoch := current_epoch t;
                     optimizer := Some o1 |}); [|done|].
      2:{ cbn [checkpoint_dir config model]. rewrite get_dir_world_after.
          exact Htr. }
      cbn [checkpoint_dir config model current_epoch].
      rewrite world_after_again.
      destruct (trained_spec _ _ _ _ _ _ _ _ _ _ _ Htr) as (Hn0 & _).
      replace (a + 1 + n0 - 1) with (a + S n0 - 1) by lia.
      do 2 f_equal. cbn [seq fmap list_fmap app].
      by replace (S a) with (a + 1) by lia.
Qed.

Lemma setup_optimizer_Ok (t : Trainer) (w : world) :
  (current_epoch t ≠ 0 →
   is_Some (optimizers (get_dir (checkpoint_dir t) w) !! current_epoch t)) →
  ∃ o, setup_optimizer t w = (Ok (with_optimizer t o), w).
Proof.
  intros Hopt. unfold setup_optimizer. case_decide as Hcur.
  - destruct (Hopt Hcur) as [o Ho]. exists o.
    unfold bind, get_world. by rewrite Ho.
  - by eexists.
Qed.

Lemma log_events_again (w : world) evs evs' :
  log_events evs' (log_events evs w) = log_events (evs ++ evs') w.
Proof. unfold log_events. simpl. by rewrite app_assoc. Qed.

(** One turn of the loop without [epoch_save]: the epoch is trained and
    nothing is written. *)
Lemma train_loop_step_plain ep a es (t : Trainer) last (w : world) o m1 o1 :
  optimizer t = Some o →
  train_epoch (config t) a (model t) o = (m1, o1) →
  train_loop None ep (a :: es) t last w
  = (if decide (ep = Some (a + 1))
     then ret ({| checkpoint_dir := checkpoint_dir t; config := config t;
                  model := m1; current_epoch := current_epoch t;
                  optimizer := Some o1 |}, Some a)
     else train_loop None ep es
            {| checkpoint_dir := checkpoint_dir t; config := config t;
               model := m1; current_epoch := current_epoch t;
               optimizer := Some o1 |} (Some a))
      (log_events [EvTrainEpoch (checkpoint_dir t) a] w).
Proof.
  intros Ho Htr. cbn [train_loop].
  unfold bind at 1. unfold lift. rewrite Ho, Htr. done.
Qed.

(** Without [epoch_save] the loop trains the same epochs, to the same
    model and optimizer state, and writes nothing. *)
Lemma train_loop_plain ep k :
  ∀ a (t : Trainer) last (w : world) o c m' o' c' n,
    optimizer t = Some o →
    trained (config t) ep (S k) a (model t) o c = (m', o', c', n) →
    train_loop None ep (seq a (S k)) t last w
    = (Ok ({| checkpoint_dir := checkpoint_dir t; config := config t;
              model := m'; current_epoch := current_epoch t;
              optimizer := Some o' |}, Some (a + n - 1)),
       log_events (EvTrainEpoch (checkpoint_dir t) <$> seq a n) w).
Proof.
  induction k as [|k IH]; intros a t last w o c m' o' c' n Ho;
    rewrite trained_S;
    change (seq a (S ?x)) with (a :: seq (S a) x);
    destruct (train_epoch (config t) a (model t) o) as [m1 o1] eqn:Hte;
    rewrite (train_loop_step_plain _ _ _ _ _ _ _ _ _ Ho Hte).
  - cbn [trained seq train_loop].
    destruct (decide (ep = Some (a + 1))); intros [= <- <- <- <-];
      unfold ret; by replace (a + 1 - 1) with a by lia.
  - destruct (decide (ep = Some (a + 1))) as [Hep|Hep].
    + intros [= <- <- <- <-]. unfold ret.
      by replace (a + 1 - 1) with a by lia.
    + destruct (trained (config t) ep (S k) (a + 1) m1 o1 (saved a m1 o1 c))
        as [[[m2 o2] c2] n0] eqn:Htr.
      intros [= <- <- <- <-].
      replace (S a) with (a + 1) by lia.
      erewrite (IH (a + 1)
                  {| checkpoint_dir := checkpoint_dir t; config := config t;
                     model := m1; current_epoch := current_epoch t;
                     optimizer := Some o1 |}); [|done|exact Htr].
      cbn [checkpoint_dir config model current_epoch].
      rewrite log_events_again.
      destruct (trained_spec _ _ _ _ _ _ _ _ _ _ _ Htr) as (Hn0 & _).
      replace (a + 1 + n0 - 1) with (a + S n0 - 1) by lia.
      do 2 f_equal. cbn [seq fmap list_fmap app].
      by replace (S a) with (a + 1) by lia.
Qed.

Lemma last_epoch_bounds ep a e :
  a < e → a < last_epoch ep a e ≤ e.
Proof.
  intros Hlt. unfold last_epoch. destruct ep as [p|]; [|lia].
  case_decide; lia.
Qed.

(** [train] with [epoch_save=1], in terms of [trained]. *)
Lemma train_every_run (t : Trainer) ep (w : world) o m' o' c' :
  let dir := checkpoint_dir t in
  let cur := current_epoch t in
  let stop := last_epoch ep cur (cfg_epoch (config t)) in
  cur < cfg_epoch (config t) →
  setup_optimizer t w = (Ok (with_optimizer t o), w) →
  trained (config t) ep (cfg_epoch (config t) - cur) cur (model t) o
    (get_dir dir w) = (m', o', c', stop - cur) →
  train t (Some 1) ep w
  = (Ok {| checkpoint_dir := dir; config := config t; model := m';
           current_epoch := cur; optimizer := Some o' |},
     set_dir dir (saved (stop - 1) m' o' c')
       (world_after w dir c' (EvTrainEpoch dir <$> seq cur (stop - cur)))).
Proof.
  intros dir cur stop Hlt Hset Htr.
  pose proof (last_epoch_bounds ep cur _ Hlt) as Hb. fold stop in Hb.
  unfold train. unfold bind at 1. rewrite Hset.
  cbn [with_optimizer current_epoch config].
  rewrite decide_True by (fold cur; lia).
  unfold range. fold cur.
  destruct (cfg_epoch (config t) - cur) as [|k] eqn:Hk; [lia|].
  unfold bind at 1.
  rewrite (train_loop_trained ep k cur (with_optimizer t o) None w o m' o' c'
             (stop - cur) eq_refl Htr).
  cbn [with_optimizer checkpoint_dir config model current_epoch]. fold dir cur.
  unfold bind at 1. erewrite save_world by done.
  cbn [checkpoint_dir model]. fold dir. rewrite get_dir_world_after.
  replace (cur + (stop - cur) - 1 + 1) with (stop - 1 + 1) by lia.
  by replace (cur + (stop - cur) - 1) with (stop - 1) by lia.
Qed.

(** [train] without [epoch_save], in terms of [trained]. *)
Lemma train_plain_run (t : Trainer) ep (w : world) o m' o' c' :
  let dir := checkpoint_dir t in
  let cur := current_epoch t in
  let stop := last_epoch ep cur (cfg_epoch (config t)) in
  cur < cfg_epoch (config t) →
  setup_optimizer t w = (Ok (with_optimizer t o), w) →
  trained (config t) ep (cfg_epoch (config t) - cur) cur (model t) o
    (get_dir dir w) = (m', o', c', stop - cur) →
  train t None ep w
  = (Ok {| checkpoint_dir := dir; config := config t; model := m';
           current_epoch := cur; optimizer := Some o' |},
     set_dir dir (saved (stop - 1) m' o' (get_dir dir w))
       (log_events (EvTrainEpoch dir <$> seq cur (stop - cur)) w)).
Proof.
  intros dir cur stop Hlt Hset Htr.
  pose proof (last_epoch_bounds ep cur _ Hlt) as Hb. fold stop in Hb.
  unfold train. unfold bind at 1. rewrite Hset.
  cbn [with_optimizer current_epoch config].
  rewrite decide_True by (fold cur; lia).
  unfold range. fold cur.
  destruct (cfg_epoch (config t) - cur) as [|k] eqn:Hk; [lia|].
  unfold bind at 1.
  rewrite (train_loop_plain ep k cur (with_optimizer t o) None w o _ m' o' c'
             (stop - cur) eq_refl Htr).
  cbn [with_optimizer checkpoint_dir config model current_epoch]. fold dir cur.
  unfold bind at 1. erewrite save_world by done.
  cbn [checkpoint_dir model]. fold dir.
  replace (cur + (stop - cur) - 1 + 1) with (stop - 1 + 1) by lia.
  by replace (cur + (stop - cur) - 1) with (stop - 1) by lia.
Qed.

(** The number of epochs [trained] runs is the distance to the stop
    epoch. *)
Lemma trained_count cfg ep cur e m o c :
  cur < e →
  ∃ m' o' c', trained cfg ep (e - cur) cur m o c
              = (m', o', c', last_epoch ep cur e - cur).
Proof.
  intros Hlt. destruct (e - cur) as [|k] eqn:Hk; [lia|].
  destruct (trained cfg ep (S k) cur m o c) as [[[m' o'] c'] n] eqn:Htr.
  destruct (trained_spec _ _ _ _ _ _ _ _ _ _ _ Htr) as (_ & Hlast & _).
  replace (cur + S k) with e in Hlast by lia.
  exists m', o', c'. do 2 f_equal. lia.
Qed.

(** What [train] with [epoch_save=1] does on a trainer with epochs left. *)
Lemma train_every_spec (t : Trainer) ep (w : world) :
  let dir := checkpoint_dir t in
  let cur := current_epoch t in
  let stop := last_epoch ep cur (cfg_epoch (config t)) in
  cur < cfg_epoch (config t) →
  (cur ≠ 0 → is_Some (optimizers (get_dir dir w) !! cur)) →
  ∃ t' w',
    train t (Some 1) ep w = (Ok t', w')
    ∧ cur < stop ≤ cfg_epoch (config t)
    ∧ checkpoint_dir t' = dir ∧ config t' = config t ∧ current_epoch t' = cur
    ∧ is_Some (optimizer t')
    ∧ events w' = events w ++ (EvTrainEpoch dir <$> seq cur (stop - cur))
    ∧ root_files w' = root_files w ∧ best_model w' = best_model w
    ∧ rng w' = rng w
    ∧ (∀ d, d ≠ dir → model_dirs w' !! d = model_dirs w !! d)
    ∧ configs (get_dir dir w') = configs (get_dir dir w)
    ∧ epochs (get_dir dir w') !! stop ≫= snapshot = Some (model t')
    ∧ (∀ j, cur < j ≤ stop → is_Some (epochs (get_dir dir w') !! j ≫= snapshot))
    ∧ (∀ j, ¬ (cur < j ≤ stop) →
            epochs (get_dir dir w') !! j = epochs (get_dir dir w) !! j)
    ∧ (∀ j, optimizers (get_dir dir w') !! j
            = if decide (cur ≤ j < stop) then None
              else if decide (j = stop) then optimizer t'
                   else optimizers (get_dir dir w) !! j).
Proof.
  intros dir cur stop Hlt Hopt.
  destruct (setup_optimizer_Ok t w Hopt) as [o Hset].
  destruct (trained_count (config t) ep cur (cfg_epoch (config t)) (model t) o
              (get_dir dir w) Hlt) as (m' & o' & c' & Htr).
  pose proof (last_epoch_bounds ep cur _ Hlt) as Hb. fold stop in Hb, Htr.
  rewrite (train_every_run t ep w o m' o' c' Hlt Hset Htr). fold dir cur stop.
  destruct (cfg_epoch (config t) - cur) as [|k] eqn:Hk; [lia|].
  destruct (trained_spec _ _ _ _ _ _ _ _ _ _ _ Htr)
    as (Hn & Hlast & Hcfg & Hoptc & Hep1 & Hep2 & Hep3).
  eexists _, _. split; [done|].
  cbn [checkpoint_dir config model current_epoch optimizer].
  rewrite get_dir_set_dir.
  replace (cur + (stop - cur)) with stop in * by lia.
  split_and!; try done; try lia.
  - intros d Hd. simpl. by rewrite lookup_insert_ne, lookup_insert_ne.
  - by rewrite saved_configs.
  - rewrite saved_epochs, decide_True by lia. done.
  - intros j Hj. rewrite saved_epochs. case_decide; [by eexists|].
    apply Hep2. lia.
  - intros j Hj. rewrite saved_epochs, decide_False by lia.
    apply Hep1. lia.
  - intros j. rewrite saved_optimizers, Hoptc.
    repeat case_decide; done || lia.
Qed.

(** X9.  [train] with [epoch_save=1], called on a trainer with epochs
    left whose optimizer file (when resuming) is there: it returns;
    it trains the epochs from [current_epoch] up to the stop epoch,
    which is [epoch_partial] when that lies in the remaining range and the
    configured epoch otherwise, one after the other and no other; every
    epoch trained has its snapshot on disk, the last one being the
    returned model; the only optimizer file among the epochs touched is
    the one of the stop epoch; all other files, directories, the results in
    the root and the attribute [current_epoch] are as before. *)
Theorem train_every_epoch (t : Trainer) ep (w : world) :
  let dir := checkpoint_dir t in
  let cur := current_epoch t in
  let stop := last_epoch ep cur (cfg_epoch (config t)) in
  cur < cfg_epoch (config t) →
  (cur ≠ 0 → is_Some (optimizers (get_dir dir w) !! cur)) →
  ∃ t' w',
    train t (Some 1) ep w = (Ok t', w')
    ∧ cur < stop ≤ cfg_epoch (config t)
    ∧ checkpoint_dir t' = dir ∧ config t' = config t ∧ current_epoch t' = cur
    ∧ is_Some (optimizer t')
    ∧ events w' = events w ++ (EvTrainEpoch dir <$> seq cur (stop - cur))
    ∧ root_files w' = root_files w ∧ best_model w' = best_model w
    ∧ rng w' = rng w
    ∧ (∀ d, d ≠ dir → model_dirs w' !! d = model_dirs w !! d)
    ∧ configs (get_dir dir w') = configs (get_dir dir w)
    ∧ epochs (get_dir dir w') !! stop ≫= snapshot = Some (model t')
    ∧ (∀ j, cur < j ≤ stop → is_Some (epochs (get_dir dir w') !! j ≫= snapshot))
    ∧ (∀ j, ¬ (cur < j ≤ stop) →
            epochs (get_dir dir w') !! j = epochs (get_dir dir w) !! j)
    ∧ (∀ j, optimizers (get_dir dir w') !! j
            = if decide (cur ≤ j < stop) then None
              else if decide (j = stop) then optimizer t'
                   else optimizers (get_dir dir w) !! j).
Proof. apply train_every_spec. Qed.

(** X10.  [train] without [epoch_save], on a trainer with epochs left
    whose optimizer file (when resuming) is there: it trains the same
    epochs and writes once, after the loop: the snapshot and the optimizer
    file of the stop epoch; the optimizer file of the epoch before the stop
    epoch is removed and every other file stays, so the optimizer file the
    run resumed from stays when more than one epoch was trained. *)
Theorem train_saves_once (t : Trainer) ep (w : world) :
  let dir := checkpoint_dir t in
  let cur := current_epoch t in
  let stop := last_epoch ep cur (cfg_epoch (config t)) in
  cur < cfg_epoch (config t) →
  (cur ≠ 0 → is_Some (optimizers (get_dir dir w) !! cur)) →
  ∃ t' w',
    train t None ep w = (Ok t', w')
    ∧ is_Some (optimizer t')
    ∧ events w' = events w ++ (EvTrainEpoch dir <$> seq cur (stop - cur))
    ∧ root_files w' = root_files w ∧ best_model w' = best_model w
    ∧ rng w' = rng w
    ∧ (∀ d, d ≠ dir → model_dirs w' !! d = model_dirs w !! d)
    ∧ configs (get_dir dir w') = configs (get_dir dir w)
    ∧ epochs (get_dir dir w') !! stop ≫= snapshot = Some (model t')
    ∧ (∀ j, j ≠ stop →
            epochs (get_dir dir w') !! j = epochs (get_dir dir w) !! j)
    ∧ (∀ j, optimizers (get_dir dir w') !! j
            = if decide (j = stop - 1) then None
              else if decide (j = stop) then optimizer t'
                   else optimizers (get_dir dir w) !! j)
    ∧ (cur ≠ 0 → cur + 1 < stop →
       optimizers (get_dir dir w') !! cur = optimizers (get_dir dir w) !! cur).
Proof.
  intros dir cur stop Hlt Hopt.
  destruct (setup_optimizer_Ok t w Hopt) as [o Hset].
  destruct (trained_count (config t) ep cur (cfg_epoch (config t)) (model t) o
              (get_dir dir w) Hlt) as (m' & o' & c' & Htr).
  pose proof (last_epoch_bounds ep cur _ Hlt) as Hb. fold stop in Hb, Htr.
  rewrite (train_plain_run t ep w o m' o' c' Hlt Hset Htr). fold dir cur stop.
  eexists _, _. split; [done|].
  cbn [checkpoint_dir config model current_epoch optimizer].
  rewrite get_dir_set_dir.
  split_and!; try done.
  - intros d Hd. simpl. by rewrite lookup_insert_ne.
  - by rewrite saved_configs.
  - rewrite saved_epochs, decide_True by lia. done.
  - intros j Hj. rewrite saved_epochs, decide_False by lia. done.
  - intros j. rewrite saved_optimizers.
    replace (stop - 1 + 1) with stop by lia. done.
  - intros Hcur Hmore. rewrite saved_optimizers.
    rewrite decide_False by lia. rewrite decide_False by lia. done.
Qed.

(** X11.  What [train] returns does not depend on [epoch_save]: with a
    checkpoint after every epoch or with none it trains the same epochs,
    returns the same trainer and leaves the same snapshot of the stop
    epoch; the two runs differ only in the other files they write. *)
Theorem train_result_independent_of_epoch_save (t : Trainer) ep (w : world) :
  let dir := checkpoint_dir t in
  let cur := current_epoch t in
  let stop := last_epoch ep cur (cfg_epoch (config t)) in
  cur < cfg_epoch (config t) →
  (cur ≠ 0 → is_Some (optimizers (get_dir dir w) !! cur)) →
  ∃ t' w1 w2,
    train t (Some 1) ep w = (Ok t', w1)
    ∧ train t None ep w = (Ok t', w2)
    ∧ events w1 = events w2
    ∧ epochs (get_dir dir w1) !! stop = epochs (get_dir dir w2) !! stop
    ∧ optimizers (get_dir dir w1) !! stop = optimizers (get_dir dir w2) !! stop
    ∧ root_files w1 = root_files w2.
Proof.
  intros dir cur stop Hlt Hopt.
  destruct (setup_optimizer_Ok t w Hopt) as [o Hset].
  destruct (trained_count (config t) ep cur (cfg_epoch (config t)) (model t) o
              (get_dir dir w) Hlt) as (m' & o' & c' & Htr).
  pose proof (last_epoch_bounds ep cur _ Hlt) as Hb. fold stop in Hb, Htr.
  rewrite (train_every_run t ep w o m' o' c' Hlt Hset Htr).
  rewrite (train_plain_run t ep w o m' o' c' Hlt Hset Htr). fold dir cur stop.
  eexists _, _, _. split; [done|]. split; [done|].
  rewrite !get_dir_set_dir.
  destruct (cfg_epoch (config t) - cur) as [|k] eqn:Hk; [lia|].
  destruct (trained_spec _ _ _ _ _ _ _ _ _ _ _ Htr)
    as (Hn & Hlast & Hcfg & Hoptc & Hep1 & Hep2 & Hep3).
  replace (cur + (stop - cur)) with stop in * by lia.
  split_and!; try done.
  - rewrite !saved_epochs, !decide_True by lia.
    replace (stop - 1 + 1) with stop by lia. by rewrite Hep3.
  - rewrite !saved_optimizers.
    rewrite decide_False by lia. rewrite decide_True by lia.
    rewrite decide_False by lia. rewrite decide_True by lia. done.
Qed.

(** X12.  [train] on a trainer with no epoch left raises, whatever
    [epoch_save] and [epoch_partial] are, and changes nothing:
    [FileNotFoundError] when it resumes and the optimizer file is not
    there, the assertion "training is over" when [current_epoch] is the
    configured epoch, and [NameError] when it is past it, since the loop
    variable that the final [save] reads was never bound. *)
Theorem train_no_epoch_left (t : Trainer) es ep (w : world) :
  cfg_epoch (config t) ≤ current_epoch t →
  train t es ep w
  = (Raise (if decide (current_epoch t ≠ 0
                       ∧ optimizers (get_dir (checkpoint_dir t) w)
                           !! current_epoch t = None)
            then FileNotFoundError
            else if decide (current_epoch t = cfg_epoch (config t))
                 then AssertionError else NameError), w).
Proof.
  intros Hle. unfold train, setup_optimizer. unfold bind at 1.
  destruct (decide (current_epoch t ≠ 0)) as [Hcur|Hcur].
  - unfold bind at 1. unfold get_world.
    destruct (optimizers (get_dir (checkpoint_dir t) w) !! current_epoch t)
      as [o|] eqn:Ho.
    + rewrite decide_False by (intros [_ ?]; done).
      unfold ret. cbn [with_optimizer current_epoch config].
      destruct (decide (current_epoch t = cfg_epoch (config t))) as [He|He].
      * by rewrite decide_False by (intros ?; done).
      * rewrite decide_True by done. unfold range.
        replace (cfg_epoch (config t) - current_epoch t) with 0 by lia.
        done.
    + by rewrite decide_True.
  - rewrite decide_False by (intros [? _]; done).
    unfold ret. cbn [with_optimizer current_epoch config].
    destruct (decide (current_epoch t = cfg_epoch (config t))) as [He|He].
    + by rewrite decide_False by (intros ?; done).
    + rewrite decide_True by done. unfold range.
      replace (cfg_epoch (config t) - current_epoch t) with 0 by lia.
      done.
Qed.

(** X13.  [train] with [epoch_save=0] on a trainer with epochs left:
    the first epoch is trained, then [(e + 1) % epoch_save] raises
    [ZeroDivisionError]; nothing was saved. *)
Theorem train_epoch_save_zero (t : Trainer) ep (w : world) :
  current_epoch t < cfg_epoch (config t) →
  (current_epoch t ≠ 0 →
   is_Some (optimizers (get_dir (checkpoint_dir t) w) !! current_epoch t)) →
  train t (Some 0) ep w
  = (Raise ZeroDivisionError,
     log_event (EvTrainEpoch (checkpoint_dir t) (current_epoch t)) w).
Proof.
  intros Hlt Hopt.
  destruct (setup_optimizer_Ok t w Hopt) as [o Hset].
  unfold train. unfold bind at 1. rewrite Hset.
  cbn [with_optimizer current_epoch config].
  rewrite decide_True by lia. unfold range.
  destruct (cfg_epoch (config t) - current_epoch t) as [|k] eqn:Hk; [lia|].
  change (seq ?a (S k)) with (a :: seq (S a) k).
  unfold bind at 1. cbn [train_loop]. unfold bind at 1. unfold lift.
  cbn [with_optimizer optimizer config model checkpoint_dir].
  destruct (train_epoch (config t) (current_epoch t) (model t) o) as [m1 o1].
  done.
Qed.

(** [Trainer.__init__] on a directory whose lowest epoch with both
    snapshots is [e]. *)
Lemma Trainer_init_resume_at dir args file cfg e m (w : world) :
  configs (get_dir dir w) !! file = Some cfg →
  is_Some (optimizers (get_dir dir w) !! e) →
  epochs (get_dir dir w) !! e ≫= snapshot = Some m →
  (∀ e', is_Some (optimizers (get_dir dir w) !! e')
         ∧ is_Some (epochs (get_dir dir w) !! e' ≫= snapshot) → e ≤ e') →
  Trainer_init dir args file w
  = (Ok {| checkpoint_dir := dir; config := cfg; model := m;
           current_epoch := e; optimizer := None |},
     set_rng (rng_seed (cfg_random_seed cfg)) w).
Proof.
  intros Hcfg Ho Hm Hmin.
  destruct (resume_scan_lowest (get_dir dir w) file cfg e m Hcfg Ho Hm Hmin)
    as [Hmodel Hepoch].
  pose proof (resume_scan_config (get_dir dir w) file cfg m Hcfg Hmodel) as Hc.
  unfold Trainer_init, bind, get_world, modify, ret.
  by rewrite Hmodel, Hc, Hepoch.
Qed.


End train_facts.

(** ** Evaluation and ranking in [GridSearcher.run] *)

Lemma dict_set_twice {K A} `{EqDecision K} (k : K) (v : A) (d : list (K * A)) :
  dict_set k v (dict_set k v d) = dict_set k v d.
Proof.
  induction d as [|[k' v'] d IH]; simpl.
  - by rewrite decide_True.
  - destruct (decide (k' = k)) as [->|Hne]; simpl.
    + by rewrite decide_True.
    + rewrite decide_False by done. by rewrite IH.
Qed.

Lemma dict_get_set {K A} `{EqDecision K} (k : K) (v : A) (d : list (K * A)) :
  dict_get k (dict_set k v d) = Ok v.
Proof.
  induction d as [|[k' v'] d IH]; simpl.
  - by rewrite decide_True.
  - destruct (decide (k' = k)) as [->|Hne]; simpl.
    + by rewrite decide_True.
    + by rewrite decide_False.
Qed.

Section eval_facts.
Context {V : Type} `{PyNum V} `{Backend V}.

Lemma bind_Ok_inv {A B} (m : M A) (k : A → M B) (w w' : world) b :
  bind m k w = (Ok b, w') →
  ∃ a w1, m w = (Ok a, w1) ∧ k a w1 = (Ok b, w').
Proof.
  unfold bind. destruct (m w) as [[a| |] w1]; [eauto|done..].
Qed.

(** What an [eval_single_model] that returns has done. *)
Lemma eval_single_model_Ok (gs : GridSearcher V) (p : ckpt_path) (w w1 : world)
    metric tmp :
  eval_single_model gs p w = (Ok (metric, tmp), w1) →
  metric !! ec_data_split (eval_config gs) = Some tmp
  ∧ model_dirs w1 = model_dirs w ∧ root_files w1 = root_files w
  ∧ best_model w1 = best_model w ∧ rng w1 = rng w
  ∧ (events w1 = events w ∨ events w1 = events w ++ [EvEvalModel p; EvEvaluate p]).
Proof.
  unfold eval_single_model. unfold bind at 1. unfold get_world.
  destruct (load_metric p w !! ec_data_split (eval_config gs)) as [t|] eqn:Hc.
  - intros [= <- <- <-]. split_and!; try done. by left.
  - destruct (epochs (get_dir p.1 w) !! p.2 ≫= snapshot) as [m|]; [|done].
    unfold bind, modify, ret. intros [= <- <- <-].
    split_and!; try done.
    + by rewrite lookup_insert_eq.
    + right. simpl. by rewrite <- app_assoc.
Qed.

(** What an [eval_and_record] that returns has done. *)
Lemma eval_and_record_Ok (gs : GridSearcher V) metrics (p : ckpt_path)
    (w w' : world) ms :
  eval_and_record gs metrics p w = (Ok ms, w') →
  ∃ metric tmp score d w1,
    eval_single_model gs p w = (Ok (metric, tmp), w1)
    ∧ tmp !! ec_metric (eval_config gs) = Some score
    ∧ epochs (get_dir p.1 w1) !! p.2 = Some d
    ∧ w' = set_dir p.1
             {| epochs := <[p.2 := {| snapshot := snapshot d;
                                      eval_metric := Some metric |}]>
                            (epochs (get_dir p.1 w1));
                optimizers := optimizers (get_dir p.1 w1);
                configs := configs (get_dir p.1 w1) |} w1
    ∧ ms = dict_set p score metrics.
Proof.
  unfold eval_and_record.
  intros ([metric tmp] & w1 & Hev & Hrest)%bind_Ok_inv.
  apply bind_Ok_inv in Hrest as ([] & w2 & Hwr & Hrest).
  apply bind_Ok_inv in Hrest as (score & w3 & Hsc & Hret).
  unfold ret in Hret. injection Hret as <- <-.
  unfold metric_score in Hsc.
  destruct (tmp !! ec_metric (eval_config gs)) as [v|] eqn:Hv; [|done].
  unfold ret in Hsc. injection Hsc as <- <-.
  unfold write_metric in Hwr. unfold bind at 1 in Hwr. unfold get_world in Hwr.
  destruct (epochs (get_dir p.1 w1) !! p.2) as [d|] eqn:Hd; [|done].
  unfold modify_dir, modify in Hwr. injection Hwr as <-.
  by exists metric, tmp, v, d, w1.
Qed.

(** X14.  An epoch checkpoint is evaluated once.  After
    [eval_and_record] has returned for it, its score stands under its path
    in the scores, [eval_single_model] answers from the cache file without
    an evaluation, and recording it again changes neither the scores nor
    any file nor the trace. *)
Theorem eval_and_record_once (gs : GridSearcher V) metrics (p : ckpt_path)
    (w w' : world) ms :
  eval_and_record gs metrics p w = (Ok ms, w') →
  ∃ tmp score,
    eval_single_model gs p w' = (Ok (load_metric p w', tmp), w')
    ∧ tmp !! ec_metric (eval_config gs) = Some score
    ∧ dict_get p ms = Ok score
    ∧ eval_and_record gs ms p w' = (Ok ms, w').
Proof.
  intros (metric & tmp & score & d & w1 & Hev & Hsc & Hd & -> & ->)%eval_and_record_Ok.
  apply eval_single_model_Ok in Hev as (Hm & _).
  set (c' := {| epochs := <[p.2 := {| snapshot := snapshot d;
                                     eval_metric := Some metric |}]>
                            (epochs (get_dir p.1 w1));
                optimizers := optimizers (get_dir p.1 w1);
                configs := configs (get_dir p.1 w1) |}).
  assert (load_metric p (set_dir p.1 c' w1) = metric) as Hload.
  { unfold load_metric. rewrite get_dir_set_dir. unfold c'. simpl.
    by rewrite lookup_insert_eq. }
  assert (eval_single_model gs p (set_dir p.1 c' w1)
          = (Ok (metric, tmp), set_dir p.1 c' w1)) as Hev2.
  { unfold eval_single_model. unfold bind at 1. unfold get_world.
    by rewrite Hload, Hm. }
  exists tmp, score. split_and!.
  - by rewrite Hload.
  - done.
  - apply dict_get_set.
  - unfold eval_and_record. unfold bind at 1. rewrite Hev2.
    unfold bind at 1. unfold write_metric. unfold bind at 1. unfold get_world.
    rewrite get_dir_set_dir.
    assert (epochs c' !! p.2 = Some {| snapshot := snapshot d;
                                       eval_metric := Some metric |}) as Hc'
      by (unfold c'; simpl; by rewrite lookup_insert_eq).
    rewrite Hc'. unfold modify_dir, modify.
    rewrite get_dir_set_dir, set_dir_set_dir.
    unfold bind, metric_score. rewrite Hsc. unfold ret.
    rewrite dict_set_twice. do 2 f_equal.
    unfold c'. simpl. by rewrite insert_insert_eq.
Qed.

End eval_facts.

Section rank_facts.
Context {V : Type} `{PyNum V}.
Context `{!PartialOrder (num_le (V:=V)), !Total (num_le (V:=V))}.

(** X15.  The ranking [sorted(metrics.items(), key=lambda x: x[1],
    reverse=True)] holds the same items, and the one it puts first, which
    [run] takes as the best, is the first item of [metrics] with the
    highest score: every item before it in [metrics] scores strictly
    less, every item after it scores at most as much. *)
Theorem rank_best_first {K} (metrics : list (K * V)) :
  rank metrics ≡ₚ metrics
  ∧ ∀ k v rest,
      rank metrics = (k, v) :: rest →
      ∃ l1 l2, metrics = l1 ++ (k, v) :: l2
               ∧ Forall (λ kv, ¬ num_le v kv.2) l1
               ∧ Forall (λ kv, num_le kv.2 v) l2.
Proof.
  split; [apply py_sorted_Permutation|].
  induction metrics as [|[k0 v0] l IH]; intros k v rest; [done|].
  change (rank ((k0, v0) :: l))
    with (insert_sorted by_score_desc (k0, v0) (rank l)).
  destruct (rank l) as [|[k1 v1] t] eqn:Hr.
  - assert (l = []) as ->.
    { apply length_zero_iff_nil.
      rewrite <- (py_sorted_length by_score_desc l).
      change (py_sorted by_score_desc l) with (rank l). by rewrite Hr. }
    simpl. intros [= -> -> <-]. exists [], []. by repeat constructor.
  - destruct (IH _ _ _ eq_refl) as (l1 & l2 & -> & Hl1 & Hl2).
    cbn [insert_sorted]. case_decide as Hle.
    + intros [= -> -> <-]. exists [], (l1 ++ (k1, v1) :: l2).
      split; [done|]. split; [constructor|].
      unfold by_score_desc in Hle. simpl in Hle.
      apply Forall_app. split; [|constructor].
      * eapply Forall_impl; [exact Hl1|]. intros [k' v'] Hlt. simpl in *.
        destruct (total num_le v' v1) as [?|?]; [|done].
        by etrans.
      * done.
      * eapply Forall_impl; [exact Hl2|]. intros [k' v'] Hlt. simpl in *.
        by etrans.
    + intros [= -> -> <-]. exists ((k0, v0) :: l1), l2.
      split; [done|]. split; [|done].
      constructor; [|done]. exact Hle.
Qed.

End rank_facts.

Lemma NoDup_omap_fst {A B C} (f : A * B → option (A * C)) (l : list (A * B)) :
  (∀ x y, f x = Some y → y.1 = x.1) →
  NoDup l.*1 → NoDup (omap f l).*1.
Proof.
  intros Hf. induction l as [|x l IH]; [done|].
  rewrite fmap_cons, NoDup_cons. intros [Hx Hnd].
  cbn [omap list_omap]. destruct (f x) as [y|] eqn:Hy; [|by apply IH].
  rewrite fmap_cons, NoDup_cons. split; [|by apply IH].
  rewrite (Hf _ _ Hy).
  intros (z & Hz & Hin)%list_elem_of_fmap.
  apply list_elem_of_omap in Hin as (x' & Hin & Hx').
  apply Hx. apply list_elem_of_fmap. exists x'. split; [|done].
  rewrite Hz. by apply Hf.
Qed.

Lemma NoDup_fst_functional {A B} (l : list (A * B)) x y1 y2 :
  NoDup l.*1 → (x, y1) ∈ l → (x, y2) ∈ l → y1 = y2.
Proof.
  induction l as [|[a b] l IH]; [by intros _ ?%elem_of_nil|].
  rewrite fmap_cons, NoDup_cons. intros [Ha Hnd].
  assert (∀ y, (x, y) ∈ l → a ≠ x) as Hne.
  { intros y Hin ->. apply Ha. apply list_elem_of_fmap. by exists (x, y). }
  intros [E1|H1]%elem_of_cons [E2|H2]%elem_of_cons.
  - congruence.
  - injection E1 as -> ->. by destruct (Hne _ H2).
  - injection E2 as -> ->. by destruct (Hne _ H1).
  - by apply IH.
Qed.

Lemma dict_set_fresh {K A} `{EqDecision K} (k : K) (v : A) (d : list (K * A)) :
  k ∉ d.*1 → dict_set k v d = d ++ [(k, v)].
Proof.
  induction d as [|[k' v'] d IH]; [done|].
  rewrite fmap_cons, not_elem_of_cons. intros [Hne Hd]. simpl.
  rewrite decide_False by done. by rewrite IH.
Qed.

Section phase_facts.
Context {V : Type} `{PyNum V} `{Backend V}.

(** The loop of phase 1 over grid points that are all trained already. *)
Lemma phase1_train_loop_finished fuel (gs : GridSearcher V) (w : world)
    ckpt_exist points :
  Forall (λ pt, ∃ d, duplicated_ckpt ckpt_exist pt = [d]
                     ∧ epoch_exists d (epoch_partial gs) w = true) points →
  ∀ acc, ∃ dirs,
    for_each (λ checkpoints dynamic_config,
        let* checkpoint_dir :=
          resolve_checkpoint_dir fuel ckpt_exist checkpoints dynamic_config in
        let* w := get_world in
        when (negb (epoch_exists checkpoint_dir (epoch_partial gs) w))
          (let* trainer := Trainer_init checkpoint_dir
                             (trainer_config gs dynamic_config)
                             "trainer_config.json" in
           let* _ := train trainer (Some 1) (Some (epoch_partial gs)) in
           ret tt) >>
        ret (checkpoints ++ [checkpoint_dir]))
      points acc w
    = (Ok (acc ++ dirs), w)
    ∧ Forall2 (λ pt d, duplicated_ckpt ckpt_exist pt = [d]) points dirs.
Proof.
  induction 1 as [|pt points (d & Hd & Hex) _ IH]; intros acc.
  - exists []. split; [|constructor]. simpl. by rewrite app_nil_r.
  - destruct (IH (acc ++ [d])) as (dirs & Hrun & Hall).
    exists (d :: dirs). split; [|by constructor].
    cbn [for_each]. unfold bind at 1.
    assert ((let* checkpoint_dir :=
               resolve_checkpoint_dir fuel ckpt_exist acc pt in
             let* w := get_world in
             when (negb (epoch_exists checkpoint_dir (epoch_partial gs) w))
               (let* trainer := Trainer_init checkpoint_dir
                                  (trainer_config gs pt) "trainer_config.json" in
                let* _ := train trainer (Some 1) (Some (epoch_partial gs)) in
                ret tt) >>
             ret (acc ++ [checkpoint_dir])) w
            = (Ok (acc ++ [d]), w)) as ->.
    { unfold resolve_checkpoint_dir. rewrite Hd.
      unfold bind, ret, get_world. by rewrite Hex. }
    rewrite Hrun. by rewrite <- app_assoc.
Qed.

(** X16.  Phase 1 does not train a grid point twice.  When every grid
    point has exactly one existing checkpoint directory with its dynamic
    values, and that directory holds the checkpoint of [epoch_partial],
    the training loop of phase 1 returns these directories, one for each
    grid point in the order of the grid, and changes nothing: no epoch is
    trained, no name is drawn and no file is written. *)
Theorem phase1_train_finished fuel (gs : GridSearcher V) (w : world) :
  Forall (λ pt, ∃ d, duplicated_ckpt (glob_trainer_configs w) pt = [d]
                     ∧ epoch_exists d (epoch_partial gs) w = true)
         (all_dynamic_configs gs) →
  ∃ dirs,
    phase1_train fuel gs w = (Ok dirs, w)
    ∧ Forall2 (λ pt d, duplicated_ckpt (glob_trainer_configs w) pt = [d])
              (all_dynamic_configs gs) dirs.
Proof.
  intros Hall.
  destruct (phase1_train_loop_finished fuel gs w _ _ Hall []) as (dirs & Hrun & HF).
  exists dirs. split; [|done].
  unfold phase1_train. unfold bind at 1. unfold get_world. exact Hrun.
Qed.

(** X17.  With no candidate left for phase 2, because [n_max_config] is
    [0] or because phase 1 ranked nothing, phase 2 trains and evaluates
    nothing, writes an empty [metric.2nd.json], and [metrics[0]] raises
    [IndexError]: no best model is written. *)
Theorem no_candidate_raises_IndexError fuel (gs : GridSearcher V) metrics (w : world) :
  n_max_config gs = 0 ∨ metrics = [] →
  (let* metrics := phase2 gs metrics in select_best fuel gs metrics) w
  = (Raise IndexError,
     log_event (EvWriteRoot "metric.2nd.json")
       (set_root_files <["metric.2nd.json" := JRanking []]> w)).
Proof.
  intros Hno.
  assert (take (length metrics `min` n_max_config gs) metrics = []) as Htake.
  { destruct Hno as [->| ->]; [|done]. by rewrite Nat.min_0_r. }
  unfold phase2. rewrite Htake. done.
Qed.

Lemma point_values_inj (p1 p2 : grid_point V) :
  point_values p1 = point_values p2 → p1 = p2.
Proof.
  destruct p1 as [[[[[[a1 b1] c1] d1] e1] f1] g1].
  destruct p2 as [[[[[[a2 b2] c2] d2] e2] f2] g2].
  simpl. by intros [= -> -> -> -> -> -> ->].
Qed.

Lemma glob_trainer_configs_NoDup (w : world) :
  NoDup (glob_trainer_configs w).*1.
Proof.
  unfold glob_trainer_configs. apply NoDup_omap_fst.
  - intros [d c] [d' cfg]. simpl.
    destruct (String.prefix "model_" d); [|done].
    destruct (configs c !! "trainer_config.json"); [|done].
    simpl. by intros [= <- _].
  - apply NoDup_fst_map_to_list.
Qed.

(** The directory that [resolve_checkpoint_dir] returns: the one existing
    match, or a name that is new. *)
Lemma resolve_checkpoint_dir_Ok fuel (ckpt_exist : list (string * TrainingConfig V))
    checkpoints pt (w w' : world) d :
  resolve_checkpoint_dir fuel ckpt_exist checkpoints pt w = (Ok d, w') →
  duplicated_ckpt ckpt_exist pt = [d]
  ∨ (d ∉ ckpt_exist.*1) ∧ (d ∉ checkpoints).
Proof.
  unfold resolve_checkpoint_dir.
  destruct (duplicated_ckpt ckpt_exist pt) as [|d1 [|d2 l]]; [| |done].
  - intros (s & w1 & Hget & Hret)%bind_Ok_inv.
    unfold ret in Hret. injection Hret as <- <-.
    apply get_random_string_Ok in Hget as [Hex Hlow].
    rewrite not_elem_of_app in Hex. destruct Hex as [Hex1 Hex2].
    right. split; by apply fresh_name_not_in.
  - intros [= <- <-]. by left.
Qed.

(** The directories that the loop of phase 1 has collected stay distinct. *)
Lemma phase1_train_loop_distinct fuel (gs : GridSearcher V)
    (ckpt_exist : list (string * TrainingConfig V)) points :
  NoDup ckpt_exist.*1 →
  ∀ done_points acc (w w' : world) out,
    NoDup (done_points ++ points) →
    Forall2 (λ pt d, (∃ cfg, (d, cfg) ∈ ckpt_exist
                             ∧ dynamic_values cfg = point_values pt)
                     ∨ d ∉ ckpt_exist.*1) done_points acc →
    NoDup acc →
    for_each (λ checkpoints dynamic_config,
        let* checkpoint_dir :=
          resolve_checkpoint_dir fuel ckpt_exist checkpoints dynamic_config in
        let* w := get_world in
        when (negb (epoch_exists checkpoint_dir (epoch_partial gs) w))
          (let* trainer := Trainer_init checkpoint_dir
                             (trainer_config gs dynamic_config)
                             "trainer_config.json" in
           let* _ := train trainer (Some 1) (Some (epoch_partial gs)) in
           ret tt) >>
        ret (checkpoints ++ [checkpoint_dir]))
      points acc w
    = (Ok out, w') →
    NoDup out ∧ length out = length acc + length points.
Proof.
  intros Hck. induction points as [|pt points IH];
    intros done_points acc w w' out Hnd Hass Hacc.
  - simpl. intros [= <- <-]. split; [done|lia].
  - cbn [for_each]. intros (acc' & w1 & Hbody & Hloop)%bind_Ok_inv.
    apply bind_Ok_inv in Hbody as (d & w2 & Hres & Hbody).
    apply bind_Ok_inv in Hbody as (w3 & w4 & _ & Hbody).
    apply bind_Ok_inv in Hbody as ([] & w5 & _ & Hret).
    unfold ret in Hret. injection Hret as <- <-.
    apply resolve_checkpoint_dir_Ok in Hres.
    assert (pt ∉ done_points) as Hpt.
    { apply NoDup_app in Hnd as (_ & Hnd & _). intros Hin.
      apply (Hnd _ Hin). left. }
    assert (((∃ cfg, (d, cfg) ∈ ckpt_exist
                     ∧ dynamic_values cfg = point_values pt)
             ∨ d ∉ ckpt_exist.*1) ∧ d ∉ acc) as [Hd Hnew].
    { destruct Hres as [Hdup|[Hne Hna]]; [|by split; [right|]].
      assert (∃ cfg, (d, cfg) ∈ ckpt_exist
                     ∧ dynamic_values cfg = point_values pt)
        as (cfg & Hin & Hval).
      { apply duplicated_ckpt_spec. rewrite Hdup. left. }
      split; [left; eauto|].
      intros Hdacc.
      apply list_elem_of_lookup in Hdacc as [i Hi].
      destruct (Forall2_lookup_r _ _ _ _ _ Hass Hi) as (pt' & Hpt' & Hcase).
      destruct Hcase as [(cfg' & Hin' & Hval')|Hfresh].
      - assert (cfg' = cfg) as ->.
        { by apply (NoDup_fst_functional ckpt_exist d). }
        apply Hpt. rewrite (point_values_inj pt pt') by congruence.
        by apply list_elem_of_lookup_2 in Hpt'.
      - apply Hfresh. apply list_elem_of_fmap. by exists (d, cfg). }
    eapply (IH (done_points ++ [pt]) (acc ++ [d])) in Hloop.
    + destruct Hloop as [Hout Hlen]. split; [done|].
      rewrite Hlen, length_app. simpl. lia.
    + by rewrite <- app_assoc.
    + apply Forall2_app; [done|]. constructor; [exact Hd|constructor].
    + apply NoDup_app. split_and!; [done| |apply NoDup_singleton].
      intros x Hx ->%list_elem_of_singleton. done.
Qed.

(** X18.  Distinct grid points never share a checkpoint directory: when
    the training loop of phase 1 returns, it returns one directory for each
    grid point, and no directory twice, whichever directories existed
    before and whichever names were drawn. *)
Theorem phase1_dirs_distinct fuel (gs : GridSearcher V) (w w' : world) dirs :
  NoDup (all_dynamic_configs gs) →
  phase1_train fuel gs w = (Ok dirs, w') →
  NoDup dirs ∧ length dirs = length (all_dynamic_configs gs).
Proof.
  intros Hnd. unfold phase1_train. unfold bind at 1. unfold get_world.
  intros Hrun.
  apply (phase1_train_loop_distinct fuel gs (glob_trainer_configs w)
           (all_dynamic_configs gs) (glob_trainer_configs_NoDup w) [] []) in Hrun.
  - done.
  - done.
  - constructor.
  - constructor.
Qed.

(** X19.  The loop of phase 3 stops nowhere else than at a drop.  When
    it returns, the additional epochs it went through scored [scores] and
    then [final], where no score of [scores] is strictly below the running
    best before it and [final] is; it returns the epoch of [final], the
    config with that epoch, and the scores appended to [metrics] under
    their epochs; and there was fuel for every turn. *)
Theorem phase3_stops_only_at_drop (gs : GridSearcher V) (dir : string) (fuel : nat) :
  ∀ (epoch : nat) (config : TrainingConfig V) (best : V)
    (metrics : list (nat * V)) (w w' : world) epoch' config' metrics',
    phase3_loop fuel gs dir epoch config best metrics w
    = (Ok (epoch', config', metrics'), w') →
    ∃ scores final,
      epoch' = epoch + 1 + length scores
      ∧ config' = set_cfg_epoch config epoch'
      ∧ metrics' = metrics ++ zip (seq (epoch + 1) (S (length scores)))
                                  (scores ++ [final])
      ∧ extend_epochs gs dir (S (length scores)) epoch config w
        = (Ok (scores ++ [final]), w')
      ∧ (∀ i a b, (best :: scores) !! i = Some a → scores !! i = Some b →
                  ¬ num_gt a b)
      ∧ (∀ a, (best :: scores) !! length scores = Some a → num_gt a final)
      ∧ length scores < fuel.
Proof.
  induction fuel as [|fuel IH];
    intros epoch config best metrics w w' epoch' config' metrics'; [done|].
  cbn [phase3_loop].
  intros (s & w1 & Hone & Hrest)%bind_Ok_inv.
  destruct (decide (num_gt best s)) as [Hdrop|Hkeep].
  - unfold ret in Hrest. injection Hrest as <- <- <- <-.
    exists [], s. simpl. split_and!.
    + lia.
    + done.
    + done.
    + unfold bind. by rewrite Hone.
    + intros i a b _ Hb. done.
    + by intros a [= <-].
    + lia.
  - apply IH in Hrest
      as (scores & final & -> & -> & -> & Hext & Hnodrop & Hlast & Hfuel).
    exists (s :: scores), final. split_and!.
    + simpl. lia.
    + rewrite set_cfg_epoch_twice. f_equal; simpl; lia.
    + rewrite <- app_assoc. f_equal. simpl.
      by replace (S (epoch + 1)) with (epoch + 1 + 1) by lia.
    + cbn [length extend_epochs]. unfold bind at 1. rewrite Hone.
      unfold bind at 1.
      cbn [extend_epochs] in Hext. rewrite Hext. done.
    + intros [|i] a b Ha Hb; simpl in Ha, Hb.
      * injection Ha as <-. injection Hb as <-. done.
      * by apply (Hnodrop i).
    + intros a Ha. simpl in Ha. by apply Hlast.
    + simpl. lia.
Qed.

(** What a [select_best] that returns has done last. *)
Lemma select_best_Ok fuel (gs : GridSearcher V) metrics (w w' : world) :
  select_best fuel gs metrics w = (Ok tt, w') →
  ∃ p d cfg,
    best_model w' = Some (d, Some cfg)
    ∧ epochs (get_dir p.1 w') !! p.2 = Some d
    ∧ last (events w') = Some (EvCopyBest p).
Proof.
  unfold select_best. destruct metrics as [|[p0 s0] rest]; [done|].
  intros (w0 & w1 & _ & Hrest)%bind_Ok_inv.
  apply bind_Ok_inv in Hrest as (cfg0 & w2 & _ & Hrest).
  apply bind_Ok_inv in Hrest as ([p cfg] & w3 & _ & Hwrite).
  unfold write_best_model in Hwrite.
  apply bind_Ok_inv in Hwrite as (w4 & w5 & Hget & Hwrite).
  unfold get_world in Hget. injection Hget as <- <-.
  destruct (epochs (get_dir p.1 w3) !! p.2) as [d|] eqn:Hd; [|done].
  unfold bind, modify in Hwrite. injection Hwrite as <-.
  exists p, d, cfg. split_and!; [done|exact Hd|]. simpl. apply last_snoc.
Qed.


(** The evaluation loop of phase 1 records one score under each path. *)
Lemma phase1_eval_loop_keys (gs : GridSearcher V) dirs :
  ∀ acc (w w' : world) ms,
    NoDup (acc.*1 ++ ((λ d, (d, epoch_partial gs)) <$> dirs)) →
    for_each (λ metrics checkpoint_dir,
                eval_and_record gs metrics (checkpoint_dir, epoch_partial gs))
             dirs acc w = (Ok ms, w') →
    ms.*1 = acc.*1 ++ ((λ d, (d, epoch_partial gs)) <$> dirs).
Proof.
  induction dirs as [|d dirs IH]; intros acc w w' ms Hnd.
  - simpl. intros [= <- <-]. by rewrite app_nil_r.
  - cbn [for_each]. intros (acc' & w1 & Hone & Hloop)%bind_Ok_inv.
    apply eval_and_record_Ok in Hone
      as (metric & tmp & score & dd & w0 & _ & _ & _ & _ & ->).
    rewrite fmap_cons in Hnd.
    assert ((d, epoch_partial gs) ∉ acc.*1) as Hnew.
    { apply NoDup_app in Hnd as (_ & Hnd & _). intros Hin.
      apply (Hnd _ Hin). left. }
    rewrite dict_set_fresh in Hloop by done.
    apply IH in Hloop.
    + rewrite Hloop, fmap_app, fmap_cons. simpl. by rewrite <- app_assoc.
    + rewrite fmap_app. simpl. by rewrite <- app_assoc.
Qed.

(** X22.  Phase 1 ranks one score for each grid point.  When phase 1
    returns, its ranking has as many entries as the grid has points, each
    under the path of the [epoch_partial] checkpoint of a directory of its
    own, and [metric.1st.json] holds that ranking. *)
Theorem phase1_ranks_every_point fuel (gs : GridSearcher V) (w w' : world) metrics :
  NoDup (all_dynamic_configs gs) →
  phase1 fuel gs w = (Ok metrics, w') →
  length metrics = length (all_dynamic_configs gs)
  ∧ NoDup metrics.*1
  ∧ Forall (λ p, p.2 = epoch_partial gs) metrics.*1
  ∧ root_files w' !! "metric.1st.json" = Some (JRanking metrics).
Proof.
  intros Hnd. unfold phase1.
  intros (dirs & w1 & Htrain & Hrest)%bind_Ok_inv.
  apply bind_Ok_inv in Hrest as (ms & w2 & Heval & Hwrite).
  unfold phase1_train in Htrain. unfold bind at 1 in Htrain.
  unfold get_world in Htrain.
  apply (phase1_train_loop_distinct fuel gs (glob_trainer_configs w)
           (all_dynamic_configs gs) (glob_trainer_configs_NoDup w) [] [])
    in Htrain as [Hdirs Hlen]; [|done|constructor|constructor].
  assert (NoDup ((λ d, (d, epoch_partial gs)) <$> dirs)) as Hpaths.
  { apply NoDup_fmap_2; [|done]. by intros d1 d2 [= ->]. }
  apply phase1_eval_loop_keys in Heval; [|done].
  simpl in Heval.
  unfold write_root, bind, modify, ret in Hwrite. simpl in Hwrite.
  injection Hwrite as <- <-.
  assert ((rank ms).*1 ≡ₚ (λ d, (d, epoch_partial gs)) <$> dirs) as Hperm.
  { rewrite <- Heval. unfold rank. by rewrite py_sorted_Permutation. }
  split_and!.
  - rewrite <- (length_fmap fst), Hperm, length_fmap. by rewrite Hlen.
  - by rewrite Hperm.
  - rewrite Hperm. apply Forall_fmap. by apply Forall_forall.
  - simpl. by rewrite lookup_insert_eq.
Qed.

End phase_facts.

(** ** Concrete runs, continued *)

Lemma two_point_searcher_constructed (epoch epoch_partial : nat) :
  GridSearcher_init
    (grid_args epoch epoch_partial (AxisList [Some 100%Z; Some 1000%Z]))
  = Ok (two_point_searcher epoch epoch_partial).
Proof. reflexivity. Qed.

(** X1, witness: two learning rates and [None], listed in two orders. *)
Lemma to_list_order_irrelevant_witness :
  [Some 100%Z; None; Some 1000%Z] ≡ₚ [None; Some 1000%Z; Some 100%Z]
  ∧ to_list (AxisList [Some 100%Z; None; Some 1000%Z])
    = to_list (AxisList [None; Some 1000%Z; Some 100%Z]).
Proof.
  assert ([Some 100%Z; None; Some 1000%Z] ≡ₚ [None; Some 1000%Z; Some 100%Z])
    as Hp by exact (Permutation_app_comm [Some 100%Z] [None; Some 1000%Z]).
  split; [exact Hp|].
  exact (@to_list_order_irrelevant Z fixed_num Z.le_po Z.le_total _ _ Hp).
Defined.

(** X2, witness. *)
Lemma to_list_idempotent_witness :
  to_list (AxisList [Some 100%Z; None; Some 1000%Z])
  = Ok [None; Some 1000%Z; Some 100%Z]
  ∧ to_list (AxisList [None; Some 1000%Z; Some 100%Z])
    = Ok [None; Some 1000%Z; Some 100%Z].
Proof.
  assert (to_list (AxisList [Some 100%Z; None; Some 1000%Z])
          = Ok [None; Some 1000%Z; Some 100%Z]) as Hl by reflexivity.
  split; [exact Hl|].
  exact (@to_list_idempotent Z fixed_num Z.le_po Z.le_total _ _ Hl).
Defined.

(** X3, witness: two distinct learning rates construct a searcher, the
    same learning rate twice does not. *)
Lemma GridSearcher_init_outcome_witness :
  (∃ gs, GridSearcher_init (grid_args 2 1 (AxisList [Some 100%Z; Some 1000%Z]))
         = Ok gs)
  ∧ GridSearcher_init (grid_args 2 1 (AxisList [Some 100%Z; Some 100%Z]))
    = Raise AssertionError.
Proof.
  split.
  - apply (proj1 (GridSearcher_init_outcome
                    (grid_args 2 1 (AxisList [Some 100%Z; Some 1000%Z])))).
    simpl. split_and!; try exact I.
    apply (bool_decide_unpack _). by vm_compute.
  - apply (proj2 (GridSearcher_init_outcome
                    (grid_args 2 1 (AxisList [Some 100%Z; Some 100%Z])))).
    simpl. intros [Hnd _]. apply NoDup_cons in Hnd as [Hnd _].
    apply Hnd. left.
Defined.

(** X4, witness: the grid of two learning rates. *)
Lemma grid_points_once_witness :
  GridSearcher_init (grid_args 2 1 (AxisList [Some 100%Z; Some 1000%Z]))
  = Ok (two_point_searcher 2 1)
  ∧ NoDup (all_dynamic_configs (two_point_searcher 2 1)).
Proof.
  assert (GridSearcher_init (grid_args 2 1 (AxisList [Some 100%Z; Some 1000%Z]))
          = Ok (two_point_searcher 2 1)) as Hinit by reflexivity.
  split; [exact Hinit|].
  exact (proj1 (grid_points_once _ _ Hinit)).
Defined.

(** X5, witness: the first draw is excluded, the second one is returned. *)
Lemma get_random_string_shape_witness :
  let w' := (get_random_string 5 6 ["abcdef"] empty_world).2 in
  get_random_string 5 6 ["abcdef"] empty_world = (Ok "ghijkl", w')
  ∧ String.length "ghijkl" = 6
  ∧ "ghijkl" ∉ ["abcdef"]
  ∧ model_dirs w' = model_dirs empty_world.
Proof.
  intros w'.
  assert (get_random_string 5 6 ["abcdef"] empty_world = (Ok "ghijkl", w'))
    as Hget by (by vm_compute).
  split; [exact Hget|].
  destruct (get_random_string_shape 5 6 ["abcdef"] empty_world w' "ghijkl" Hget)
    as (Hlen & _ & Hnot & _ & Hdirs & _).
  split; [exact Hlen|]. split; [exact Hnot|exact Hdirs].
Defined.

(** X6, witness: a trainer that resumes from the second epoch. *)
Lemma Trainer_init_cases_witness :
  let w := world_with "ckpt" (a_checkpoint [1; 2] [2] 3) in
  Trainer_init "ckpt" (a_config 3) "trainer_config.json" w
  = (Ok (a_new_trainer "ckpt" 2 3), w)
  ∧ rng w = rng_seed (cfg_random_seed (config (a_new_trainer "ckpt" 2 3)))
  ∧ events w = events w.
Proof.
  intros w.
  assert (Trainer_init "ckpt" (a_config 3) "trainer_config.json" w
          = (Ok (a_new_trainer "ckpt" 2 3), w)) as Hinit by (by vm_compute).
  split; [exact Hinit|].
  destruct (Trainer_init_cases "ckpt" (a_config 3) "trainer_config.json" w w
              (a_new_trainer "ckpt" 2 3) Hinit)
    as (_ & _ & Hrng & _ & _ & Hev & _).
  split; [exact Hrng|exact Hev].
Defined.


(** X8, witness: a model snapshot of epoch 2 without its optimizer
    snapshot. *)
Lemma resume_ignores_unfinished_save_witness :
  optimizers (a_checkpoint [1] [1] 2) !! 2 = None
  ∧ resume_scan (write_snapshot 2 (2 : Model) (a_checkpoint [1] [1] 2))
      "trainer_config.json"
    = resume_scan (a_checkpoint [1] [1] 2) "trainer_config.json".
Proof.
  assert (optimizers (a_checkpoint [1] [1] 2) !! 2 = None) as Hn by reflexivity.
  split; [exact Hn|].
  exact (resume_ignores_unfinished_save (a_checkpoint [1] [1] 2) 2 (2 : Model)
           "trainer_config.json" Hn).
Defined.

(** X9, witness: three epochs from scratch with [epoch_partial = 2]. *)
Lemma train_every_epoch_witness :
  let t := a_new_trainer "ckpt" 0 3 in
  current_epoch t < cfg_epoch (config t)
  ∧ ∃ t' w',
      train t (Some 1) (Some 2) empty_world = (Ok t', w')
      ∧ events w' = [EvTrainEpoch "ckpt" 0; EvTrainEpoch "ckpt" 1]
      ∧ epochs (get_dir "ckpt" w') !! 2 ≫= snapshot = Some (model t').
Proof.
  intros t.
  assert (current_epoch t < cfg_epoch (config t)) as Hlt by (simpl; lia).
  split; [exact Hlt|].
  destruct (train_every_epoch t (Some 2) empty_world Hlt)
    as (t' & w' & Htrain & _ & _ & _ & _ & _ & Hev & _ & _ & _ & _ & _ & Hsnap & _).
  - intros Hne. by destruct Hne.
  - exists t', w'. split; [exact Htrain|]. split; [exact Hev|exact Hsnap].
Defined.

(** X10, witness: a run resumed from epoch 2 of 5 without [epoch_save];
    the optimizer file of epoch 2 stays. *)
Lemma train_saves_once_witness :
  let t := a_new_trainer "ckpt" 2 5 in
  let w := world_with "ckpt" (a_checkpoint [1; 2] [2] 5) in
  current_epoch t < cfg_epoch (config t)
  ∧ is_Some (optimizers (get_dir "ckpt" w) !! 2)
  ∧ ∃ t' w',
      train t None None w = (Ok t', w')
      ∧ optimizers (get_dir "ckpt" w') !! 2 = optimizers (get_dir "ckpt" w) !! 2.
Proof.
  intros t w.
  assert (current_epoch t < cfg_epoch (config t)) as Hlt by (simpl; lia).
  assert (is_Some (optimizers (get_dir "ckpt" w) !! 2)) as Hopt
    by (exists 2; reflexivity).
  split; [exact Hlt|]. split; [exact Hopt|].
  destruct (train_saves_once t None w Hlt (λ _, Hopt))
    as (t' & w' & Htrain & _ & _ & _ & _ & _ & _ & _ & _ & _ & _ & Hstay).
  exists t', w'. split; [exact Htrain|].
  apply Hstay; simpl; lia.
Defined.

(** X11, witness: the same resumed run with and without [epoch_save]. *)
Lemma train_result_independent_of_epoch_save_witness :
  let t := a_new_trainer "ckpt" 2 5 in
  let w := world_with "ckpt" (a_checkpoint [1; 2] [2] 5) in
  current_epoch t < cfg_epoch (config t)
  ∧ is_Some (optimizers (get_dir "ckpt" w) !! 2)
  ∧ ∃ t' w1 w2,
      train t (Some 1) None w = (Ok t', w1)
      ∧ train t None None w = (Ok t', w2)
      ∧ events w1 = events w2.
Proof.
  intros t w.
  assert (current_epoch t < cfg_epoch (config t)) as Hlt by (simpl; lia).
  assert (is_Some (optimizers (get_dir "ckpt" w) !! 2)) as Hopt
    by (exists 2; reflexivity).
  split; [exact Hlt|]. split; [exact Hopt|].
  destruct (train_result_independent_of_epoch_save t None w Hlt (λ _, Hopt))
    as (t' & w1 & w2 & H1 & H2 & Hev & _).
  exists t', w1, w2. split; [exact H1|]. split; [exact H2|exact Hev].
Defined.

(** X12, witness: a trainer at epoch 3 of 2. *)
Lemma train_no_epoch_left_witness :
  let t := a_new_trainer "ckpt" 3 2 in
  let w := world_with "ckpt" (a_checkpoint [3] [3] 2) in
  cfg_epoch (config t) ≤ current_epoch t
  ∧ train t (Some 1) None w = (Raise NameError, w).
Proof.
  intros t w.
  assert (cfg_epoch (config t) ≤ current_epoch t) as Hle by (simpl; lia).
  split; [exact Hle|].
  exact (train_no_epoch_left t (Some 1) None w Hle).
Defined.

(** X13, witness. *)
Lemma train_epoch_save_zero_witness :
  let t := a_new_trainer "ckpt" 0 2 in
  current_epoch t < cfg_epoch (config t)
  ∧ train t (Some 0) None empty_world
    = (Raise ZeroDivisionError, log_event (EvTrainEpoch "ckpt" 0) empty_world).
Proof.
  intros t.
  assert (current_epoch t < cfg_epoch (config t)) as Hlt by (simpl; lia).
  split; [exact Hlt|].
  apply (train_epoch_save_zero t None empty_world Hlt).
  intros Hne. by destruct Hne.
Defined.

(** X14, witness: the second epoch of a directory is evaluated and
    recorded, then recorded again. *)
Lemma eval_and_record_once_witness :
  let gs := a_searcher 2 1 in
  let w := world_with "model_a" (a_checkpoint [1; 2] [2] 2) in
  let ms := [(("model_a", 2), 7000000%Z)] in
  let w' := (eval_and_record gs [] ("model_a", 2) w).2 in
  eval_and_record gs [] ("model_a", 2) w = (Ok ms, w')
  ∧ eval_and_record gs ms ("model_a", 2) w' = (Ok ms, w').
Proof.
  intros gs w ms w'.
  assert (eval_and_record gs [] ("model_a", 2) w = (Ok ms, w')) as Hrec
    by (by vm_compute).
  split; [exact Hrec|].
  destruct (eval_and_record_once gs [] ("model_a", 2) w w' ms Hrec)
    as (tmp & score & _ & _ & _ & Hagain).
  exact Hagain.
Defined.

(** X15, witness: three scores, the best one twice. *)
Lemma rank_best_first_witness :
  rank [("a", 5000000%Z); ("b", 7000000%Z); ("c", 7000000%Z)]
  ≡ₚ [("a", 5000000%Z); ("b", 7000000%Z); ("c", 7000000%Z)].
Proof.
  exact (proj1 (@rank_best_first Z fixed_num Z.le_po Z.le_total string
                  [("a", 5000000%Z); ("b", 7000000%Z); ("c", 7000000%Z)])).
Defined.

(** X16, witness: the one grid point has its directory and its
    checkpoint of [epoch_partial]. *)
Lemma phase1_train_finished_witness :
  let gs := a_searcher 2 1 in
  let point : grid_point Z :=
    (Some 1000%Z, Some 10000000%Z, Some 0%Z, None, None, None, Some 10000000%Z) in
  let w := world_with "model_a"
             {| epochs := {[ 1 := {| snapshot := Some (1 : Model);
                                     eval_metric := None |} ]};
                optimizers := {[ 1 := (1 : OptState) ]};
                configs := {[ "trainer_config.json" := trainer_config gs point ]} |} in
  duplicated_ckpt (glob_trainer_configs w) point = ["model_a"]
  ∧ epoch_exists "model_a" (epoch_partial gs) w = true
  ∧ ∃ dirs, phase1_train 5 gs w = (Ok dirs, w).
Proof.
  intros gs point w.
  assert (duplicated_ckpt (glob_trainer_configs w) point = ["model_a"]) as Hdup
    by (by vm_compute).
  assert (epoch_exists "model_a" (epoch_partial gs) w = true) as Hex
    by (by vm_compute).
  split; [exact Hdup|]. split; [exact Hex|].
  destruct (phase1_train_finished 5 gs w) as (dirs & Hrun & _).
  - constructor; [|constructor]. exists "model_a". split; [exact Hdup|exact Hex].
  - exists dirs. exact Hrun.
Defined.

(** X17, witness: phase 2 with an empty ranking. *)
Lemma no_candidate_raises_IndexError_witness :
  (let* metrics := phase2 (a_searcher 2 1) [] in
   select_best 5 (a_searcher 2 1) metrics) empty_world
  = (Raise IndexError,
     log_event (EvWriteRoot "metric.2nd.json")
       (set_root_files <["metric.2nd.json" := JRanking []]> empty_world)).
Proof.
  apply (no_candidate_raises_IndexError 5 (a_searcher 2 1) [] empty_world).
  right. reflexivity.
Defined.

(** X18, witness: two grid points on an empty root. *)
Lemma phase1_dirs_distinct_witness :
  let gs := two_point_searcher 2 1 in
  let w' := (phase1_train 5 gs empty_world).2 in
  NoDup (all_dynamic_configs gs)
  ∧ phase1_train 5 gs empty_world = (Ok ["model_abcdef"; "model_ghijkl"], w')
  ∧ NoDup ["model_abcdef"; "model_ghijkl"].
Proof.
  intros gs w'.
  assert (NoDup (all_dynamic_configs gs)) as Hnd
    by (apply (bool_decide_unpack _); by vm_compute).
  assert (phase1_train 5 gs empty_world
          = (Ok ["model_abcdef"; "model_ghijkl"], w')) as Hrun
    by (by vm_compute).
  split; [exact Hnd|]. split; [exact Hrun|].
  exact (proj1 (phase1_dirs_distinct 5 gs empty_world w' _ Hnd Hrun)).
Defined.

(** X19, witness: the loop that started at epoch 2 and stopped at
    epoch 4. *)
Lemma phase3_stops_only_at_drop_witness :
  let gs := a_searcher 2 1 in
  let w := world_with "model_a" (a_checkpoint [1; 2] [2] 2) in
  let w' := (phase3_loop 5 gs "model_a" 2 (a_config 2) 7000000%Z
               [(2, 7000000%Z)] w).2 in
  phase3_loop 5 gs "model_a" 2 (a_config 2) 7000000%Z [(2, 7000000%Z)] w
  = (Ok (4, a_config 4, [(2, 7000000%Z); (3, 7000000%Z); (4, 6000000%Z)]), w')
  ∧ ∃ scores final,
      4 = 2 + 1 + length scores
      ∧ extend_epochs gs "model_a" (S (length scores)) 2 (a_config 2) w
        = (Ok (scores ++ [final]), w').
Proof.
  intros gs w w'.
  assert (phase3_loop 5 gs "model_a" 2 (a_config 2) 7000000%Z [(2, 7000000%Z)] w
          = (Ok (4, a_config 4,
                 [(2, 7000000%Z); (3, 7000000%Z); (4, 6000000%Z)]), w'))
    as Hloop by (by vm_compute).
  split; [exact Hloop|].
  destruct (phase3_stops_only_at_drop gs "model_a" 5 2 (a_config 2) 7000000%Z
              [(2, 7000000%Z)] w w' _ _ _ Hloop)
    as (scores & final & He & _ & _ & Hext & _).
  exists scores, final. split; [exact He|exact Hext].
Defined.



(** X22, witness: phase 1 over two grid points. *)
Lemma phase1_ranks_every_point_witness :
  let gs := two_point_searcher 2 1 in
  let metrics := [(("model_abcdef", 1), 5000000%Z);
                  (("model_ghijkl", 1), 5000000%Z)] in
  let w' := (phase1 5 gs empty_world).2 in
  NoDup (all_dynamic_configs gs)
  ∧ phase1 5 gs empty_world = (Ok metrics, w')
  ∧ length metrics = length (all_dynamic_configs gs)
  ∧ root_files w' !! "metric.1st.json" = Some (JRanking metrics).
Proof.
  intros gs metrics w'.
  assert (NoDup (all_dynamic_configs gs)) as Hnd
    by (apply (bool_decide_unpack _); by vm_compute).
  assert (phase1 5 gs empty_world = (Ok metrics, w')) as Hrun
    by (by vm_compute).
  split; [exact Hnd|]. split; [exact Hrun|].
  destruct (phase1_ranks_every_point 5 gs empty_world w' metrics Hnd Hrun)
    as (Hlen & _ & _ & Hfile).
  split; [exact Hlen|exact Hfile].
Defined.
